(** * Nutrition statistics service: a shallow embedding of
      [server/src/services/statistics.ts] and the properties of its
      aggregation, scoring and insight rules.

    Conventions of the embedding.
    - A JavaScript [number] is an exact rational ([Q]); [Math.round],
      [Math.floor] and [Math.ceil] are the exact functions on rationals.
      Values produced by [Math.round] are integers ([Z]). The goal
      percentage, where the rounding of the double-precision operations
      shows in the result, is also computed on IEEE 754 binary64 values
      ([calorieGoalAchievementPercentD]). Elsewhere a value whose exact
      quotient lies at a rounding or band boundary can differ from the
      double the code computes.
    - A [Date] is its [getTime()] value, an integer count of milliseconds.
      Local time is obtained with a fixed offset [tz] (milliseconds east of
      UTC), a variable of the section holding the service; the two
      [new Date()] of a call read the same instant [now].
    - A nullable column of the [meal] table is an [option]; [x || 0] is
      [orZero].
    - A rejected database promise is [None]; the [try]/[catch] of
      [getNutritionStatistics] turns it into [Err].
    - [getNutritionStatistics] is the database read followed by
      [aggregate], the rest of its body, so that the aggregation can be
      stated on a list of meals. *)

From Stdlib Require Import ZArith QArith Qround Qminmax Lqa Lia.
From Stdlib Require Import List Sorted Bool String Ascii DecimalString DecimalZ.
From Stdlib Require Import Permutation.
From Stdlib Require SpecFloat.
Import ListNotations.

Local Open Scope Z_scope.

(** ** Numbers *)

Definition Math_round (x : Q) : Z := Qfloor (x + (1 # 2))%Q.
Definition Math_floor (x : Q) : Z := Qfloor x.
Definition Math_ceil (x : Q) : Z := Qceiling x.

Definition orZero (x : option Q) : Q :=
  match x with
  | Some v => v
  | None => 0%Q
  end.

(** [a >= b], [a <= b], [a > b] and [a < b] on numbers, as booleans. *)
Definition geq (a b : Q) : bool := Qle_bool b a.
Definition leq (a b : Q) : bool := Qle_bool a b.
Definition gt (a b : Q) : bool := negb (Qle_bool a b).
Definition lt (a b : Q) : bool := negb (Qle_bool b a).

Definition sumZ (l : list Z) : Z := fold_right Z.add 0 l.
Definition sumQ (l : list Q) : Q := fold_right Qplus 0%Q l.

(** ** Strings *)

(** [n.toString()] for an integer [n]. *)
Definition toString (n : Z) : string := NilZero.string_of_int (Z.to_int n).

(** [parseInt(s)] and [Number(s)]; [None] is [NaN]. Only decimal integer
    numerals, with an optional minus sign, are read as numbers: the strings
    the statistics service parses are built from [toString] and [padStart]
    alone. A string that JavaScript reads by its numeric prefix or after
    white space or a plus sign is not covered: statements on a parsed
    string take the value [parseInt] gives for it as a hypothesis. *)
Definition parseInt (s : string) : option Z :=
  option_map Z.of_int (NilZero.int_of_string s).

Definition Number (s : string) : option Z :=
  match s with
  | EmptyString => Some 0
  | _ => parseInt s
  end.

Fixpoint repeatChar (c : ascii) (n : nat) : string :=
  match n with
  | O => EmptyString
  | S k => String c (repeatChar c k)
  end.

(** [s.padStart(width, c)] with a one-character filler. *)
Definition padStart (s : string) (width : nat) (c : ascii) : string :=
  (repeatChar c (width - String.length s) ++ s)%string.

(** [s.split(sep)] with a one-character separator. *)
Fixpoint split (sep : ascii) (s : string) : list string :=
  match s with
  | EmptyString => [EmptyString]
  | String c r =>
      if Ascii.eqb c sep then EmptyString :: split sep r
      else match split sep r with
           | [] => [String c EmptyString]
           | w :: ws => String c w :: ws
           end
  end.

Definition lowerChar (c : ascii) : ascii :=
  let n := nat_of_ascii c in
  if (Nat.leb 65 n && Nat.leb n 90)%bool then ascii_of_nat (n + 32) else c.

Fixpoint toLowerCase (s : string) : string :=
  match s with
  | EmptyString => EmptyString
  | String c r => String (lowerChar c) (toLowerCase r)
  end.

Fixpoint includes (s sub : string) : bool :=
  if String.prefix sub s then true
  else match s with
       | EmptyString => false
       | String _ r => includes r sub
       end.

(** [x?.toLowerCase().includes(sub)] on a nullable string: [undefined] is
    falsy. *)
Definition includesLower (x : option string) (sub : string) : bool :=
  match x with
  | Some s => includes (toLowerCase s) sub
  | None => false
  end.

Definition optStringEq (x : option string) (s : string) : bool :=
  match x with
  | Some v => String.eqb v s
  | None => false
  end.

(** ** Data model *)

(** A row of the [meal] table, restricted to the columns the service
    reads. *)
Record Meal := {
  user_id : string;
  upload_time : Z;
  calories : option Q;
  protein_g : option Q;
  carbs_g : option Q;
  fats_g : option Q;
  fiber_g : option Q;
  sodium_mg : option Q;
  sugar_g : option Q;
  liquids_ml : option Q;
  alcohol_g : option Q;
  caffeine_mg : option Q;
  processing_level : option string;
  food_category : option string;
  meal_name : option string;
  allergens_json : option (list string);
  health_risk_notes : option string
}.

Record EatingHours := { start : string; end_ : string }.

(** What the field [insights] of the result holds: an array of strings, or
    the promise an [async] method returns when it is called. *)
Inductive InsightsValue :=
  | Returned (insights : list string)
  | PromiseValue.

Module Trends.
Record t := {
  calories : list Z;
  protein : list Z;
  carbs : list Z;
  fats : list Z
}.
End Trends.

Record GeneralStats := {
  averageCaloriesPerMeal : Z;
  averageProteinPerMeal : Z;
  mostCommonMealTime : string;
  averageMealsPerDay : Q
}.

Record HealthInsights := {
  proteinAdequacy : string;
  calorieDistribution : string;
  fiberIntake : string
}.

Record NutritionStatistics := {
  averageCaloriesDaily : Z;
  calorieGoalAchievementPercent : Z;
  averageProteinDaily : Z;
  averageCarbsDaily : Z;
  averageFatsDaily : Z;
  averageFiberDaily : Z;
  averageSodiumDaily : Z;
  averageSugarDaily : Z;
  averageFluidsDaily : Z;
  processedFoodPercentage : Z;
  alcoholCaffeineIntake : Q;
  vegetableFruitIntake : Z;
  fullLoggingPercentage : Z;
  allergenAlerts : list string;
  healthRiskPercentage : Z;
  averageEatingHours : EatingHours;
  (** [None] is [NaN] *)
  intermittentFastingHours : option Z;
  missedMealsAlert : Z;
  nutritionScore : Z;
  weeklyTrends : Trends.t;
  insights : InsightsValue;
  recommendations : list string;
  generalStats : GeneralStats;
  healthInsights : HealthInsights
}.

(** The outcome of the [async] function: a resolved value or a thrown
    [Error] with its message. *)
Inductive Outcome :=
  | Ok (statistics : NutritionStatistics)
  | Err (message : string).

Module Totals.
Record t := {
  calories : Q;
  protein : Q;
  carbs : Q;
  fats : Q;
  fiber : Q;
  sodium : Q;
  sugar : Q;
  fluids : Q
}.
End Totals.

Module DayTotal.
Record t := {
  calories : Q;
  protein : Q;
  carbs : Q;
  fats : Q;
  count : Z
}.
End DayTotal.

Definition msPerDay : Z := 1000 * 60 * 60 * 24.

(** ** Arrays and objects *)

(** [l[i] = f(l[i])] for an index inside the array. *)
Fixpoint updateAt {A : Type} (i : nat) (f : A -> A) (l : list A) : list A :=
  match l, i with
  | [], _ => []
  | x :: r, O => f x :: r
  | x :: r, S k => x :: updateAt k f r
  end.

(** [Math.min(...l)] and [Math.max(...l)]; on the empty array JavaScript
    gives an infinity, which no caller below can reach. *)
Definition Math_min (l : list Q) : Q :=
  match l with
  | [] => 0%Q
  | x :: r => fold_left Qmin r x
  end.

Definition Math_max (l : list Q) : Q :=
  match l with
  | [] => 0%Q
  | x :: r => fold_left Qmax r x
  end.

(** An object with integer keys, [{ [key: number]: number }]: its own keys
    are enumerated in ascending numeric order, so the association list is
    kept sorted by key. *)
Definition HourCounts := list (Z * Z).

Fixpoint lookup (o : HourCounts) (key : Z) : option Z :=
  match o with
  | [] => None
  | (k, v) :: r => if key =? k then Some v else lookup r key
  end.

Fixpoint store (o : HourCounts) (key value : Z) : HourCounts :=
  match o with
  | [] => [(key, value)]
  | (k, v) :: r =>
      if key =? k then (k, value) :: r
      else if key <? k then (key, value) :: (k, v) :: r
      else (k, v) :: store r key value
  end.

Definition Object_keys (o : HourCounts) : list string :=
  map (fun kv => toString (fst kv)) o.

(** [o[k]] where the key itself may be [NaN]. *)
Definition lookupAt (o : HourCounts) (key : option Z) : option Z :=
  match key with
  | Some k => lookup o k
  | None => None
  end.

(** [x > y] where either side may be [undefined]. *)
Definition gtUndef (x y : option Z) : bool :=
  match x, y with
  | Some a, Some b => a >? b
  | _, _ => false
  end.

(** [l.reduce(f)] without an initial value. On an empty array JavaScript
    raises a [TypeError]; [dflt] stands for that case, which the one caller
    below never meets (lemma [getMostCommonMealTime_hour]). *)
Definition reduce1 {A : Type} (f : A -> A -> A) (l : list A) (dflt : A) : A :=
  match l with
  | [] => dflt
  | x :: r => fold_left f r x
  end.

(** ** The database read *)

Fixpoint insertByTime (m : Meal) (l : list Meal) : list Meal :=
  match l with
  | [] => [m]
  | x :: r =>
      if upload_time m <? upload_time x then m :: x :: r
      else x :: insertByTime m r
  end.

Definition sortByTime (l : list Meal) : list Meal :=
  fold_right insertByTime [] l.

(** [prisma.meal.findMany] with the [where] and [orderBy] of the service; the
    table is [None] when the query fails. *)
Definition findMany (table : option (list Meal)) (userId : string)
    (gte lte : Z) : option (list Meal) :=
  option_map
    (fun rows =>
       sortByTime
         (filter (fun m => String.eqb (user_id m) userId
                           && (gte <=? upload_time m)
                           && (upload_time m <=? lte))%bool rows))
    table.

(** ** The service *)

Definition getDefaultStatistics : NutritionStatistics := {|
  averageCaloriesDaily := 0;
  calorieGoalAchievementPercent := 0;
  averageProteinDaily := 0;
  averageCarbsDaily := 0;
  averageFatsDaily := 0;
  averageFiberDaily := 0;
  averageSodiumDaily := 0;
  averageSugarDaily := 0;
  averageFluidsDaily := 0;
  processedFoodPercentage := 0;
  alcoholCaffeineIntake := 0%Q;
  vegetableFruitIntake := 0;
  fullLoggingPercentage := 0;
  allergenAlerts := [];
  healthRiskPercentage := 0;
  averageEatingHours := {| start := "08:00"; end_ := "20:00" |};
  intermittentFastingHours := Some 12;
  missedMealsAlert := 0;
  nutritionScore := 50;
  weeklyTrends := {|
    Trends.calories := [0; 0; 0; 0; 0; 0; 0];
    Trends.protein := [0; 0; 0; 0; 0; 0; 0];
    Trends.carbs := [0; 0; 0; 0; 0; 0; 0];
    Trends.fats := [0; 0; 0; 0; 0; 0; 0]
  |};
  insights :=
    Returned ["Start logging meals to see personalized insights!"%string];
  recommendations :=
    ["Begin by logging your meals regularly to get personalized recommendations."%string];
  generalStats := {|
    averageCaloriesPerMeal := 0;
    averageProteinPerMeal := 0;
    mostCommonMealTime := "12:00";
    averageMealsPerDay := 0%Q
  |};
  healthInsights := {|
    proteinAdequacy := "Start logging meals to track protein intake";
    calorieDistribution := "Begin meal logging to analyze calorie patterns";
    fiberIntake := "Track your meals to monitor fiber consumption"
  |}
|}.

Definition dayIndexOf (startDate : Z) (meal : Meal) : Z :=
  Math_floor (inject_Z (upload_time meal - startDate) / inject_Z msPerDay).

Definition emptyDay : DayTotal.t := {|
  DayTotal.calories := 0%Q;
  DayTotal.protein := 0%Q;
  DayTotal.carbs := 0%Q;
  DayTotal.fats := 0%Q;
  DayTotal.count := 0
|}.

Definition addMeal (meal : Meal) (day : DayTotal.t) : DayTotal.t := {|
  DayTotal.calories := (DayTotal.calories day + orZero (calories meal))%Q;
  DayTotal.protein := (DayTotal.protein day + orZero (protein_g meal))%Q;
  DayTotal.carbs := (DayTotal.carbs day + orZero (carbs_g meal))%Q;
  DayTotal.fats := (DayTotal.fats day + orZero (fats_g meal))%Q;
  DayTotal.count := DayTotal.count day + 1
|}.

(** The first [forEach] of [calculateWeeklyTrends]. *)
Definition accumulateDays (days : Z) (startDate : Z) (meals : list Meal)
    (dayTotals : list DayTotal.t) : list DayTotal.t :=
  fold_left
    (fun dayTotals meal =>
       let dayIndex := dayIndexOf startDate meal in
       if ((dayIndex >=? 0) && (dayIndex <? days))%bool
       then updateAt (Z.to_nat dayIndex) (addMeal meal) dayTotals
       else dayTotals)
    meals dayTotals.

Definition calculateWeeklyTrends (meals : list Meal) (startDate endDate : Z)
    : Trends.t :=
  let days := 7 in
  let dayTotals := repeat emptyDay (Z.to_nat days) in
  let dayTotals := accumulateDays days startDate meals dayTotals in
  {| Trends.calories := map (fun day => Math_round (DayTotal.calories day)) dayTotals;
     Trends.protein := map (fun day => Math_round (DayTotal.protein day)) dayTotals;
     Trends.carbs := map (fun day => Math_round (DayTotal.carbs day)) dayTotals;
     Trends.fats := map (fun day => Math_round (DayTotal.fats day)) dayTotals |}.

Definition calculateNutritionScore
    (averageCaloriesDaily averageProteinDaily averageFiberDaily
     processedFoodPercentage calorieGoalAchievementPercent : Q) : Z :=
  let score := 50%Q in
  let score :=
    if (geq calorieGoalAchievementPercent 90 && leq calorieGoalAchievementPercent 110)%bool
    then (score + 20)%Q
    else if (geq calorieGoalAchievementPercent 80 && leq calorieGoalAchievementPercent 120)%bool
    then (score + 15)%Q
    else if (geq calorieGoalAchievementPercent 70 && leq calorieGoalAchievementPercent 130)%bool
    then (score + 10)%Q
    else score in
  let score :=
    if geq averageProteinDaily 120 then (score + 15)%Q
    else if geq averageProteinDaily 80 then (score + 10)%Q
    else if geq averageProteinDaily 50 then (score + 5)%Q
    else score in
  let score :=
    if geq averageFiberDaily 25 then (score + 10)%Q
    else if geq averageFiberDaily 15 then (score + 7)%Q
    else if geq averageFiberDaily 10 then (score + 5)%Q
    else score in
  let score :=
    if leq processedFoodPercentage 10 then (score + 5)%Q
    else if leq processedFoodPercentage 20 then (score + 0)%Q
    else if leq processedFoodPercentage 40 then (score - 5)%Q
    else (score - 15)%Q in
  Z.max 1 (Z.min 100 (Math_round score)).

Definition tierExcellent : string :=
  "Excellent nutrition habits! You're maintaining a well-balanced diet.".
Definition tierGood : string :=
  "Good nutrition foundation with room for improvement.".
Definition tierAdjust : string :=
  "Your nutrition could benefit from some adjustments.".

(** [insights.push(s)] *)
Definition push (l : list string) (s : string) : list string := l ++ [s].

(** The [generateInsights] of lines 353-392, the rule list of the
    insights. *)
Definition generateInsights
    (averageCaloriesDaily averageProteinDaily averageFiberDaily
     processedFoodPercentage : Q) (nutritionScore mealCount totalDays : Z)
    : list string :=
  let insights : list string := [] in
  let insights :=
    if nutritionScore >=? 80 then push insights tierExcellent
    else if nutritionScore >=? 60 then push insights tierGood
    else push insights tierAdjust in
  let insights :=
    if geq averageProteinDaily 120 then
      push insights "Great protein intake! This supports muscle maintenance and satiety."
    else if lt averageProteinDaily 80 then
      push insights "Consider increasing protein intake for better muscle support and satiety."
    else insights in
  let insights :=
    if gt processedFoodPercentage 30 then
      push insights "High processed food intake detected. Try incorporating more whole foods."
    else if lt processedFoodPercentage 15 then
      push insights "Excellent focus on whole foods! This supports overall health."
    else insights in
  let mealsPerDay := (inject_Z mealCount / inject_Z totalDays)%Q in
  let insights :=
    if lt mealsPerDay 2 then
      push insights "Consider logging more meals for better nutrition tracking."
    else if gt mealsPerDay 5 then
      push insights "Frequent eating pattern detected. Ensure portion control."
    else insights in
  insights.

(** ** The two declarations of [generateInsights]

    The static methods of [StatisticsService] in the order of their
    declaration, each with the line of its declaration and whether it is
    [async]. *)
Record StaticMethod := { declaredAt : Z; isAsync : bool }.

Definition staticMethods : list (string * StaticMethod) :=
  [("getNutritionStatistics"%string, {| declaredAt := 45; isAsync := true |});
   ("getDefaultStatistics"%string, {| declaredAt := 220; isAsync := false |});
   ("calculateWeeklyTrends"%string, {| declaredAt := 263; isAsync := false |});
   ("calculateNutritionScore"%string, {| declaredAt := 303; isAsync := false |});
   ("generateInsights"%string, {| declaredAt := 353; isAsync := false |});
   ("generateRecommendations"%string, {| declaredAt := 394; isAsync := false |});
   ("calculateEatingHours"%string, {| declaredAt := 426; isAsync := false |});
   ("calculateIntermittentFasting"%string,
    {| declaredAt := 451; isAsync := false |});
   ("getMostCommonMealTime"%string, {| declaredAt := 468; isAsync := false |});
   ("calculateAlcoholCaffeine"%string, {| declaredAt := 485; isAsync := false |});
   ("calculateVegetableFruitIntake"%string,
    {| declaredAt := 491; isAsync := false |});
   ("calculateFullLoggingPercentage"%string,
    {| declaredAt := 502; isAsync := false |});
   ("extractAllergenAlerts"%string, {| declaredAt := 507; isAsync := false |});
   ("calculateHealthRiskPercentage"%string,
    {| declaredAt := 519; isAsync := false |});
   ("calculateMissedMeals"%string, {| declaredAt := 527; isAsync := false |});
   ("getProteinAdequacyInsight"%string,
    {| declaredAt := 532; isAsync := false |});
   ("getCalorieDistributionInsight"%string,
    {| declaredAt := 542; isAsync := false |});
   ("getFiberIntakeInsight"%string, {| declaredAt := 552; isAsync := false |});
   ("generatePDFReport"%string, {| declaredAt := 562; isAsync := true |});
   ("generateInsights"%string, {| declaredAt := 568; isAsync := true |})].

(** [this.name]: a class that declares a static name twice keeps the later
    declaration. *)
Definition resolveStatic (name : string) : option StaticMethod :=
  fold_left
    (fun found declaration =>
       if String.eqb (fst declaration) name then Some (snd declaration)
       else found)
    staticMethods None.

(** What the call [this.generateInsights({...})] of line 148 evaluates to:
    the array of the rule list if the name reaches it, a promise if it
    reaches an [async] method, which returns one before its body runs. The
    name is declared, so the last case does not arise. *)
Definition this_generateInsights
    (averageCaloriesDaily averageProteinDaily averageFiberDaily
     processedFoodPercentage : Q) (nutritionScore mealCount totalDays : Z)
    : InsightsValue :=
  match resolveStatic "generateInsights" with
  | Some method =>
      if isAsync method then PromiseValue
      else Returned
             (generateInsights averageCaloriesDaily averageProteinDaily
                averageFiberDaily processedFoodPercentage nutritionScore
                mealCount totalDays)
  | None => Returned []
  end.

Definition generateRecommendations
    (averageCaloriesDaily averageProteinDaily averageFiberDaily
     processedFoodPercentage : Q) (nutritionScore : Z) : list string :=
  let recommendations : list string := [] in
  let recommendations :=
    if lt averageProteinDaily 100 then
      push recommendations "Add lean proteins like chicken, fish, or legumes to your meals."
    else recommendations in
  let recommendations :=
    if lt averageFiberDaily 20 then
      push recommendations "Increase fiber intake with vegetables, fruits, and whole grains."
    else recommendations in
  let recommendations :=
    if gt processedFoodPercentage 25 then
      push recommendations "Replace processed foods with whole food alternatives when possible."
    else recommendations in
  let recommendations :=
    if lt averageCaloriesDaily 1500 then
      push recommendations "Consider if you're eating enough to meet your energy needs."
    else if gt averageCaloriesDaily 2500 then
      push recommendations "Monitor portion sizes to align with your calorie goals."
    else recommendations in
  push recommendations
    "Stay hydrated and maintain regular meal timing for optimal metabolism.".

Definition formatHour (hour : Q) : string :=
  let h := Math_floor hour in
  let m := Math_round ((hour - inject_Z h) * 60)%Q in
  (padStart (toString h) 2 "0" ++ ":" ++ padStart (toString m) 2 "0")%string.

(** [const [a, b] = s.split(':').map(Number)]: a missing element is
    [undefined], which arithmetic turns into [NaN]. *)
Definition splitNumbers (s : string) : option Z * option Z :=
  let parts := map Number (split ":" s) in
  (nth 0 parts None, nth 1 parts None).

Definition calculateIntermittentFasting (eatingHours : EatingHours)
    : option Z :=
  let '(startH, startM) := splitNumbers (start eatingHours) in
  let '(endH, endM) := splitNumbers (end_ eatingHours) in
  match startH, startM, endH, endM with
  | Some startH, Some startM, Some endH, Some endM =>
      let startMinutes := startH * 60 + startM in
      let endMinutes := endH * 60 + endM in
      let fastingMinutes :=
        if endMinutes >? startMinutes
        then 24 * 60 - (endMinutes - startMinutes)
        else startMinutes - endMinutes in
      Some (Math_round (inject_Z fastingMinutes / 60)%Q)
  | _, _, _, _ => None
  end.

Definition calculateAlcoholCaffeine (meals : list Meal) : Q :=
  fold_left
    (fun total meal =>
       (total + orZero (alcohol_g meal) + orZero (caffeine_mg meal) / 100)%Q)
    meals 0%Q.

(** A count, and [l.length], as numbers. *)
Definition natQ (n : nat) : Q := inject_Z (Z.of_nat n).
Definition lengthQ {A : Type} (l : list A) : Q := natQ (List.length l).

Definition calculateVegetableFruitIntake (meals : list Meal) : Z :=
  let vegetableFruitMeals :=
    List.length
      (filter (fun meal =>
                 includesLower (food_category meal) "vegetable"
                 || includesLower (food_category meal) "fruit"
                 || includesLower (meal_name meal) "salad"
                 || includesLower (meal_name meal) "fruit")%bool meals) in
  if (0 <? List.length meals)%nat
  then Math_round (natQ vegetableFruitMeals / lengthQ meals * 100)%Q
  else 0.

Definition calculateFullLoggingPercentage (meals : list Meal) (totalDays : Z)
    : Z :=
  let expectedMeals := totalDays * 3 in
  Z.min 100 (Math_round (lengthQ meals / inject_Z expectedMeals * 100)%Q).

(** [allergens.add(a)] on a [Set], which keeps insertion order. *)
Definition setAdd (s : list string) (a : string) : list string :=
  if existsb (String.eqb a) s then s else s ++ [a].

Definition extractAllergenAlerts (meals : list Meal) : list string :=
  fold_left
    (fun allergens meal =>
       match allergens_json meal with
       | Some l => fold_left setAdd l allergens
       | None => allergens
       end)
    meals [].

Definition calculateHealthRiskPercentage (meals : list Meal) : Z :=
  let riskMeals :=
    List.length
      (filter (fun meal =>
                 match health_risk_notes meal with
                 | Some notes => (0 <? String.length notes)%nat
                 | None => false
                 end) meals) in
  if (0 <? List.length meals)%nat
  then Math_round (natQ riskMeals / lengthQ meals * 100)%Q
  else 0.

Definition calculateMissedMeals (totalDays mealCount : Z) : Z :=
  let expectedMeals := totalDays * 3 in
  Z.max 0 (expectedMeals - mealCount).

Definition getProteinAdequacyInsight (averageProtein : Q) : string :=
  if geq averageProtein 120 then
    "Excellent protein intake supporting muscle health and satiety"
  else if geq averageProtein 80 then
    "Good protein levels, consider slight increase for optimal benefits"
  else "Protein intake below recommended levels - focus on lean proteins".

Definition getCalorieDistributionInsight (averageCalories : Q) : string :=
  if (geq averageCalories 1800 && leq averageCalories 2200)%bool then
    "Calorie intake appears well-balanced for most adults"
  else if lt averageCalories 1500 then
    "Calorie intake may be too low - ensure adequate energy for daily needs"
  else "Higher calorie intake - monitor portion sizes and activity levels".

Definition getFiberIntakeInsight (averageFiber : Q) : string :=
  if geq averageFiber 25 then
    "Excellent fiber intake supporting digestive health"
  else if geq averageFiber 15 then
    "Good fiber levels, aim for 25g daily for optimal benefits"
  else "Low fiber intake - increase vegetables, fruits, and whole grains".

(** The [reduce] that sums the nutrient columns. *)
Definition sumTotals (meals : list Meal) : Totals.t :=
  fold_left
    (fun acc meal => {|
       Totals.calories := (Totals.calories acc + orZero (calories meal))%Q;
       Totals.protein := (Totals.protein acc + orZero (protein_g meal))%Q;
       Totals.carbs := (Totals.carbs acc + orZero (carbs_g meal))%Q;
       Totals.fats := (Totals.fats acc + orZero (fats_g meal))%Q;
       Totals.fiber := (Totals.fiber acc + orZero (fiber_g meal))%Q;
       Totals.sodium := (Totals.sodium acc + orZero (sodium_mg meal))%Q;
       Totals.sugar := (Totals.sugar acc + orZero (sugar_g meal))%Q;
       Totals.fluids := (Totals.fluids acc + orZero (liquids_ml meal))%Q
     |})
    meals
    {| Totals.calories := 0%Q; Totals.protein := 0%Q; Totals.carbs := 0%Q;
       Totals.fats := 0%Q; Totals.fiber := 0%Q; Totals.sodium := 0%Q;
       Totals.sugar := 0%Q; Totals.fluids := 0%Q |}.

Definition totalDaysOf (startDate endDate : Z) : Z :=
  Z.max 1 (Math_ceil (inject_Z (endDate - startDate) / inject_Z msPerDay)%Q).

Definition isProcessed (meal : Meal) : bool :=
  (optStringEq (processing_level meal) "HIGHLY_PROCESSED"
   || optStringEq (processing_level meal) "PROCESSED")%bool.

(** [startDate.setDate(endDate.getDate() - n)], both dates holding the
    instant of the call: the same local time [n] days earlier, on a clock
    that is not changed in between. *)
Definition daysBefore (date n : Z) : Z := date - n * msPerDay.

Section Service.

(** Offset of local time from UTC, in milliseconds. *)
Variable tz : Z.

Definition getHours (date : Z) : Z := ((date + tz) / (1000 * 60 * 60)) mod 24.
Definition getMinutes (date : Z) : Z := ((date + tz) / (1000 * 60)) mod 60.

Definition hourOfDay (meal : Meal) : Q :=
  (inject_Z (getHours (upload_time meal))
   + inject_Z (getMinutes (upload_time meal)) / 60)%Q.

Definition calculateEatingHours (meals : list Meal) : EatingHours :=
  if (List.length meals =? 0)%nat then {| start := "08:00"; end_ := "20:00" |}
  else
    let hours := map hourOfDay meals in
    let earliestHour := Math_min hours in
    let latestHour := Math_max hours in
    {| start := formatHour earliestHour; end_ := formatHour latestHour |}.

(** The [forEach] of [getMostCommonMealTime] and its callback. *)
Definition bumpHour (hourCounts : HourCounts) (meal : Meal) : HourCounts :=
  let hour := getHours (upload_time meal) in
  store hourCounts hour
    (match lookup hourCounts hour with Some c => c | None => 0 end + 1).

Definition countHours (meals : list Meal) : HourCounts :=
  fold_left bumpHour meals [].

Definition getMostCommonMealTime (meals : list Meal) : string :=
  if (List.length meals =? 0)%nat then "12:00"%string
  else
    let hourCounts := countHours meals in
    let mostCommonHour :=
      reduce1
        (fun a b =>
           if gtUndef (lookupAt hourCounts (parseInt a))
                      (lookupAt hourCounts (parseInt b))
           then a else b)
        (Object_keys hourCounts) ""%string in
    (padStart mostCommonHour 2 "0" ++ ":00")%string.

(** The body of [getNutritionStatistics] after the database read. The
    numbers are exact; [calorieGoalAchievementPercentD] below gives the
    field [calorieGoalAchievementPercent] as the double-precision operations
    leave it. *)
Definition aggregate (meals : list Meal) (startDate endDate : Z)
    : NutritionStatistics :=
  if (List.length meals =? 0)%nat then getDefaultStatistics
  else
    let totalDays := totalDaysOf startDate endDate in
    let totals := sumTotals meals in
    let averageCaloriesDaily := (Totals.calories totals / inject_Z totalDays)%Q in
    let averageProteinDaily := (Totals.protein totals / inject_Z totalDays)%Q in
    let averageCarbsDaily := (Totals.carbs totals / inject_Z totalDays)%Q in
    let averageFatsDaily := (Totals.fats totals / inject_Z totalDays)%Q in
    let averageFiberDaily := (Totals.fiber totals / inject_Z totalDays)%Q in
    let averageSodiumDaily := (Totals.sodium totals / inject_Z totalDays)%Q in
    let averageSugarDaily := (Totals.sugar totals / inject_Z totalDays)%Q in
    let averageFluidsDaily := (Totals.fluids totals / inject_Z totalDays)%Q in
    let calorieGoal := 2000%Q in
    let calorieGoalAchievementPercent :=
      Qmin 100 (averageCaloriesDaily / calorieGoal * 100)%Q in
    let processedFoodCount := List.length (filter isProcessed meals) in
    let processedFoodPercentage :=
      if (0 <? List.length meals)%nat
      then (natQ processedFoodCount / lengthQ meals * 100)%Q
      else 0%Q in
    let weeklyTrends := calculateWeeklyTrends meals startDate endDate in
    let nutritionScore :=
      calculateNutritionScore averageCaloriesDaily averageProteinDaily
        averageFiberDaily processedFoodPercentage
        calorieGoalAchievementPercent in
    let insights :=
      this_generateInsights averageCaloriesDaily averageProteinDaily
        averageFiberDaily processedFoodPercentage nutritionScore
        (Z.of_nat (List.length meals)) totalDays in
    let recommendations :=
      generateRecommendations averageCaloriesDaily averageProteinDaily
        averageFiberDaily processedFoodPercentage nutritionScore in
    let eatingHours := calculateEatingHours meals in
    let intermittentFastingHours := calculateIntermittentFasting eatingHours in
    let averageCaloriesPerMeal :=
      if (0 <? List.length meals)%nat
      then (Totals.calories totals / lengthQ meals)%Q else 0%Q in
    let averageProteinPerMeal :=
      if (0 <? List.length meals)%nat
      then (Totals.protein totals / lengthQ meals)%Q else 0%Q in
    let mostCommonMealTime := getMostCommonMealTime meals in
    let averageMealsPerDay := (lengthQ meals / inject_Z totalDays)%Q in
    {| averageCaloriesDaily := Math_round averageCaloriesDaily;
       calorieGoalAchievementPercent := Math_round calorieGoalAchievementPercent;
       averageProteinDaily := Math_round averageProteinDaily;
       averageCarbsDaily := Math_round averageCarbsDaily;
       averageFatsDaily := Math_round averageFatsDaily;
       averageFiberDaily := Math_round averageFiberDaily;
       averageSodiumDaily := Math_round averageSodiumDaily;
       averageSugarDaily := Math_round averageSugarDaily;
       averageFluidsDaily := Math_round averageFluidsDaily;
       processedFoodPercentage := Math_round processedFoodPercentage;
       alcoholCaffeineIntake := calculateAlcoholCaffeine meals;
       vegetableFruitIntake := calculateVegetableFruitIntake meals;
       fullLoggingPercentage := calculateFullLoggingPercentage meals totalDays;
       allergenAlerts := extractAllergenAlerts meals;
       healthRiskPercentage := calculateHealthRiskPercentage meals;
       averageEatingHours := eatingHours;
       intermittentFastingHours := intermittentFastingHours;
       missedMealsAlert :=
         calculateMissedMeals totalDays (Z.of_nat (List.length meals));
       nutritionScore := nutritionScore;
       weeklyTrends := weeklyTrends;
       insights := insights;
       recommendations := recommendations;
       generalStats := {|
         averageCaloriesPerMeal := Math_round averageCaloriesPerMeal;
         averageProteinPerMeal := Math_round averageProteinPerMeal;
         mostCommonMealTime := mostCommonMealTime;
         averageMealsPerDay :=
           (inject_Z (Math_round (averageMealsPerDay * 10)) / 10)%Q
       |};
       healthInsights := {|
         proteinAdequacy := getProteinAdequacyInsight averageProteinDaily;
         calorieDistribution := getCalorieDistributionInsight averageCaloriesDaily;
         fiberIntake := getFiberIntakeInsight averageFiberDaily
       |}
    |}.

(** The date range of a period: the [switch] has no [default] case, so
    any other string leaves [startDate] at the instant of the call. *)
Definition startDateOf (period : string) (endDate : Z) : Z :=
  let startDate := endDate in
  if String.eqb period "week" then daysBefore startDate 7
  else if String.eqb period "month" then daysBefore startDate 30
  else if String.eqb period "custom" then daysBefore startDate 14
  else startDate.

(** [table] is the [meal] table ([None] when the query fails) and [now]
    the instant of the call. *)
Definition getNutritionStatistics (table : option (list Meal)) (now : Z)
    (userId period : string) : Outcome :=
  let endDate := now in
  let startDate := startDateOf period endDate in
  match findMany table userId startDate endDate with
  | Some meals => Ok (aggregate meals startDate endDate)
  | None => Err "Failed to generate nutrition statistics"
  end.

End Service.

(** ** The goal percentage in double precision

    Lines 91-126 and 178 for the calorie column alone, with the IEEE 754
    binary64 operations of JavaScript: [+], [/] and [*] round to the nearest
    double, ties to even; [Math.min] and [Math.round] are exact. *)

Definition double := SpecFloat.spec_float.

Definition ofInteger (z : Z) : double :=
  SpecFloat.binary_normalize 53 1024 z 0 false.
Definition fadd : double -> double -> double := SpecFloat.SFadd 53 1024.
Definition fmul : double -> double -> double := SpecFloat.SFmul 53 1024.
Definition fdiv : double -> double -> double := SpecFloat.SFdiv 53 1024.

(** The number a finite double stands for; [None] for [NaN] and the
    infinities. *)
Definition valueOf (x : double) : option Q :=
  match x with
  | SpecFloat.S754_zero _ => Some 0%Q
  | SpecFloat.S754_finite s m e =>
      let magnitude :=
        if 0 <=? e then inject_Z (Z.pos m * 2 ^ e)
        else (inject_Z (Z.pos m) / inject_Z (2 ^ (- e)))%Q in
      Some (if s then (- magnitude)%Q else magnitude)
  | SpecFloat.S754_infinity _ => None
  | SpecFloat.S754_nan => None
  end.

(** [x || 0] on a nullable column holding a double: [null], [NaN] and the
    zeros give 0. *)
Definition orZeroD (x : option double) : double :=
  match x with
  | Some (SpecFloat.S754_finite s m e) => SpecFloat.S754_finite s m e
  | Some (SpecFloat.S754_infinity s) => SpecFloat.S754_infinity s
  | _ => ofInteger 0
  end.

(** [Math.min(x, y)] (the sign of a zero apart). *)
Definition Math_min_D (x y : double) : double :=
  match x, y with
  | SpecFloat.S754_nan, _ => SpecFloat.S754_nan
  | _, SpecFloat.S754_nan => SpecFloat.S754_nan
  | SpecFloat.S754_infinity true, _ => x
  | _, SpecFloat.S754_infinity true => y
  | SpecFloat.S754_infinity false, _ => y
  | _, SpecFloat.S754_infinity false => x
  | _, _ =>
      match valueOf x, valueOf y with
      | Some a, Some b => if Qle_bool a b then x else y
      | _, _ => SpecFloat.S754_nan
      end
  end.

(** [Math.round(x)] when it is an integer; [None] for [NaN] and the
    infinities. *)
Definition Math_round_D (x : double) : option Z :=
  option_map Math_round (valueOf x).

Definition totalCaloriesD (calories : list (option double)) : double :=
  fold_left (fun acc c => fadd acc (orZeroD c)) calories (ofInteger 0).

Definition averageCaloriesDailyD (calories : list (option double))
    (totalDays : Z) : double :=
  fdiv (totalCaloriesD calories) (ofInteger totalDays).

(** [(averageCaloriesDaily / calorieGoal) * 100] *)
Definition goalRatioD (averageCaloriesDaily : double) : double :=
  let calorieGoal := ofInteger 2000 in
  fmul (fdiv averageCaloriesDaily calorieGoal) (ofInteger 100).

(** The field [calorieGoalAchievementPercent] of the result, from the
    calorie column of the meals and the number of days. *)
Definition calorieGoalAchievementPercentD (calories : list (option double))
    (totalDays : Z) : option Z :=
  let averageCaloriesDaily := averageCaloriesDailyD calories totalDays in
  let calorieGoalAchievementPercent :=
    Math_min_D (ofInteger 100) (goalRatioD averageCaloriesDaily) in
  Math_round_D calorieGoalAchievementPercent.

(** The formula [min(100, round(100 * averageCaloriesDaily / 2000))], in
    doubles and in that order. *)
Definition specGoalPercentD (averageCaloriesDaily : double) : option Z :=
  option_map (Z.min 100)
    (Math_round_D
       (fdiv (fmul (ofInteger 100) averageCaloriesDaily) (ofInteger 2000))).

(** ** Quantities the statements are about *)

(** The unrounded daily average of a nutrient, [totals.field / totalDays]. *)
Definition dailyAverage (field : Totals.t -> Q) (meals : list Meal)
    (startDate endDate : Z) : Q :=
  (field (sumTotals meals) / inject_Z (totalDaysOf startDate endDate))%Q.

(** The unrounded goal achievement and processed-food percentage handed to
    the score. *)
Definition goalAchievement (meals : list Meal) (startDate endDate : Z) : Q :=
  Qmin 100 (dailyAverage Totals.calories meals startDate endDate / 2000 * 100)%Q.

Definition processedShare (meals : list Meal) : Q :=
  (lengthQ (filter isProcessed meals) / lengthQ meals * 100)%Q.

(** The bands of the score as the specification words them: each bonus is
    decided by the first band, read top to bottom, that holds. *)
Inductive goalBand (g : Q) : Z -> Prop :=
  | goal_90_110 : (90 <= g /\ g <= 110)%Q -> goalBand g 20
  | goal_80_120 :
      ~ (90 <= g /\ g <= 110)%Q -> (80 <= g /\ g <= 120)%Q -> goalBand g 15
  | goal_70_130 :
      ~ (80 <= g /\ g <= 120)%Q -> (70 <= g /\ g <= 130)%Q -> goalBand g 10
  | goal_outside : ~ (70 <= g /\ g <= 130)%Q -> goalBand g 0.

Inductive proteinBand (p : Q) : Z -> Prop :=
  | protein_120 : (120 <= p)%Q -> proteinBand p 15
  | protein_80 : (p < 120)%Q -> (80 <= p)%Q -> proteinBand p 10
  | protein_50 : (p < 80)%Q -> (50 <= p)%Q -> proteinBand p 5
  | protein_low : (p < 50)%Q -> proteinBand p 0.

Inductive fiberBand (f : Q) : Z -> Prop :=
  | fiber_25 : (25 <= f)%Q -> fiberBand f 10
  | fiber_15 : (f < 25)%Q -> (15 <= f)%Q -> fiberBand f 7
  | fiber_10 : (f < 15)%Q -> (10 <= f)%Q -> fiberBand f 5
  | fiber_low : (f < 10)%Q -> fiberBand f 0.

Inductive processedBand (x : Q) : Z -> Prop :=
  | processed_10 : (x <= 10)%Q -> processedBand x 5
  | processed_20 : (10 < x)%Q -> (x <= 20)%Q -> processedBand x 0
  | processed_40 : (20 < x)%Q -> (x <= 40)%Q -> processedBand x (-5)
  | processed_high : (40 < x)%Q -> processedBand x (-15).

(** The same bands as functions. *)
Definition goalBonus (g : Q) : Z :=
  if (geq g 90 && leq g 110)%bool then 20
  else if (geq g 80 && leq g 120)%bool then 15
  else if (geq g 70 && leq g 130)%bool then 10
  else 0.

Definition proteinBonus (p : Q) : Z :=
  if geq p 120 then 15 else if geq p 80 then 10 else if geq p 50 then 5 else 0.

Definition fiberBonus (f : Q) : Z :=
  if geq f 25 then 10 else if geq f 15 then 7 else if geq f 10 then 5 else 0.

Definition processedBonus (x : Q) : Z :=
  if leq x 10 then 5 else if leq x 20 then 0 else if leq x 40 then -5 else -15.

Definition clampScore (score : Z) : Z := Z.max 1 (Z.min 100 score).

(** The insight rules as a rule table: the tier of the score, then the
    protein, processed-food and meal-frequency rules, each giving at most
    one string. *)
Definition tierInsight (score : Z) : string :=
  if score >=? 80 then tierExcellent
  else if score >=? 60 then tierGood
  else tierAdjust.

Definition isTier (s : string) : bool :=
  (String.eqb s tierExcellent || String.eqb s tierGood
   || String.eqb s tierAdjust)%bool.

Definition proteinRule (p : Q) : list string :=
  if geq p 120 then
    ["Great protein intake! This supports muscle maintenance and satiety."%string]
  else if lt p 80 then
    ["Consider increasing protein intake for better muscle support and satiety."%string]
  else [].

Definition processedRule (x : Q) : list string :=
  if gt x 30 then
    ["High processed food intake detected. Try incorporating more whole foods."%string]
  else if lt x 15 then
    ["Excellent focus on whole foods! This supports overall health."%string]
  else [].

Definition frequencyRule (mealsPerDay : Q) : list string :=
  if lt mealsPerDay 2 then
    ["Consider logging more meals for better nutrition tracking."%string]
  else if gt mealsPerDay 5 then
    ["Frequent eating pattern detected. Ensure portion control."%string]
  else [].

(** The four nutrients of the weekly trends, with the column of the meal,
    the field of the day totals and the sequence of the trends that carry
    each. *)
Inductive Nutrient := Calories | Protein | Carbs | Fats.

Definition mealValue (n : Nutrient) (meal : Meal) : Q :=
  match n with
  | Calories => orZero (calories meal)
  | Protein => orZero (protein_g meal)
  | Carbs => orZero (carbs_g meal)
  | Fats => orZero (fats_g meal)
  end.

Definition dayValue (n : Nutrient) (day : DayTotal.t) : Q :=
  match n with
  | Calories => DayTotal.calories day
  | Protein => DayTotal.protein day
  | Carbs => DayTotal.carbs day
  | Fats => DayTotal.fats day
  end.

Definition trendOf (n : Nutrient) (trends : Trends.t) : list Z :=
  match n with
  | Calories => Trends.calories trends
  | Protein => Trends.protein trends
  | Carbs => Trends.carbs trends
  | Fats => Trends.fats trends
  end.

(** The meals of day offset [d], and those of the seven-day window. *)
Definition onDay (startDate d : Z) (meal : Meal) : bool :=
  dayIndexOf startDate meal =? d.

Definition inWindow (startDate : Z) (meal : Meal) : bool :=
  ((0 <=? dayIndexOf startDate meal) && (dayIndexOf startDate meal <? 7))%bool.

Definition dayTotalOf (n : Nutrient) (startDate d : Z) (meals : list Meal) : Q :=
  sumQ (map (mealValue n) (filter (onDay startDate d) meals)).

Definition windowTotal (n : Nutrient) (startDate : Z) (meals : list Meal) : Q :=
  sumQ (map (mealValue n) (filter (inWindow startDate) meals)).

Definition isInteger (q : Q) : Prop := (inject_Z (Qfloor q) == q)%Q.

Definition weekDays : list Z := [0; 1; 2; 3; 4; 5; 6].

(** The time of day of a meal in whole minutes, the earliest and the latest
    of them over a non-empty list, the HH:MM spelling of a minute count and
    the fasting estimate between two minute counts. *)
Definition minuteOfDay (tz : Z) (meal : Meal) : Z :=
  getHours tz (upload_time meal) * 60 + getMinutes tz (upload_time meal).

Definition earliestMinute (tz : Z) (meals : list Meal) : Z :=
  match map (minuteOfDay tz) meals with
  | [] => 0
  | x :: r => fold_left Z.min r x
  end.

Definition latestMinute (tz : Z) (meals : list Meal) : Z :=
  match map (minuteOfDay tz) meals with
  | [] => 0
  | x :: r => fold_left Z.max r x
  end.

Definition clock (minutes : Z) : string :=
  (padStart (toString (minutes / 60)) 2 "0" ++ ":"
   ++ padStart (toString (minutes mod 60)) 2 "0")%string.

Definition fastingBetween (startMinutes endMinutes : Z) : Z :=
  Math_round
    (inject_Z (if endMinutes >? startMinutes
               then 24 * 60 - (endMinutes - startMinutes)
               else startMinutes - endMinutes) / 60)%Q.

(** [splitNumbers] reads back the spelling of minute [k]. *)
Definition clockReadsBack (k : nat) : bool :=
  let minutes := Z.of_nat k in
  match splitNumbers (clock minutes) with
  | (Some h, Some m) => (h =? minutes / 60) && (m =? minutes mod 60)
  | _ => false
  end.

(** The number of meals eaten in a given hour of the day, and the HH:00
    spelling of an hour. *)
Definition hourCount (tz : Z) (meals : list Meal) (hour : Z) : Z :=
  Z.of_nat
    (List.length (filter (fun m => getHours tz (upload_time m) =? hour) meals)).

Definition hh00 (hour : Z) : string :=
  (padStart (toString hour) 2 "0" ++ ":00")%string.

(** [o[key] || 0] *)
Definition countAt (o : HourCounts) (key : Z) : Z :=
  match lookup o key with
  | Some c => c
  | None => 0
  end.

(** The callback of the [reduce], on numeric keys. *)
Definition pickHour (o : HourCounts) (a b : Z) : Z :=
  if gtUndef (lookup o a) (lookup o b) then a else b.

(** ** Sample rows *)

Definition plainMeal (t : Z) : Meal := {|
  user_id := "u1"; upload_time := t;
  calories := None; protein_g := None; carbs_g := None; fats_g := None;
  fiber_g := None; sodium_mg := None; sugar_g := None; liquids_ml := None;
  alcohol_g := None; caffeine_mg := None; processing_level := None;
  food_category := None; meal_name := None; allergens_json := None;
  health_risk_notes := None |}.

Definition mealWith (t : Z) (kcal protein : Q) : Meal := {|
  user_id := "u1"; upload_time := t;
  calories := Some kcal; protein_g := Some protein; carbs_g := None;
  fats_g := None; fiber_g := None; sodium_mg := None; sugar_g := None;
  liquids_ml := None; alcohol_g := None; caffeine_mg := None;
  processing_level := None; food_category := None; meal_name := None;
  allergens_json := None; health_risk_notes := None |}.

(** An instant given as day, hour and minute after the epoch. *)
Definition at_ (day hour minute : Z) : Z :=
  day * msPerDay + hour * (1000 * 60 * 60) + minute * (1000 * 60).

(** ** Further quantities: the statistics service *)

(** The recommendation rules as a rule table. *)
Definition hydrationReminder : string :=
  "Stay hydrated and maintain regular meal timing for optimal metabolism.".

Definition proteinAdvice (p : Q) : list string :=
  if lt p 100 then
    ["Add lean proteins like chicken, fish, or legumes to your meals."%string]
  else [].

Definition fiberAdvice (f : Q) : list string :=
  if lt f 20 then
    ["Increase fiber intake with vegetables, fruits, and whole grains."%string]
  else [].

Definition processedAdvice (x : Q) : list string :=
  if gt x 25 then
    ["Replace processed foods with whole food alternatives when possible."%string]
  else [].

Definition calorieAdvice (c : Q) : list string :=
  if lt c 1500 then
    ["Consider if you're eating enough to meet your energy needs."%string]
  else if gt c 2500 then
    ["Monitor portion sizes to align with your calorie goals."%string]
  else [].

(** The total of a nutrient of the weekly trends in the sums of the
    service. *)
Definition totalsValue (n : Nutrient) (totals : Totals.t) : Q :=
  match n with
  | Calories => Totals.calories totals
  | Protein => Totals.protein totals
  | Carbs => Totals.carbs totals
  | Fats => Totals.fats totals
  end.

(** The allergens a meal lists. *)
Definition allergensOf (meal : Meal) : list string :=
  match allergens_json meal with
  | Some l => l
  | None => []
  end.

Definition mealWithAllergens (t : Z) (allergens : list string) : Meal := {|
  user_id := "u1"; upload_time := t;
  calories := None; protein_g := None; carbs_g := None; fats_g := None;
  fiber_g := None; sodium_mg := None; sugar_g := None; liquids_ml := None;
  alcohol_g := None; caffeine_mg := None; processing_level := None;
  food_category := None; meal_name := None; allergens_json := Some allergens;
  health_risk_notes := None |}.

(** The three messages of each health insight. *)
Definition proteinExcellent : string :=
  "Excellent protein intake supporting muscle health and satiety".
Definition proteinGood : string :=
  "Good protein levels, consider slight increase for optimal benefits".
Definition proteinBelow : string :=
  "Protein intake below recommended levels - focus on lean proteins".
Definition caloriesBalanced : string :=
  "Calorie intake appears well-balanced for most adults".
Definition caloriesLow : string :=
  "Calorie intake may be too low - ensure adequate energy for daily needs".
Definition caloriesHigher : string :=
  "Higher calorie intake - monitor portion sizes and activity levels".
Definition fiberExcellent : string :=
  "Excellent fiber intake supporting digestive health".
Definition fiberGood : string :=
  "Good fiber levels, aim for 25g daily for optimal benefits".
Definition fiberLow : string :=
  "Low fiber intake - increase vegetables, fruits, and whole grains".

(** ** The nutrition service: [server/src/services/nutrition.ts]

    The queries of this part are taken to succeed; what the code itself
    throws is an [inl] with the message of the [Error]. *)

Module DailyStats.
Record t := {
  calories : Q;
  protein : Q;
  carbs : Q;
  fat : Q;
  fiber : Q;
  sugar : Q;
  mealCount : Z
}.
End DailyStats.

(** [getDailyStats]: [startDate] is the instant [new Date(date)] denotes
    and [endDate] the instant [endDate.setDate(endDate.getDate() + 1)]
    leaves in a second [new Date(date)], the same local time on the next
    day: 24 hours later, or 23 or 25 on the day of a clock change. *)
Definition getDailyStats (table : list Meal) (userId : string)
    (startDate endDate : Z) : DailyStats.t :=
  let meals :=
    filter (fun m => String.eqb (user_id m) userId
                     && (startDate <=? upload_time m)
                     && (upload_time m <? endDate))%bool table in
  fold_left
    (fun acc meal => {|
       DailyStats.calories := (DailyStats.calories acc + orZero (calories meal))%Q;
       DailyStats.protein := (DailyStats.protein acc + orZero (protein_g meal))%Q;
       DailyStats.carbs := (DailyStats.carbs acc + orZero (carbs_g meal))%Q;
       DailyStats.fat := (DailyStats.fat acc + orZero (fats_g meal))%Q;
       DailyStats.fiber := (DailyStats.fiber acc + orZero (fiber_g meal))%Q;
       DailyStats.sugar := (DailyStats.sugar acc + orZero (sugar_g meal))%Q;
       DailyStats.mealCount := DailyStats.mealCount acc + 1
     |})
    meals
    {| DailyStats.calories := 0%Q; DailyStats.protein := 0%Q;
       DailyStats.carbs := 0%Q; DailyStats.fat := 0%Q;
       DailyStats.fiber := 0%Q; DailyStats.sugar := 0%Q;
       DailyStats.mealCount := 0 |}.

(** The meals of a user uploaded in [from, to). *)
Definition mealsBetween (table : list Meal) (userId : string) (from to : Z)
    : list Meal :=
  filter (fun m => String.eqb (user_id m) userId
                   && (from <=? upload_time m)
                   && (upload_time m <? to))%bool table.

(** A row of the [user] table, restricted to the quota columns. *)
Module User.
Record t := {
  user_id : string;
  aiRequestsCount : Z;
  aiRequestsResetAt : Z;
  subscription_type : string
}.
End User.

(** [prisma.user.findUnique({ where: { user_id } })] *)
Fixpoint findUnique (users : list User.t) (user_id : string) : option User.t :=
  match users with
  | [] => None
  | u :: r =>
      if String.eqb (User.user_id u) user_id then Some u
      else findUnique r user_id
  end.

(** [prisma.user.update({ where: { user_id }, data })], [data] setting the
    count and, when given, the reset time. *)
Definition updateUser (users : list User.t) (user_id : string) (count : Z)
    (resetAt : option Z) : list User.t :=
  map (fun u =>
         if String.eqb (User.user_id u) user_id then
           {| User.user_id := User.user_id u;
              User.aiRequestsCount := count;
              User.aiRequestsResetAt :=
                match resetAt with
                | Some t => t
                | None => User.aiRequestsResetAt u
                end;
              User.subscription_type := User.subscription_type u |}
         else u)
      users.

(** [limits[subscription_type] || limits.FREE] for the three plans; any
    other plan name falls back to the free limit (the names of the
    properties every object inherits are not plan names and are left
    aside). *)
Definition userLimitOf (subscription_type : string) : Z :=
  if String.eqb subscription_type "FREE" then 10
  else if String.eqb subscription_type "BASIC" then 50
  else if String.eqb subscription_type "PREMIUM" then 200
  else 10.

Definition limitReached (userLimit : Z) : string :=
  ("Daily AI analysis limit reached (" ++ toString userLimit
   ++ "). Upgrade your subscription for more analyses.")%string.

Section Analysis.

(** The result of [OpenAIService.analyzeMealImage]. *)
Variable MealAnalysisResult : Type.

(** [analyzeMeal]: [users] is the user table and [now] the instant of the
    call; [analysis] is what the call to OpenAI gives for the image, a value
    or a thrown message. The function returns the table it leaves and the
    value it resolves to or the message it throws. *)
Definition analyzeMeal (users : list User.t) (now : Z) (user_id : string)
    (analysis : string + MealAnalysisResult)
    : list User.t * (string + MealAnalysisResult) :=
  match findUnique users user_id with
  | Some user =>
      let resetTime := User.aiRequestsResetAt user in
      let hoursSinceReset :=
        (inject_Z (now - resetTime) / inject_Z (1000 * 60 * 60))%Q in
      let '(users, aiRequestsCount) :=
        if geq hoursSinceReset 24
        then (updateUser users user_id 0 (Some now), 0)
        else (users, User.aiRequestsCount user) in
      let userLimit := userLimitOf (User.subscription_type user) in
      if aiRequestsCount >=? userLimit
      then (users, inl (limitReached userLimit))
      else (updateUser users user_id (aiRequestsCount + 1) None, analysis)
  | None => (users, analysis)
  end.

End Analysis.

Definition sampleUser (count resetAt : Z) (plan : string) : User.t := {|
  User.user_id := "u1";
  User.aiRequestsCount := count;
  User.aiRequestsResetAt := resetAt;
  User.subscription_type := plan
|}.

(** Calls of [analyzeMeal] for the same user one after the other, each with
    the instant of the call and what OpenAI gives for its image; the table
    of each call is the one the call before left. The function returns the
    table the last call leaves and the outcomes of the calls in order. *)
Fixpoint analyzeMealCalls {A : Type} (users : list User.t) (user_id : string)
    (calls : list (Z * (string + A)))
    : list User.t * list (string + A) :=
  match calls with
  | [] => (users, [])
  | (now, analysis) :: rest =>
      let result := analyzeMeal A users now user_id analysis in
      let later := analyzeMealCalls (fst result) user_id rest in
      (fst later, snd result :: snd later)
  end.

Definition msPerHour : Z := 1000 * 60 * 60.

(** *** Favorites and feedback *)

(** A JSON value of the [additives_json] column. *)
#[warnings="-register-all"]
Inductive Json :=
  | JNull
  | JBool (b : bool)
  | JNum (q : Q)
  | JStr (s : string)
  | JArr (items : list Json)
  | JObj (fields : list (string * Json)).

Definition JsonObject := list (string * Json).

(** [o[key]] and [{ ...o, [key]: value }] on an object: a key that is
    already there keeps its place, a new one goes last. *)
Fixpoint getField (o : JsonObject) (key : string) : option Json :=
  match o with
  | [] => None
  | (k, v) :: r => if String.eqb key k then Some v else getField r key
  end.

Fixpoint setField (o : JsonObject) (key : string) (value : Json) : JsonObject :=
  match o with
  | [] => [(key, value)]
  | (k, v) :: r =>
      if String.eqb key k then (k, value) :: r
      else (k, v) :: setField r key value
  end.

(** Whether a value, [undefined] when [None], is truthy. *)
Definition truthy (v : option Json) : bool :=
  match v with
  | None => false
  | Some JNull => false
  | Some (JBool b) => b
  | Some (JNum q) => negb (Qeq_bool q 0)
  | Some (JStr s) => negb (String.eqb s "")
  | Some (JArr _) => true
  | Some (JObj _) => true
  end.

(** [v || d] *)
Definition orElse (v : option Json) (d : Json) : Json :=
  match v with
  | Some x => if truthy v then x else d
  | None => d
  end.

Fixpoint charsFrom (i : nat) (s : string) : JsonObject :=
  match s with
  | EmptyString => []
  | String c r =>
      (toString (Z.of_nat i), JStr (String c EmptyString)) :: charsFrom (S i) r
  end.

Fixpoint itemsFrom (i : nat) (l : list Json) : JsonObject :=
  match l with
  | [] => []
  | x :: r => (toString (Z.of_nat i), x) :: itemsFrom (S i) r
  end.

(** [{ ...(v || {}) }]: the own enumerable properties of the value. *)
Definition spread (v : option Json) : JsonObject :=
  match v with
  | Some (JObj fields) => fields
  | Some (JArr items) => itemsFrom 0 items
  | Some (JStr s) => charsFrom 0 s
  | _ => []
  end.

(** [(v || {}).key] for the keys the service reads, none of which a string,
    an array, a number or a boolean has. *)
Definition property (v : option Json) (key : string) : option Json :=
  match v with
  | Some (JObj fields) => getField fields key
  | _ => None
  end.

(** A row of the [meal] table as this service sees it: the key, the columns
    of [Meal] and the JSON column. *)
Record MealRow := {
  meal_id : Z;
  columns : Meal;
  additives_json : option Json
}.

(** The outcome of a method: the value it resolves to, the message of the
    [Error] it throws, or the refusal by Prisma of a query whose id is
    [NaN]. *)
Inductive Attempt (A : Type) :=
  | Resolved (a : A)
  | Thrown (message : string)
  | InvalidQuery.

Arguments Resolved {A} a.
Arguments Thrown {A} message.
Arguments InvalidQuery {A}.

(** [prisma.meal.findFirst({ where: { meal_id, user_id } })] *)
Fixpoint findFirst (rows : list MealRow) (id : Z) (userId : string)
    : option MealRow :=
  match rows with
  | [] => None
  | r :: rest =>
      if ((meal_id r =? id) && String.eqb (user_id (columns r)) userId)%bool
      then Some r
      else findFirst rest id userId
  end.

(** [prisma.meal.update({ where: { meal_id }, data: { additives_json } })] *)
Definition updateAdditives (rows : list MealRow) (id : Z) (additives : Json)
    : list MealRow :=
  map (fun r =>
         if meal_id r =? id
         then {| meal_id := meal_id r; columns := columns r;
                 additives_json := Some additives |}
         else r)
      rows.

(** The client format of a meal, restricted to the fields computed from the
    columns above. *)
Module ClientMeal.
Record t := {
  id : string;
  name : string;
  protein : Q;
  carbs : Q;
  fat : Q;
  fiber : Q;
  sugar : Q;
  sodium : Q;
  isFavorite : Json;
  tasteRating : Json;
  satietyRating : Json;
  energyRating : Json;
  heavinessRating : Json
}.
End ClientMeal.

Definition transformMealData (meal : MealRow) : ClientMeal.t :=
  let additives := additives_json meal in
  let feedback := property additives "feedback" in
  {| ClientMeal.id := toString (meal_id meal);
     ClientMeal.name := match meal_name (columns meal) with
             | Some s => if String.eqb s "" then "Unknown Meal"%string else s
             | None => "Unknown Meal"%string
             end;
     ClientMeal.protein := orZero (protein_g (columns meal));
     ClientMeal.carbs := orZero (carbs_g (columns meal));
     ClientMeal.fat := orZero (fats_g (columns meal));
     ClientMeal.fiber := orZero (fiber_g (columns meal));
     ClientMeal.sugar := orZero (sugar_g (columns meal));
     ClientMeal.sodium := orZero (sodium_mg (columns meal));
     ClientMeal.isFavorite := orElse (property additives "isFavorite") (JBool false);
     ClientMeal.tasteRating := orElse (property feedback "tasteRating") (JNum 0);
     ClientMeal.satietyRating := orElse (property feedback "satietyRating") (JNum 0);
     ClientMeal.energyRating := orElse (property feedback "energyRating") (JNum 0);
     ClientMeal.heavinessRating := orElse (property feedback "heavinessRating") (JNum 0)
  |}.

(** [toggleMealFavorite]; [isoNow] is [new Date().toISOString()]. The
    function returns the table it leaves and its outcome, the new flag with
    the client format of the updated row. *)
Definition toggleMealFavorite (rows : list MealRow) (isoNow : string)
    (userId mealId : string) : list MealRow * Attempt (bool * ClientMeal.t) :=
  match parseInt mealId with
  | None => (rows, InvalidQuery)
  | Some id =>
      match findFirst rows id userId with
      | None => (rows, Thrown "Meal not found")
      | Some meal =>
          let currentFavorite :=
            truthy (property (additives_json meal) "isFavorite") in
          let newFavoriteStatus := negb currentFavorite in
          let additives :=
            JObj (setField
                    (setField (spread (additives_json meal)) "isFavorite"
                       (JBool newFavoriteStatus))
                    "favoriteUpdatedAt" (JStr isoNow)) in
          let updatedMeal :=
            {| meal_id := meal_id meal; columns := columns meal;
               additives_json := Some additives |} in
          (updateAdditives rows id additives,
           Resolved (newFavoriteStatus, transformMealData updatedMeal))
      end
  end.

(** The ratings of a feedback, each optional. *)
Record Feedback := {
  fb_tasteRating : option Q;
  fb_satietyRating : option Q;
  fb_energyRating : option Q;
  fb_heavinessRating : option Q
}.

(** A property whose value is [undefined] is not stored. *)
Definition withRating (o : JsonObject) (key : string) (rating : option Q)
    : JsonObject :=
  match rating with
  | Some q => o ++ [(key, JNum q)]
  | None => o
  end.

Definition saveMealFeedback (rows : list MealRow) (isoNow : string)
    (userId mealId : string) (feedback : Feedback)
    : list MealRow * Attempt ClientMeal.t :=
  match parseInt mealId with
  | None => (rows, InvalidQuery)
  | Some id =>
      match findFirst rows id userId with
      | None => (rows, Thrown "Meal not found")
      | Some meal =>
          let stored :=
            withRating
              (withRating
                 (withRating
                    (withRating [] "tasteRating" (fb_tasteRating feedback))
                    "satietyRating" (fb_satietyRating feedback))
                 "energyRating" (fb_energyRating feedback))
              "heavinessRating" (fb_heavinessRating feedback)
            ++ [("updatedAt"%string, JStr isoNow)] in
          let additives :=
            JObj (setField (spread (additives_json meal)) "feedback"
                    (JObj stored)) in
          let updatedMeal :=
            {| meal_id := meal_id meal; columns := columns meal;
               additives_json := Some additives |} in
          (updateAdditives rows id additives,
           Resolved (transformMealData updatedMeal))
      end
  end.

Definition sampleRow (id : Z) (owner : string) (additives : option Json)
    : MealRow := {|
  meal_id := id;
  columns := {|
    user_id := owner; upload_time := 0;
    calories := None; protein_g := None; carbs_g := None; fats_g := None;
    fiber_g := None; sodium_mg := None; sugar_g := None; liquids_ml := None;
    alcohol_g := None; caffeine_mg := None; processing_level := None;
    food_category := None; meal_name := None; allergens_json := None;
    health_risk_notes := None |};
  additives_json := additives
|}.

(** What the client format shows for a stored rating: [rating || 0]. *)
Definition ratingShown (rating : option Q) : Json :=
  match rating with
  | Some q => if Qeq_bool q 0 then JNum 0 else JNum q
  | None => JNum 0
  end.

(** The column holds an object or is [null], as every write of the service
    leaves it. *)
Definition objectOrNull (v : option Json) : Prop :=
  v = None \/ exists fields, v = Some (JObj fields).

(** ** The calendar screen: [client/app/(tabs)/calendar.tsx] *)

Record CalendarEvent := {
  event_id : string;
  event_title : string;
  event_type : string
}.

Module DayData.
Record t := {
  date : string;
  caloriesGoal : Q;
  caloriesActual : Q;
  proteinGoal : Q;
  proteinActual : Q;
  carbsGoal : Q;
  carbsActual : Q;
  fatGoal : Q;
  fatActual : Q;
  mealCount : Q;
  qualityScore : Q;
  events : list CalendarEvent
}.
End DayData.

Definition getProgressPercentage (actual goal : Q) : Q :=
  if Qeq_bool goal 0 then 0%Q else Qmin (actual / goal * 100) 150.

Definition getDayColor (dayData : DayData.t) : string :=
  let caloriesProgress :=
    getProgressPercentage (DayData.caloriesActual dayData)
      (DayData.caloriesGoal dayData) in
  if geq caloriesProgress 110 then "#8B0000"
  else if geq caloriesProgress 100 then "#4CAF50"
  else if geq caloriesProgress 70 then "#FF9800"
  else "#F44336".

(** The day a date without data gets. *)
Definition emptyDayData (dateStr : string) : DayData.t := {|
  DayData.date := dateStr;
  DayData.caloriesGoal := 2000;
  DayData.caloriesActual := 0;
  DayData.proteinGoal := 150;
  DayData.proteinActual := 0;
  DayData.carbsGoal := 250;
  DayData.carbsActual := 0;
  DayData.fatGoal := 67;
  DayData.fatActual := 0;
  DayData.mealCount := 0;
  DayData.qualityScore := 0;
  DayData.events := []
|}.

Definition dateStrOf (year month day : Z) : string :=
  (toString year ++ "-" ++ padStart (toString (month + 1)) 2 "0" ++ "-"
   ++ padStart (toString day) 2 "0")%string.

(** [getDaysInMonth]: [year] and [month] are those of the current date,
    [daysInMonth] and [startingDayOfWeek] what [Date] gives for the last and
    the first day of that month, and [calendarData] the object of the store,
    read by date string. *)
Definition getDaysInMonth (calendarData : string -> option DayData.t)
    (year month : Z) (daysInMonth startingDayOfWeek : nat)
    : list (option DayData.t) :=
  let days := repeat None startingDayOfWeek in
  days
  ++ map (fun day : nat =>
            let dateStr := dateStrOf year month (Z.of_nat day) in
            let dayData :=
              match calendarData dateStr with
              | Some d => d
              | None => emptyDayData dateStr
              end in
            Some dayData)
       (seq 1 daysInMonth).

Definition dayWithCalories (actual goal : Q) : DayData.t := {|
  DayData.date := "2024-03-05";
  DayData.caloriesGoal := goal;
  DayData.caloriesActual := actual;
  DayData.proteinGoal := 150;
  DayData.proteinActual := 0;
  DayData.carbsGoal := 250;
  DayData.carbsActual := 0;
  DayData.fatGoal := 67;
  DayData.fatActual := 0;
  DayData.mealCount := 0;
  DayData.qualityScore := 0;
  DayData.events := []
|}.

(** ** Numbers: rounding and comparisons *)

Lemma geq_true (a b : Q) : geq a b = true <-> (b <= a)%Q.
Proof. unfold geq. apply Qle_bool_iff. Qed.

Lemma leq_true (a b : Q) : leq a b = true <-> (a <= b)%Q.
Proof. unfold leq. apply Qle_bool_iff. Qed.

Lemma geq_false (a b : Q) : geq a b = false <-> (a < b)%Q.
Proof.
  unfold geq. split; intro H.
  - apply Qnot_le_lt. intro L. apply Qle_bool_iff in L. congruence.
  - destruct (Qle_bool b a) eqn:E; [|reflexivity].
    apply Qle_bool_iff in E. lra.
Qed.

Lemma leq_false (a b : Q) : leq a b = false <-> (b < a)%Q.
Proof. unfold leq. apply (geq_false b a). Qed.

Lemma gt_true (a b : Q) : gt a b = true <-> (b < a)%Q.
Proof.
  unfold gt. rewrite negb_true_iff. apply (leq_false a b).
Qed.

Lemma lt_true (a b : Q) : lt a b = true <-> (a < b)%Q.
Proof.
  unfold lt. rewrite negb_true_iff. apply (geq_false a b).
Qed.

Lemma Math_round_Z (n : Z) : Math_round (inject_Z n) = n.
Proof.
  unfold Math_round, Qfloor, inject_Z, Qplus.
  cbn [Qnum Qden Pos.mul]. change (Z.pos 2) with 2.
  replace (n * 2 + 1 * 1) with (1 + n * 2) by lia.
  rewrite Z.div_add by lia. reflexivity.
Qed.

Lemma Math_round_le (x y : Q) : (x <= y)%Q -> Math_round x <= Math_round y.
Proof.
  intro H. unfold Math_round. apply Qfloor_resp_le. lra.
Qed.

Lemma Math_round_Qeq (x y : Q) : (x == y)%Q -> Math_round x = Math_round y.
Proof.
  intro H. unfold Math_round. apply Qfloor_comp. rewrite H. reflexivity.
Qed.

(** ** The score *)

Lemma goalBonus_band (g : Q) : goalBand g (goalBonus g).
Proof.
  unfold goalBonus.
  destruct (geq g 90 && leq g 110)%bool eqn:E1.
  { apply andb_true_iff in E1 as [A B].
    apply geq_true in A. apply leq_true in B. now constructor. }
  assert (N1 : ~ (90 <= g /\ g <= 110)%Q).
  { intros [A B]. apply geq_true in A. apply leq_true in B.
    rewrite A, B in E1. discriminate. }
  destruct (geq g 80 && leq g 120)%bool eqn:E2.
  { apply andb_true_iff in E2 as [A B].
    apply geq_true in A. apply leq_true in B. now constructor. }
  assert (N2 : ~ (80 <= g /\ g <= 120)%Q).
  { intros [A B]. apply geq_true in A. apply leq_true in B.
    rewrite A, B in E2. discriminate. }
  destruct (geq g 70 && leq g 130)%bool eqn:E3.
  { apply andb_true_iff in E3 as [A B].
    apply geq_true in A. apply leq_true in B. now constructor. }
  apply goal_outside.
  intros [A B]. apply geq_true in A. apply leq_true in B.
  rewrite A, B in E3. discriminate.
Qed.

Lemma proteinBonus_band (p : Q) : proteinBand p (proteinBonus p).
Proof.
  unfold proteinBonus.
  destruct (geq p 120) eqn:E1; [apply geq_true in E1; now constructor|].
  apply geq_false in E1.
  destruct (geq p 80) eqn:E2; [apply geq_true in E2; now constructor|].
  apply geq_false in E2.
  destruct (geq p 50) eqn:E3; [apply geq_true in E3; now constructor|].
  apply geq_false in E3. now apply protein_low.
Qed.

Lemma fiberBonus_band (f : Q) : fiberBand f (fiberBonus f).
Proof.
  unfold fiberBonus.
  destruct (geq f 25) eqn:E1; [apply geq_true in E1; now constructor|].
  apply geq_false in E1.
  destruct (geq f 15) eqn:E2; [apply geq_true in E2; now constructor|].
  apply geq_false in E2.
  destruct (geq f 10) eqn:E3; [apply geq_true in E3; now constructor|].
  apply geq_false in E3. now apply fiber_low.
Qed.

Lemma processedBonus_band (x : Q) : processedBand x (processedBonus x).
Proof.
  unfold processedBonus.
  destruct (leq x 10) eqn:E1; [apply leq_true in E1; now constructor|].
  apply leq_false in E1.
  destruct (leq x 20) eqn:E2; [apply leq_true in E2; now constructor|].
  apply leq_false in E2.
  destruct (leq x 40) eqn:E3; [apply leq_true in E3; now constructor|].
  apply leq_false in E3. now apply processed_high.
Qed.

(** Each band relation fixes its bonus. *)
Lemma goalBand_fun (g : Q) (a b : Z) : goalBand g a -> goalBand g b -> a = b.
Proof.
  intros Ha Hb.
  destruct Ha; destruct Hb; try reflexivity; exfalso;
    repeat match goal with
           | H : ~ _ |- _ => apply H; clear H; lra
           end.
Qed.

Lemma proteinBand_fun (p : Q) (a b : Z) :
  proteinBand p a -> proteinBand p b -> a = b.
Proof. intros Ha Hb. destruct Ha; destruct Hb; try reflexivity; lra. Qed.

Lemma fiberBand_fun (f : Q) (a b : Z) : fiberBand f a -> fiberBand f b -> a = b.
Proof. intros Ha Hb. destruct Ha; destruct Hb; try reflexivity; lra. Qed.

Lemma processedBand_fun (x : Q) (a b : Z) :
  processedBand x a -> processedBand x b -> a = b.
Proof. intros Ha Hb. destruct Ha; destruct Hb; try reflexivity; lra. Qed.

(** The chain of [score += ...] adds up the four bonuses. *)
Lemma calculateNutritionScore_sum (cal p f x g : Q) :
  calculateNutritionScore cal p f x g
  = clampScore (50 + goalBonus g + proteinBonus p + fiberBonus f
                + processedBonus x).
Proof.
  unfold calculateNutritionScore, goalBonus, proteinBonus, fiberBonus,
    processedBonus, clampScore.
  destruct (geq g 90 && leq g 110)%bool;
    [|destruct (geq g 80 && leq g 120)%bool;
      [|destruct (geq g 70 && leq g 130)%bool]];
  (destruct (geq p 120); [|destruct (geq p 80); [|destruct (geq p 50)]]);
  (destruct (geq f 25); [|destruct (geq f 15); [|destruct (geq f 10)]]);
  (destruct (leq x 10); [|destruct (leq x 20); [|destruct (leq x 40)]]);
  reflexivity.
Qed.

Lemma proteinBonus_mono (p1 p2 : Q) :
  (p1 <= p2)%Q -> proteinBonus p1 <= proteinBonus p2.
Proof.
  intro H.
  pose proof (proteinBonus_band p1) as B1.
  pose proof (proteinBonus_band p2) as B2.
  destruct B1; destruct B2; try lia; lra.
Qed.

Lemma goalBonus_range (g : Q) : 0 <= goalBonus g <= 20.
Proof. destruct (goalBonus_band g); lia. Qed.

Lemma proteinBonus_range (p : Q) : 0 <= proteinBonus p <= 15.
Proof. destruct (proteinBonus_band p); lia. Qed.

Lemma fiberBonus_range (f : Q) : 0 <= fiberBonus f <= 10.
Proof. destruct (fiberBonus_band f); lia. Qed.

Lemma processedBonus_range (x : Q) : -15 <= processedBonus x <= 5.
Proof. destruct (processedBonus_band x); lia. Qed.

Lemma calculateNutritionScore_range (cal p f x g : Q) :
  35 <= calculateNutritionScore cal p f x g <= 100.
Proof.
  rewrite calculateNutritionScore_sum. unfold clampScore.
  pose proof (goalBonus_range g). pose proof (proteinBonus_range p).
  pose proof (fiberBonus_range f). pose proof (processedBonus_range x).
  lia.
Qed.

Lemma calculateNutritionScore_mono (cal f x g p1 p2 : Q) :
  (p1 <= p2)%Q ->
  calculateNutritionScore cal p1 f x g <= calculateNutritionScore cal p2 f x g.
Proof.
  intro H. rewrite !calculateNutritionScore_sum. unfold clampScore.
  pose proof (proteinBonus_mono p1 p2 H). lia.
Qed.

(** ** Fields of the result on a non-empty list *)

Section Fields.

Variable tz : Z.
Variables (meals : list Meal) (startDate endDate : Z).
Hypothesis nonempty : meals <> [].

Lemma aggregate_nutritionScore :
  nutritionScore (aggregate tz meals startDate endDate)
  = calculateNutritionScore
      (dailyAverage Totals.calories meals startDate endDate)
      (dailyAverage Totals.protein meals startDate endDate)
      (dailyAverage Totals.fiber meals startDate endDate)
      (processedShare meals)
      (goalAchievement meals startDate endDate).
Proof. destruct meals; [congruence|]. reflexivity. Qed.

Lemma aggregate_insights :
  insights (aggregate tz meals startDate endDate)
  = this_generateInsights
      (dailyAverage Totals.calories meals startDate endDate)
      (dailyAverage Totals.protein meals startDate endDate)
      (dailyAverage Totals.fiber meals startDate endDate)
      (processedShare meals)
      (nutritionScore (aggregate tz meals startDate endDate))
      (Z.of_nat (List.length meals))
      (totalDaysOf startDate endDate).
Proof. destruct meals; [congruence|]. reflexivity. Qed.

Lemma aggregate_eatingHours :
  averageEatingHours (aggregate tz meals startDate endDate)
  = calculateEatingHours tz meals.
Proof. destruct meals; [congruence|]. reflexivity. Qed.

Lemma aggregate_fasting :
  intermittentFastingHours (aggregate tz meals startDate endDate)
  = calculateIntermittentFasting (calculateEatingHours tz meals).
Proof. destruct meals; [congruence|]. reflexivity. Qed.

Lemma aggregate_mostCommon :
  mostCommonMealTime (generalStats (aggregate tz meals startDate endDate))
  = getMostCommonMealTime tz meals.
Proof. destruct meals; [congruence|]. reflexivity. Qed.

Lemma aggregate_weeklyTrends :
  weeklyTrends (aggregate tz meals startDate endDate)
  = calculateWeeklyTrends meals startDate endDate.
Proof. destruct meals; [congruence|]. reflexivity. Qed.

End Fields.

(** ** Insights *)

Lemma generateInsights_rules (cal p f x : Q) (score mealCount totalDays : Z) :
  generateInsights cal p f x score mealCount totalDays
  = tierInsight score
    :: proteinRule p ++ processedRule x
       ++ frequencyRule (inject_Z mealCount / inject_Z totalDays)%Q.
Proof.
  unfold generateInsights, tierInsight, proteinRule, processedRule,
    frequencyRule, push.
  destruct (score >=? 80); [|destruct (score >=? 60)];
  (destruct (geq p 120); [|destruct (lt p 80)]);
  (destruct (gt x 30); [|destruct (lt x 15)]);
  (destruct (lt (inject_Z mealCount / inject_Z totalDays)%Q 2);
   [|destruct (gt (inject_Z mealCount / inject_Z totalDays)%Q 5)]);
  reflexivity.
Qed.

Lemma rules_no_tier (p x r : Q) :
  filter isTier (proteinRule p ++ processedRule x ++ frequencyRule r) = [].
Proof.
  unfold proteinRule, processedRule, frequencyRule.
  (destruct (geq p 120); [|destruct (lt p 80)]);
  (destruct (gt x 30); [|destruct (lt x 15)]);
  (destruct (lt r 2); [|destruct (gt r 5)]);
  reflexivity.
Qed.

Lemma tierInsight_isTier (score : Z) : isTier (tierInsight score) = true.
Proof.
  unfold tierInsight.
  destruct (score >=? 80); [|destruct (score >=? 60)]; reflexivity.
Qed.

Lemma rule_lengths (p x r : Q) :
  (List.length (proteinRule p) <= 1 /\ List.length (processedRule x) <= 1
   /\ List.length (frequencyRule r) <= 1)%nat.
Proof.
  unfold proteinRule, processedRule, frequencyRule.
  (destruct (geq p 120); [|destruct (lt p 80)]);
  (destruct (gt x 30); [|destruct (lt x 15)]);
  (destruct (lt r 2); [|destruct (gt r 5)]);
  simpl; lia.
Qed.

(** ** The goal percentage in double precision *)

Lemma hundred_value :
  exists v, valueOf (ofInteger 100) = Some v /\ (v == 100)%Q.
Proof. eexists. split; [vm_compute; reflexivity | reflexivity]. Qed.

(** [Math.round(Math.min(100, y))] for a double [y]. *)
Lemma Math_round_min100_D (y : double) :
  Math_round_D (Math_min_D (ofInteger 100) y)
  = match y with
    | SpecFloat.S754_nan => None
    | SpecFloat.S754_infinity true => None
    | SpecFloat.S754_infinity false => Some 100
    | _ => option_map (fun q => Z.min 100 (Math_round q)) (valueOf y)
    end.
Proof.
  destruct hundred_value as [v [V E]].
  destruct y as [s | s | | s m e].
  - destruct s; vm_compute; reflexivity.
  - destruct s; vm_compute; reflexivity.
  - reflexivity.
  - assert (M : Math_min_D (ofInteger 100) (SpecFloat.S754_finite s m e)
                = match valueOf (SpecFloat.S754_finite s m e) with
                  | Some b =>
                      if Qle_bool v b then ofInteger 100
                      else SpecFloat.S754_finite s m e
                  | None => SpecFloat.S754_nan
                  end).
    { vm_compute in V. injection V as <-. reflexivity. }
    rewrite M.
    destruct (valueOf (SpecFloat.S754_finite s m e)) as [q|] eqn:Q;
      [|destruct s; discriminate].
    cbn [option_map].
    destruct (Qle_bool v q) eqn:L.
    + apply Qle_bool_iff in L.
      unfold Math_round_D. rewrite V. cbn [option_map]. f_equal.
      rewrite (Math_round_Qeq v (inject_Z 100)) by (rewrite E; reflexivity).
      rewrite Math_round_Z.
      assert (Math_round (inject_Z 100) <= Math_round q)
        by (apply Math_round_le; unfold inject_Z; lra).
      rewrite Math_round_Z in H. lia.
    + assert (N : (q < v)%Q).
      { apply Qnot_le_lt. intro H. apply Qle_bool_iff in H. congruence. }
      unfold Math_round_D. rewrite Q. cbn [option_map]. f_equal.
      assert (Math_round q <= Math_round (inject_Z 100))
        by (apply Math_round_le; unfold inject_Z; lra).
      rewrite Math_round_Z in H. lia.
Qed.

(** ** Claims on the score, the goal percentage and the insights *)

(** C2. On a non-empty meal list the nutrition score is the base 50 plus the
    bonus of each of the four bands, read with inclusive boundaries on the
    unrounded goal achievement, protein average, fiber average and
    processed-food percentage, then rounded and clamped to [1, 100]. *)
Theorem score_is_base_plus_bands (tz : Z) (meals : list Meal)
    (startDate endDate : Z) :
  meals <> [] ->
  exists gb pb fb xb : Z,
    goalBand (goalAchievement meals startDate endDate) gb
    /\ proteinBand (dailyAverage Totals.protein meals startDate endDate) pb
    /\ fiberBand (dailyAverage Totals.fiber meals startDate endDate) fb
    /\ processedBand (processedShare meals) xb
    /\ nutritionScore (aggregate tz meals startDate endDate)
       = Z.max 1 (Z.min 100 (Math_round (inject_Z (50 + gb + pb + fb + xb)))).
Proof.
  intro NE.
  exists (goalBonus (goalAchievement meals startDate endDate)),
    (proteinBonus (dailyAverage Totals.protein meals startDate endDate)),
    (fiberBonus (dailyAverage Totals.fiber meals startDate endDate)),
    (processedBonus (processedShare meals)).
  split; [apply goalBonus_band|].
  split; [apply proteinBonus_band|].
  split; [apply fiberBonus_band|].
  split; [apply processedBonus_band|].
  rewrite aggregate_nutritionScore by exact NE.
  rewrite calculateNutritionScore_sum, Math_round_Z. reflexivity.
Qed.

Lemma score_is_base_plus_bands_witness :
  [mealWith (at_ 3 9 0) 2000 150] <> []
  /\ exists gb pb fb xb : Z,
       goalBand (goalAchievement [mealWith (at_ 3 9 0) 2000 150] 0 msPerDay) gb
       /\ proteinBand
            (dailyAverage Totals.protein [mealWith (at_ 3 9 0) 2000 150] 0 msPerDay) pb
       /\ fiberBand
            (dailyAverage Totals.fiber [mealWith (at_ 3 9 0) 2000 150] 0 msPerDay) fb
       /\ processedBand (processedShare [mealWith (at_ 3 9 0) 2000 150]) xb
       /\ nutritionScore (aggregate 0 [mealWith (at_ 3 9 0) 2000 150] 0 msPerDay)
          = Z.max 1 (Z.min 100 (Math_round (inject_Z (50 + gb + pb + fb + xb)))).
Proof.
  split; [discriminate|].
  apply (score_is_base_plus_bands 0 [mealWith (at_ 3 9 0) 2000 150] 0 msPerDay).
  discriminate.
Defined.

(** C7. On the calorie column of a non-empty meal list and the number of
    days of the period, the goal percentage is round(min(100, p)) with p the
    double [(averageCaloriesDaily / 2000) * 100], the quotient rounded to a
    double before the product is taken and rounded: it is min(100, round(p))
    when p is a finite number, 100 when p is positive infinity, and never
    above 100. *)
Theorem calorie_goal_percent_double (calories : list (option double))
    (totalDays : Z) :
  calories <> [] ->
  (forall p : Q,
     valueOf (goalRatioD (averageCaloriesDailyD calories totalDays)) = Some p ->
     calorieGoalAchievementPercentD calories totalDays
     = Some (Z.min 100 (Math_round p)))
  /\ (goalRatioD (averageCaloriesDailyD calories totalDays)
      = SpecFloat.S754_infinity false ->
      calorieGoalAchievementPercentD calories totalDays = Some 100)
  /\ (forall percent : Z,
        calorieGoalAchievementPercentD calories totalDays = Some percent ->
        percent <= 100).
Proof.
  intros _. unfold calorieGoalAchievementPercentD.
  rewrite Math_round_min100_D.
  destruct (goalRatioD (averageCaloriesDailyD calories totalDays))
    as [s | s | | s m e] eqn:R.
  - split; [intros p [= <-]; reflexivity|].
    split; [discriminate|]. intros percent [= <-]. vm_compute. discriminate.
  - split; [discriminate|]. split; [intros [= ->]; reflexivity|].
    destruct s; [discriminate|]. intros percent [= <-]. lia.
  - split; [discriminate|]. split; discriminate.
  - split; [intros p ->; reflexivity|]. split; [discriminate|].
    destruct (valueOf (SpecFloat.S754_finite s m e)) as [q|];
      [|discriminate].
    intros percent [= <-]. lia.
Qed.

Lemma calorie_goal_percent_double_witness :
  [Some (ofInteger 900); None; Some (ofInteger 900)] <> []
  /\ calorieGoalAchievementPercentD
       [Some (ofInteger 900); None; Some (ofInteger 900)] 1 = Some 90
  /\ calorieGoalAchievementPercentD [Some (ofInteger 5000)] 1 = Some 100.
Proof.
  split; [discriminate|].
  destruct (calorie_goal_percent_double
              [Some (ofInteger 900); None; Some (ofInteger 900)] 1)
    as [E _]; [discriminate|].
  split; [|vm_compute; reflexivity].
  destruct (valueOf
              (goalRatioD
                 (averageCaloriesDailyD
                    [Some (ofInteger 900); None; Some (ofInteger 900)] 1)))
    as [p|] eqn:V; [|vm_compute in V; discriminate].
  rewrite (E p eq_refl). vm_compute in V. injection V as <-.
  vm_compute. reflexivity.
Defined.

(** C7, the formula of the specification: one meal of 2030 kcal in a period of
    7 days gives the daily average 290, for which
    min(100, round(100 * 290 / 2000)) is 15, in exact arithmetic and in
    doubles alike, while the service gives 14: the double nearest to
    290 / 2000 is below 0.145 and its product with 100 rounds to the double
    14.499999999999998. *)
Lemma calorie_goal_percent_not_the_formula :
  averageCaloriesDailyD [Some (ofInteger 2030)] 7 = ofInteger 290
  /\ calorieGoalAchievementPercentD [Some (ofInteger 2030)] 7 = Some 14
  /\ Z.min 100 (Math_round (100 * 290 / 2000)) = 15
  /\ specGoalPercentD (ofInteger 290) = Some 15
  /\ goalRatioD (ofInteger 290)
     = SpecFloat.S754_finite false 8162774324609023 (-49).
Proof. repeat split; vm_compute; reflexivity. Qed.

(** C8. The score never decreases when the average daily protein grows and
    the other inputs stay the same; from 119 to 120 the protein bonus moves
    from +10 to +15: with the other inputs fixed, the score at 119 is the
    score without protein plus 10 and the score at 120 is that score plus
    15. *)
Theorem score_monotone_in_protein (cal f x g p1 p2 : Q) :
  (p1 <= p2)%Q ->
  calculateNutritionScore cal p1 f x g <= calculateNutritionScore cal p2 f x g
  /\ calculateNutritionScore cal 119 f x g
     = calculateNutritionScore cal 0 f x g + 10
  /\ calculateNutritionScore cal 120 f x g
     = calculateNutritionScore cal 0 f x g + 15.
Proof.
  intro H. split; [now apply calculateNutritionScore_mono|].
  rewrite !calculateNutritionScore_sum. unfold clampScore.
  change (proteinBonus 119) with 10. change (proteinBonus 120) with 15.
  change (proteinBonus 0) with 0.
  pose proof (goalBonus_range g). pose proof (fiberBonus_range f).
  pose proof (processedBonus_range x).
  lia.
Qed.

Lemma score_monotone_in_protein_witness :
  (119 <= 120)%Q
  /\ (calculateNutritionScore 2000 119 20 0 100
      <= calculateNutritionScore 2000 120 20 0 100
      /\ calculateNutritionScore 2000 119 20 0 100
         = calculateNutritionScore 2000 0 20 0 100 + 10
      /\ calculateNutritionScore 2000 120 20 0 100
         = calculateNutritionScore 2000 0 20 0 100 + 15).
Proof.
  split; [unfold Qle; simpl; lia|].
  apply (score_monotone_in_protein 2000 20 0 100 119 120).
  unfold Qle; simpl; lia.
Defined.

(** C10. On a non-empty meal list the score lies in [35, 100]: the lower
    clamp bound 1 is never reached. *)
Theorem score_at_least_35 (tz : Z) (meals : list Meal) (startDate endDate : Z) :
  meals <> [] ->
  35 <= nutritionScore (aggregate tz meals startDate endDate) <= 100.
Proof.
  intro NE. rewrite aggregate_nutritionScore by exact NE.
  apply calculateNutritionScore_range.
Qed.

Lemma score_at_least_35_witness :
  [plainMeal (at_ 0 9 0)] <> []
  /\ 35 <= nutritionScore (aggregate 0 [plainMeal (at_ 0 9 0)] 0 msPerDay) <= 100.
Proof.
  split; [discriminate|].
  apply (score_at_least_35 0 [plainMeal (at_ 0 9 0)] 0 msPerDay). discriminate.
Defined.

(** C9. The rule list of lines 353-392 starts with exactly one of the three
    tier strings, chosen by the score, followed by the protein,
    processed-food and meal-frequency rules in that order, each with at most
    one string and none of them a tier string; but the class
    declares the static name [generateInsights] a second time at line 568
    as an [async] method, so on a non-empty meal list the call of line 148
    reaches that method and the field [insights] holds a promise, not the
    list of the rules. *)
Theorem insights_call_reaches_async_method (tz : Z) (meals : list Meal)
    (startDate endDate : Z) :
  meals <> [] ->
  resolveStatic "generateInsights"
  = Some {| declaredAt := 568; isAsync := true |}
  /\ insights (aggregate tz meals startDate endDate) = PromiseValue
  /\ (forall l : list string,
        insights (aggregate tz meals startDate endDate) <> Returned l)
  /\ (forall (cal p f x : Q) (score mealCount totalDays : Z),
        generateInsights cal p f x score mealCount totalDays
        = tierInsight score
          :: proteinRule p ++ processedRule x
             ++ frequencyRule (inject_Z mealCount / inject_Z totalDays)%Q
        /\ List.length
             (filter isTier
                (generateInsights cal p f x score mealCount totalDays))
           = 1%nat
        /\ (List.length (proteinRule p) <= 1)%nat
        /\ (List.length (processedRule x) <= 1)%nat
        /\ (List.length
              (frequencyRule (inject_Z mealCount / inject_Z totalDays)%Q)
            <= 1)%nat).
Proof.
  intro NE.
  assert (P : insights (aggregate tz meals startDate endDate) = PromiseValue).
  { rewrite aggregate_insights by exact NE. reflexivity. }
  split; [reflexivity|]. split; [exact P|].
  split; [intro l; rewrite P; discriminate|].
  intros cal p f x score mealCount totalDays.
  split; [apply generateInsights_rules|].
  split; [|apply rule_lengths].
  rewrite generateInsights_rules. cbn [filter].
  rewrite tierInsight_isTier, rules_no_tier. reflexivity.
Qed.

Lemma insights_call_reaches_async_method_witness :
  [mealWith (at_ 0 9 0) 2000 150] <> []
  /\ insights (aggregate 0 [mealWith (at_ 0 9 0) 2000 150] 0 msPerDay)
     = PromiseValue
  /\ generateInsights 2000 150 0 0 85 1 1
     = [tierExcellent;
        "Great protein intake! This supports muscle maintenance and satiety."%string;
        "Excellent focus on whole foods! This supports overall health."%string;
        "Consider logging more meals for better nutrition tracking."%string].
Proof.
  split; [discriminate|].
  destruct (insights_call_reaches_async_method 0
              [mealWith (at_ 0 9 0) 2000 150] 0 msPerDay)
    as [_ [P _]]; [discriminate|].
  split; [exact P | vm_compute; reflexivity].
Defined.

(** ** The empty list and the period selector *)

Lemma filter_none {A : Type} (f : A -> bool) (l : list A) :
  (forall a, In a l -> f a = false) -> filter f l = [].
Proof.
  induction l as [|a l IH]; intro H; [reflexivity|].
  cbn [filter]. rewrite (H a (or_introl eq_refl)).
  apply IH. intros b Hb. apply H. now right.
Qed.

Lemma startDateOf_unsupported (period : string) (endDate : Z) :
  period <> "week"%string -> period <> "month"%string ->
  period <> "custom"%string ->
  startDateOf period endDate = endDate.
Proof.
  intros W M C. unfold startDateOf.
  apply String.eqb_neq in W, M, C. rewrite W, M, C. reflexivity.
Qed.

(** C1. When the query finds no meal, whatever the period, the service
    resolves to the default statistics object: every daily average 0, goal
    and processed-food percentages 0, score 50, eating window 08:00 to
    20:00, fasting 12 hours, no missed meal, four weekly trends of seven
    zeros, and most common meal time 12:00. Nothing is divided and nothing
    fails. *)
Theorem empty_meals_default (tz : Z) (table : option (list Meal)) (now : Z)
    (userId period : string) :
  findMany table userId (startDateOf period now) now = Some [] ->
  exists st : NutritionStatistics,
    getNutritionStatistics tz table now userId period = Ok st
    /\ st = getDefaultStatistics
    /\ averageCaloriesDaily st = 0 /\ averageProteinDaily st = 0
    /\ averageCarbsDaily st = 0 /\ averageFatsDaily st = 0
    /\ averageFiberDaily st = 0 /\ averageSodiumDaily st = 0
    /\ averageSugarDaily st = 0 /\ averageFluidsDaily st = 0
    /\ calorieGoalAchievementPercent st = 0
    /\ processedFoodPercentage st = 0
    /\ nutritionScore st = 50
    /\ averageEatingHours st = {| start := "08:00"; end_ := "20:00" |}
    /\ intermittentFastingHours st = Some 12
    /\ missedMealsAlert st = 0
    /\ Trends.calories (weeklyTrends st) = [0; 0; 0; 0; 0; 0; 0]
    /\ Trends.protein (weeklyTrends st) = [0; 0; 0; 0; 0; 0; 0]
    /\ Trends.carbs (weeklyTrends st) = [0; 0; 0; 0; 0; 0; 0]
    /\ Trends.fats (weeklyTrends st) = [0; 0; 0; 0; 0; 0; 0]
    /\ mostCommonMealTime (generalStats st) = "12:00"%string.
Proof.
  intro H. exists getDefaultStatistics.
  split.
  - unfold getNutritionStatistics. rewrite H. reflexivity.
  - repeat split.
Qed.

Lemma empty_meals_default_witness :
  findMany (Some [plainMeal (at_ 0 9 0)]) "u1" (startDateOf "week" (at_ 30 0 0))
    (at_ 30 0 0) = Some []
  /\ getNutritionStatistics 0 (Some [plainMeal (at_ 0 9 0)]) (at_ 30 0 0)
       "u1" "week" = Ok getDefaultStatistics.
Proof.
  split; [vm_compute; reflexivity|].
  destruct (empty_meals_default 0 (Some [plainMeal (at_ 0 9 0)]) (at_ 30 0 0)
              "u1" "week") as [st [E [D _]]]; [vm_compute; reflexivity|].
  rewrite E, D. reflexivity.
Defined.

(** C4, as the code has it. A period selector other than week, month and
    custom raises nothing: the [switch] leaves the range at the single
    instant of the call, and the service resolves to a statistics object -
    the default one unless a meal was uploaded at that very instant. The
    only failure is that of the database read, whatever the period, with
    the message of the [catch] block. *)
Theorem unsupported_period_resolves (tz : Z) (table : option (list Meal))
    (now : Z) (userId period : string) :
  period <> "week"%string -> period <> "month"%string ->
  period <> "custom"%string ->
  getNutritionStatistics tz table now userId period
  = match findMany table userId now now with
    | Some meals => Ok (aggregate tz meals now now)
    | None => Err "Failed to generate nutrition statistics"
    end
  /\ (forall rows, table = Some rows ->
      exists st, getNutritionStatistics tz table now userId period = Ok st)
  /\ (forall rows, table = Some rows ->
      (forall m, In m rows -> upload_time m <> now) ->
      getNutritionStatistics tz table now userId period
      = Ok getDefaultStatistics).
Proof.
  intros W M C.
  assert (E : getNutritionStatistics tz table now userId period
              = match findMany table userId now now with
                | Some meals => Ok (aggregate tz meals now now)
                | None => Err "Failed to generate nutrition statistics"
                end).
  { unfold getNutritionStatistics.
    rewrite (startDateOf_unsupported period now W M C). reflexivity. }
  split; [exact E|]. split.
  - intros rows ->. rewrite E. cbn [findMany option_map]. eauto.
  - intros rows -> Hrows. rewrite E. cbn [findMany option_map].
    rewrite filter_none; [reflexivity|].
    intros m Hm. specialize (Hrows m Hm).
    destruct (String.eqb (user_id m) userId); [|reflexivity].
    destruct (Z.leb_spec now (upload_time m)); [|reflexivity].
    destruct (Z.leb_spec (upload_time m) now); [lia | reflexivity].
Qed.

Lemma unsupported_period_resolves_witness :
  "year"%string <> "week"%string /\ "year"%string <> "month"%string
  /\ "year"%string <> "custom"%string
  /\ getNutritionStatistics 0 (Some [plainMeal (at_ 0 9 0)]) (at_ 3 0 0)
       "u1" "year" = Ok getDefaultStatistics.
Proof.
  split; [discriminate|]. split; [discriminate|]. split; [discriminate|].
  destruct (unsupported_period_resolves 0 (Some [plainMeal (at_ 0 9 0)])
              (at_ 3 0 0) "u1" "year") as [_ [_ D]]; try discriminate.
  apply (D [plainMeal (at_ 0 9 0)] eq_refl).
  intros m [<- | []]. vm_compute. discriminate.
Defined.

(** C4, as stated, fails: with the selector "year" the service raises no
    error and resolves to the default statistics object. *)
Lemma unsupported_period_not_rejected :
  "year"%string <> "week"%string /\ "year"%string <> "month"%string
  /\ "year"%string <> "custom"%string
  /\ getNutritionStatistics 0 (Some [plainMeal (at_ 0 9 0)]) (at_ 3 0 0)
       "u1" "year" = Ok getDefaultStatistics
  /\ ~ (exists message,
          getNutritionStatistics 0 (Some [plainMeal (at_ 0 9 0)]) (at_ 3 0 0)
            "u1" "year" = Err message).
Proof.
  split; [discriminate|]. split; [discriminate|]. split; [discriminate|].
  assert (E : getNutritionStatistics 0 (Some [plainMeal (at_ 0 9 0)])
                (at_ 3 0 0) "u1" "year" = Ok getDefaultStatistics)
    by (vm_compute; reflexivity).
  split; [exact E|]. intros [message H]. rewrite E in H. discriminate.
Qed.

(** ** Weekly trends *)

Lemma updateAt_length {A : Type} (i : nat) (f : A -> A) (l : list A) :
  List.length (updateAt i f l) = List.length l.
Proof.
  revert i. induction l as [|x l IH]; intros [|i]; cbn; auto.
Qed.

Lemma nth_updateAt_same {A : Type} (i : nat) (f : A -> A) (l : list A) (d : A) :
  (i < List.length l)%nat -> nth i (updateAt i f l) d = f (nth i l d).
Proof.
  revert i. induction l as [|x l IH]; intros [|i] H; cbn in *; try lia.
  - reflexivity.
  - apply IH. lia.
Qed.

Lemma nth_updateAt_other {A : Type} (i j : nat) (f : A -> A) (l : list A) (d : A) :
  i <> j -> nth j (updateAt i f l) d = nth j l d.
Proof.
  revert i j. induction l as [|x l IH]; intros [|i] [|j] H; cbn;
    try congruence.
  apply IH. congruence.
Qed.

Lemma dayValue_addMeal (n : Nutrient) (meal : Meal) (day : DayTotal.t) :
  dayValue n (addMeal meal day) = (dayValue n day + mealValue n meal)%Q.
Proof. destruct n; reflexivity. Qed.

Lemma dayTotalOf_cons (n : Nutrient) (startDate d : Z) (m : Meal)
    (meals : list Meal) :
  dayTotalOf n startDate d (m :: meals)
  = if onDay startDate d m
    then (mealValue n m + dayTotalOf n startDate d meals)%Q
    else dayTotalOf n startDate d meals.
Proof.
  unfold dayTotalOf. cbn [filter]. destruct (onDay startDate d m); reflexivity.
Qed.

(** After the first loop, bucket [d] holds what it held before plus the
    nutrient of the meals whose day index is [d]. *)
Lemma accumulateDays_bucket (n : Nutrient) (startDate : Z) (meals : list Meal) :
  forall dayTotals : list DayTotal.t,
    List.length dayTotals = 7%nat ->
    List.length (accumulateDays 7 startDate meals dayTotals) = 7%nat
    /\ forall d : nat, (d < 7)%nat ->
         (dayValue n (nth d (accumulateDays 7 startDate meals dayTotals) emptyDay)
          == dayValue n (nth d dayTotals emptyDay)
             + dayTotalOf n startDate (Z.of_nat d) meals)%Q.
Proof.
  induction meals as [|m meals IH]; intros dayTotals Hlen.
  - split; [exact Hlen|]. intros d _. cbn. ring.
  - unfold accumulateDays. cbn [fold_left]. fold (accumulateDays 7 startDate meals).
    set (i := dayIndexOf startDate m).
    destruct ((i >=? 0) && (i <? 7))%bool eqn:R.
    + apply andb_true_iff in R as [R0 R7].
      apply Z.geb_le in R0. apply Z.ltb_lt in R7.
      destruct (IH (updateAt (Z.to_nat i) (addMeal m) dayTotals)) as [L B];
        [rewrite updateAt_length; exact Hlen|].
      split; [exact L|]. intros d Hd. rewrite (B d Hd), dayTotalOf_cons.
      unfold onDay. fold i.
      destruct (Z.eqb_spec i (Z.of_nat d)) as [E | E].
      * replace (Z.to_nat i) with d by lia.
        rewrite nth_updateAt_same by lia. rewrite dayValue_addMeal. ring.
      * rewrite nth_updateAt_other by lia. reflexivity.
    + destruct (IH dayTotals Hlen) as [L B].
      split; [exact L|]. intros d Hd. rewrite (B d Hd), dayTotalOf_cons.
      unfold onDay. fold i.
      destruct (Z.eqb_spec i (Z.of_nat d)) as [E | E]; [|reflexivity].
      exfalso. apply andb_false_iff in R as [R | R].
      * rewrite Z.geb_leb in R. apply Z.leb_gt in R. lia.
      * apply Z.ltb_ge in R. lia.
Qed.

Lemma seven_elements {A : Type} (l : list A) :
  List.length l = 7%nat ->
  forall d : A,
    l = [nth 0 l d; nth 1 l d; nth 2 l d; nth 3 l d; nth 4 l d; nth 5 l d;
         nth 6 l d].
Proof.
  intros H d.
  do 7 (destruct l as [|? l]; [discriminate|]).
  destruct l; [reflexivity | discriminate].
Qed.

Lemma trendOf_calculateWeeklyTrends (n : Nutrient) (meals : list Meal)
    (startDate endDate : Z) :
  trendOf n (calculateWeeklyTrends meals startDate endDate)
  = map (fun day => Math_round (dayValue n day))
      (accumulateDays 7 startDate meals (repeat emptyDay 7)).
Proof. destruct n; reflexivity. Qed.

(** Each bucket of a trend is the rounded total of its day. *)
Lemma calculateWeeklyTrends_buckets (n : Nutrient) (meals : list Meal)
    (startDate endDate : Z) :
  trendOf n (calculateWeeklyTrends meals startDate endDate)
  = map (fun d => Math_round (dayTotalOf n startDate d meals)) weekDays.
Proof.
  rewrite trendOf_calculateWeeklyTrends.
  destruct (accumulateDays_bucket n startDate meals (repeat emptyDay 7)
              eq_refl) as [L B].
  rewrite (seven_elements _ L emptyDay) at 1.
  unfold weekDays. cbn [map].
  repeat (apply (f_equal2 cons);
          [apply Math_round_Qeq;
           match goal with
           | |- (dayValue _ (nth ?d _ _) == _)%Q =>
               rewrite (B d) by lia; destruct n; cbn; ring
           end|]).
  reflexivity.
Qed.

Lemma windowTotal_cons (n : Nutrient) (startDate : Z) (m : Meal)
    (meals : list Meal) :
  windowTotal n startDate (m :: meals)
  = if inWindow startDate m
    then (mealValue n m + windowTotal n startDate meals)%Q
    else windowTotal n startDate meals.
Proof.
  unfold windowTotal. cbn [filter]. destruct (inWindow startDate m); reflexivity.
Qed.

(** The seven day totals add up to the total of the window. *)
Lemma dayTotals_windowTotal (n : Nutrient) (startDate : Z) (meals : list Meal) :
  (sumQ (map (fun d => dayTotalOf n startDate d meals) weekDays)
   == windowTotal n startDate meals)%Q.
Proof.
  induction meals as [|m meals IH]; [reflexivity|].
  unfold weekDays in *. cbn [map sumQ fold_right] in *.
  rewrite windowTotal_cons, !dayTotalOf_cons. unfold inWindow, onDay.
  remember (dayIndexOf startDate m) as i eqn:Ei. clear Ei.
  destruct (Z.leb_spec 0 i); destruct (Z.ltb_spec i 7); cbn [andb];
    repeat match goal with
           | |- context [Z.eqb i ?d] => destruct (Z.eqb_spec i d); try lia
           end;
    lra.
Qed.

Lemma isInteger_Z (z : Z) : isInteger (inject_Z z).
Proof. unfold isInteger. rewrite Qfloor_Z. reflexivity. Qed.

Lemma isInteger_Qeq (q : Q) (z : Z) : (q == inject_Z z)%Q -> isInteger q.
Proof.
  intro H. unfold isInteger. rewrite (Qfloor_comp _ _ H), Qfloor_Z.
  symmetry. exact H.
Qed.

Lemma isInteger_plus (a b : Q) : isInteger a -> isInteger b -> isInteger (a + b).
Proof.
  unfold isInteger. intros Ha Hb.
  apply (isInteger_Qeq _ (Qfloor a + Qfloor b)).
  rewrite inject_Z_plus, Ha, Hb. reflexivity.
Qed.

Lemma isInteger_dayTotalOf (n : Nutrient) (startDate d : Z) (meals : list Meal) :
  (forall m, In m meals -> isInteger (mealValue n m)) ->
  isInteger (dayTotalOf n startDate d meals).
Proof.
  induction meals as [|m meals IH]; intro H.
  - apply (isInteger_Z 0).
  - rewrite dayTotalOf_cons.
    assert (IH' : isInteger (dayTotalOf n startDate d meals))
      by (apply IH; intros m' Hm'; apply H; now right).
    destruct (onDay startDate d m); [|exact IH'].
    apply isInteger_plus; [apply H; now left | exact IH'].
Qed.

Lemma Math_round_integer (q : Q) :
  isInteger q -> (inject_Z (Math_round q) == q)%Q.
Proof.
  unfold isInteger. intro H.
  rewrite (Math_round_Qeq q (inject_Z (Qfloor q))) by (symmetry; exact H).
  rewrite Math_round_Z. exact H.
Qed.

Lemma sum_rounded_integers (g : Z -> Q) (ds : list Z) :
  (forall d, isInteger (g d)) ->
  (inject_Z (sumZ (map (fun d => Math_round (g d)) ds)) == sumQ (map g ds))%Q.
Proof.
  intro H. induction ds as [|d ds IH]; [reflexivity|].
  cbn [map sumZ sumQ fold_right]. fold (sumZ (map (fun d => Math_round (g d)) ds)).
  fold (sumQ (map g ds)).
  rewrite inject_Z_plus, IH, (Math_round_integer _ (H d)). reflexivity.
Qed.

Lemma filter_onDay_inWindow (startDate d : Z) (meals : list Meal) :
  0 <= d < 7 ->
  filter (onDay startDate d) (filter (inWindow startDate) meals)
  = filter (onDay startDate d) meals.
Proof.
  intro Hd. induction meals as [|m meals IH]; [reflexivity|].
  cbn [filter]. destruct (inWindow startDate m) eqn:W.
  - cbn [filter]. rewrite IH. reflexivity.
  - rewrite IH. destruct (onDay startDate d m) eqn:D; [|reflexivity].
    exfalso. unfold onDay in D. apply Z.eqb_eq in D.
    unfold inWindow in W. rewrite D in W.
    apply andb_false_iff in W as [W | W].
    + apply Z.leb_gt in W. lia.
    + apply Z.ltb_ge in W. lia.
Qed.

(** C3, as the code has it. For each of the four nutrients, the seven
    buckets of its weekly trend add up to the sum, over the day offsets 0 to
    6 from the start date, of the rounded total of the meals of that day;
    when the nutrient values are integers this is the sum of the values of
    the meals whose day index lies in [0, 7). The end date, hence the number
    of days of the period, plays no part, and the meals outside the window
    contribute nothing. *)
Theorem weekly_trend_sums (n : Nutrient) (meals : list Meal)
    (startDate endDate : Z) :
  sumZ (trendOf n (calculateWeeklyTrends meals startDate endDate))
  = sumZ (map (fun d => Math_round (dayTotalOf n startDate d meals)) weekDays)
  /\ ((forall m, In m meals -> isInteger (mealValue n m)) ->
      (inject_Z (sumZ (trendOf n (calculateWeeklyTrends meals startDate endDate)))
       == windowTotal n startDate meals)%Q)
  /\ trendOf n (calculateWeeklyTrends meals startDate endDate)
     = trendOf n (calculateWeeklyTrends (filter (inWindow startDate) meals)
                    startDate endDate)
  /\ List.length (trendOf n (calculateWeeklyTrends meals startDate endDate))
     = 7%nat.
Proof.
  rewrite !calculateWeeklyTrends_buckets.
  split; [reflexivity|]. split; [|split; [|reflexivity]].
  - intro H.
    rewrite (sum_rounded_integers (fun d => dayTotalOf n startDate d meals)).
    + apply dayTotals_windowTotal.
    + intro d. now apply isInteger_dayTotalOf.
  - unfold weekDays, dayTotalOf. cbn [map].
    rewrite !filter_onDay_inWindow by lia. reflexivity.
Qed.

Lemma weekly_trend_sums_witness :
  (forall m,
     In m [mealWith (at_ 0 9 0) 2000 150; mealWith (at_ 9 9 0) 500 30] ->
     isInteger (mealValue Calories m))
  /\ (inject_Z
        (sumZ (trendOf Calories
                 (calculateWeeklyTrends
                    [mealWith (at_ 0 9 0) 2000 150; mealWith (at_ 9 9 0) 500 30]
                    0 (at_ 30 0 0))))
      == windowTotal Calories 0
           [mealWith (at_ 0 9 0) 2000 150; mealWith (at_ 9 9 0) 500 30])%Q.
Proof.
  assert (H : forall m,
             In m [mealWith (at_ 0 9 0) 2000 150; mealWith (at_ 9 9 0) 500 30] ->
             isInteger (mealValue Calories m)).
  { intros m [<- | [<- | []]]; vm_compute; reflexivity. }
  split; [exact H|].
  apply (weekly_trend_sums Calories
           [mealWith (at_ 0 9 0) 2000 150; mealWith (at_ 9 9 0) 500 30]
           0 (at_ 30 0 0)).
  exact H.
Defined.

(** C3, as stated, fails: one meal of 250.4 kcal on day 0 puts 250 in the
    calorie trend, not 250.4. *)
Lemma weekly_trend_sum_is_rounded :
  inWindow 0 (mealWith (at_ 0 9 0) (1252 # 5) 30) = true
  /\ Trends.calories
       (calculateWeeklyTrends [mealWith (at_ 0 9 0) (1252 # 5) 30] 0 (at_ 7 0 0))
     = [250; 0; 0; 0; 0; 0; 0]
  /\ (windowTotal Calories 0 [mealWith (at_ 0 9 0) (1252 # 5) 30] == 1252 # 5)%Q
  /\ ~ (inject_Z
          (sumZ (trendOf Calories
                   (calculateWeeklyTrends [mealWith (at_ 0 9 0) (1252 # 5) 30]
                      0 (at_ 7 0 0))))
        == windowTotal Calories 0 [mealWith (at_ 0 9 0) (1252 # 5) 30])%Q.
Proof.
  split; [vm_compute; reflexivity|].
  split; [vm_compute; reflexivity|].
  split; [vm_compute; reflexivity|].
  vm_compute. discriminate.
Qed.

(** ** Eating window and fasting estimate *)

Lemma hourOfDay_minutes (tz : Z) (meal : Meal) :
  (hourOfDay tz meal == inject_Z (minuteOfDay tz meal) / 60)%Q.
Proof.
  unfold hourOfDay, minuteOfDay.
  rewrite inject_Z_plus, inject_Z_mult. change (inject_Z 60) with 60%Q. field.
Qed.

Lemma Qmin_minutes (a b : Z) :
  (Qmin (inject_Z a / 60) (inject_Z b / 60) == inject_Z (Z.min a b) / 60)%Q.
Proof.
  destruct (Z.le_ge_cases a b) as [L | L].
  - rewrite Z.min_l by exact L. apply Q.min_l.
    apply Qmult_le_compat_r; [rewrite <- Zle_Qle; exact L | discriminate].
  - rewrite Z.min_r by exact L. apply Q.min_r.
    apply Qmult_le_compat_r; [rewrite <- Zle_Qle; exact L | discriminate].
Qed.

Lemma Qmax_minutes (a b : Z) :
  (Qmax (inject_Z a / 60) (inject_Z b / 60) == inject_Z (Z.max a b) / 60)%Q.
Proof.
  destruct (Z.le_ge_cases a b) as [L | L].
  - rewrite Z.max_r by exact L. apply Q.max_r.
    apply Qmult_le_compat_r; [rewrite <- Zle_Qle; exact L | discriminate].
  - rewrite Z.max_l by exact L. apply Q.max_l.
    apply Qmult_le_compat_r; [rewrite <- Zle_Qle; exact L | discriminate].
Qed.

Lemma fold_Qmin_minutes (tz : Z) (meals : list Meal) :
  forall (q : Q) (z : Z),
    (q == inject_Z z / 60)%Q ->
    (fold_left Qmin (map (hourOfDay tz) meals) q
     == inject_Z (fold_left Z.min (map (minuteOfDay tz) meals) z) / 60)%Q.
Proof.
  induction meals as [|m meals IH]; intros q z H; [exact H|].
  cbn [map fold_left]. apply IH.
  rewrite <- Qmin_minutes. apply Q.min_compat; [exact H|].
  apply hourOfDay_minutes.
Qed.

Lemma fold_Qmax_minutes (tz : Z) (meals : list Meal) :
  forall (q : Q) (z : Z),
    (q == inject_Z z / 60)%Q ->
    (fold_left Qmax (map (hourOfDay tz) meals) q
     == inject_Z (fold_left Z.max (map (minuteOfDay tz) meals) z) / 60)%Q.
Proof.
  induction meals as [|m meals IH]; intros q z H; [exact H|].
  cbn [map fold_left]. apply IH.
  rewrite <- Qmax_minutes. apply Q.max_compat; [exact H|].
  apply hourOfDay_minutes.
Qed.

Lemma formatHour_clock (q : Q) (minutes : Z) :
  (q == inject_Z minutes / 60)%Q -> formatHour q = clock minutes.
Proof.
  intro H. unfold formatHour, clock.
  assert (F : Math_floor q = minutes / 60).
  { unfold Math_floor. rewrite (Qfloor_comp _ _ H).
    symmetry. apply (Zdiv_Qdiv minutes 60). }
  rewrite F.
  assert (R : Math_round ((q - inject_Z (minutes / 60)) * 60)%Q = minutes mod 60).
  { rewrite (Math_round_Qeq _ (inject_Z (minutes mod 60))).
    - apply Math_round_Z.
    - rewrite H. rewrite Z.mod_eq by lia.
      unfold Z.sub. rewrite inject_Z_plus, inject_Z_opp, inject_Z_mult.
      change (inject_Z 60) with 60%Q. field. }
  rewrite R. reflexivity.
Qed.

Lemma minuteOfDay_range (tz : Z) (meal : Meal) :
  0 <= minuteOfDay tz meal < 1440.
Proof.
  unfold minuteOfDay, getHours, getMinutes.
  pose proof (Z.mod_pos_bound ((upload_time meal + tz) / (1000 * 60 * 60)) 24).
  pose proof (Z.mod_pos_bound ((upload_time meal + tz) / (1000 * 60)) 60).
  lia.
Qed.

Lemma fold_min_range (l : list Z) (lo hi : Z) :
  forall x, lo <= x < hi -> Forall (fun y => lo <= y < hi) l ->
            lo <= fold_left Z.min l x < hi.
Proof.
  induction l as [|y l IH]; intros x Hx Hl; [exact Hx|].
  inversion Hl; subst. cbn [fold_left]. apply IH; [lia | assumption].
Qed.

Lemma fold_max_range (l : list Z) (lo hi : Z) :
  forall x, lo <= x < hi -> Forall (fun y => lo <= y < hi) l ->
            lo <= fold_left Z.max l x < hi.
Proof.
  induction l as [|y l IH]; intros x Hx Hl; [exact Hx|].
  inversion Hl; subst. cbn [fold_left]. apply IH; [lia | assumption].
Qed.

Lemma minutes_Forall (tz : Z) (meals : list Meal) :
  Forall (fun y => 0 <= y < 1440) (map (minuteOfDay tz) meals).
Proof.
  induction meals; constructor; [apply minuteOfDay_range | assumption].
Qed.

Lemma earliestMinute_range (tz : Z) (meals : list Meal) :
  0 <= earliestMinute tz meals < 1440.
Proof.
  unfold earliestMinute. pose proof (minutes_Forall tz meals) as F.
  destruct (map (minuteOfDay tz) meals); [lia|].
  inversion F; subst. now apply fold_min_range.
Qed.

Lemma latestMinute_range (tz : Z) (meals : list Meal) :
  0 <= latestMinute tz meals < 1440.
Proof.
  unfold latestMinute. pose proof (minutes_Forall tz meals) as F.
  destruct (map (minuteOfDay tz) meals); [lia|].
  inversion F; subst. now apply fold_max_range.
Qed.

Lemma fold_min_le_max (l : list Z) :
  forall x y, x <= y -> fold_left Z.min l x <= fold_left Z.max l y.
Proof.
  induction l as [|z l IH]; intros x y H; [exact H|].
  cbn [fold_left]. apply IH. lia.
Qed.

Lemma earliest_le_latest (tz : Z) (meals : list Meal) :
  earliestMinute tz meals <= latestMinute tz meals.
Proof.
  unfold earliestMinute, latestMinute.
  destruct (map (minuteOfDay tz) meals); [lia|].
  apply fold_min_le_max. lia.
Qed.

(** Every spelling from 00:00 to 23:59 is read back by the split. *)
Lemma clock_table : forallb clockReadsBack (seq 0 1440) = true.
Proof. vm_compute. reflexivity. Qed.

Lemma splitNumbers_clock (minutes : Z) :
  0 <= minutes < 1440 ->
  splitNumbers (clock minutes) = (Some (minutes / 60), Some (minutes mod 60)).
Proof.
  intro H.
  pose proof (proj1 (forallb_forall clockReadsBack (seq 0 1440)) clock_table
                (Z.to_nat minutes)) as T.
  assert (I : In (Z.to_nat minutes) (seq 0 1440)) by (apply in_seq; lia).
  specialize (T I). unfold clockReadsBack in T.
  rewrite Z2Nat.id in T by lia.
  destruct (splitNumbers (clock minutes)) as [[h|] [m|]]; try discriminate.
  apply andb_true_iff in T as [Th Tm].
  apply Z.eqb_eq in Th, Tm. subst. reflexivity.
Qed.

Lemma calculateEatingHours_clock (tz : Z) (meals : list Meal) :
  meals <> [] ->
  calculateEatingHours tz meals
  = {| start := clock (earliestMinute tz meals);
       end_ := clock (latestMinute tz meals) |}.
Proof.
  intro NE. destruct meals as [|m meals]; [congruence|].
  unfold calculateEatingHours, earliestMinute, latestMinute, Math_min, Math_max.
  cbn [List.length Nat.eqb map].
  f_equal; apply formatHour_clock.
  - apply fold_Qmin_minutes, hourOfDay_minutes.
  - apply fold_Qmax_minutes, hourOfDay_minutes.
Qed.

Lemma calculateIntermittentFasting_clock (a b : Z) :
  0 <= a < 1440 -> 0 <= b < 1440 ->
  calculateIntermittentFasting {| start := clock a; end_ := clock b |}
  = Some (fastingBetween a b).
Proof.
  intros Ha Hb. unfold calculateIntermittentFasting, fastingBetween.
  cbn [start end_].
  rewrite (splitNumbers_clock a Ha), (splitNumbers_clock b Hb).
  replace (a / 60 * 60 + a mod 60) with a
    by (rewrite (Z.div_mod a 60) at 1; lia).
  replace (b / 60 * 60 + b mod 60) with b
    by (rewrite (Z.div_mod b 60) at 1; lia).
  reflexivity.
Qed.

(** C6. On a non-empty meal list the eating window runs from the earliest
    to the latest meal time of day, and the fasting estimate is 24 hours
    minus (end - start) when end > start and start - end otherwise, rounded
    to whole hours. Meals at 09:00 and 21:00 alone give start 09:00, end
    21:00 and 12 hours of fasting. *)
Theorem fasting_from_eating_window (tz : Z) (meals : list Meal)
    (startDate endDate : Z) :
  meals <> [] ->
  let st := aggregate tz meals startDate endDate in
  let a := earliestMinute tz meals in
  let b := latestMinute tz meals in
  averageEatingHours st = {| start := clock a; end_ := clock b |}
  /\ intermittentFastingHours st
     = Some (Math_round
               (inject_Z (if b >? a then 24 * 60 - (b - a) else a - b) / 60)%Q)
  /\ averageEatingHours
       (aggregate 0 [plainMeal (at_ 1 9 0); plainMeal (at_ 1 21 0)]
          0 (at_ 7 0 0))
     = {| start := "09:00"; end_ := "21:00" |}
  /\ intermittentFastingHours
       (aggregate 0 [plainMeal (at_ 1 9 0); plainMeal (at_ 1 21 0)]
          0 (at_ 7 0 0))
     = Some 12.
Proof.
  intros NE st a b. unfold st.
  rewrite aggregate_eatingHours, aggregate_fasting by exact NE.
  rewrite calculateEatingHours_clock by exact NE.
  split; [reflexivity|]. split.
  - apply calculateIntermittentFasting_clock;
      [apply earliestMinute_range | apply latestMinute_range].
  - split; vm_compute; reflexivity.
Qed.

Lemma fasting_from_eating_window_witness :
  [plainMeal (at_ 2 7 30); plainMeal (at_ 1 21 0); plainMeal (at_ 3 12 15)] <> []
  /\ averageEatingHours
       (aggregate 0
          [plainMeal (at_ 2 7 30); plainMeal (at_ 1 21 0); plainMeal (at_ 3 12 15)]
          0 (at_ 7 0 0))
     = {| start := "07:30"; end_ := "21:00" |}
  /\ intermittentFastingHours
       (aggregate 0
          [plainMeal (at_ 2 7 30); plainMeal (at_ 1 21 0); plainMeal (at_ 3 12 15)]
          0 (at_ 7 0 0))
     = Some 11.
Proof.
  split; [discriminate|].
  destruct (fasting_from_eating_window 0
              [plainMeal (at_ 2 7 30); plainMeal (at_ 1 21 0);
               plainMeal (at_ 3 12 15)] 0 (at_ 7 0 0))
    as [E [F _]]; [discriminate|].
  rewrite E, F. split; vm_compute; reflexivity.
Defined.

(** ** The most common meal time *)

Lemma parseInt_toString (k : Z) : parseInt (toString k) = Some k.
Proof.
  unfold parseInt, toString.
  rewrite NilZero.isi.
  - cbn [option_map]. now rewrite DecimalZ.of_to.
  - intro E. pose proof (DecimalZ.of_to k) as T. rewrite E in T.
    cbn in T. subst k. discriminate.
  - intro E. pose proof (DecimalZ.of_to k) as T. rewrite E in T.
    cbn in T. subst k. discriminate.
Qed.

Lemma lookup_store (o : HourCounts) (key value k : Z) :
  lookup (store o key value) k
  = if k =? key then Some value else lookup o k.
Proof.
  induction o as [|[k0 v0] o IH]; cbn [store lookup].
  - reflexivity.
  - destruct (Z.eqb_spec key k0) as [E | E].
    + subst k0. cbn [lookup]. destruct (k =? key); reflexivity.
    + destruct (Z.ltb_spec key k0); cbn [lookup].
      * reflexivity.
      * rewrite IH. destruct (Z.eqb_spec k k0); destruct (Z.eqb_spec k key);
          try reflexivity; lia.
Qed.

Lemma keys_store (o : HourCounts) (key value k : Z) :
  In k (map fst (store o key value)) <-> k = key \/ In k (map fst o).
Proof.
  induction o as [|[k0 v0] o IH]; cbn [store map fst In].
  - intuition.
  - destruct (Z.eqb_spec key k0) as [E | E].
    + subst k0. cbn [map fst In]. intuition.
    + destruct (Z.ltb_spec key k0); cbn [map fst In]; intuition.
Qed.

Lemma store_sorted (o : HourCounts) (key value : Z) :
  StronglySorted Z.lt (map fst o) ->
  StronglySorted Z.lt (map fst (store o key value)).
Proof.
  induction o as [|[k0 v0] o IH]; intro S; cbn [store map fst].
  - repeat constructor.
  - apply StronglySorted_inv in S as [S F]. cbn [fst] in F.
    destruct (Z.eqb_spec key k0) as [E | E].
    + cbn [map fst]. now constructor.
    + destruct (Z.ltb_spec key k0); cbn [map fst].
      * constructor; [now constructor|].
        constructor; [exact H|].
        rewrite Forall_forall in *. intros y Hy. specialize (F y Hy). lia.
      * constructor; [now apply IH|].
        rewrite Forall_forall in *. intros y Hy.
        apply keys_store in Hy as [-> | Hy]; [lia | now apply F].
Qed.

Lemma lookup_keys (o : HourCounts) (k : Z) :
  In k (map fst o) <-> lookup o k <> None.
Proof.
  induction o as [|[k0 v0] o IH]; cbn [map fst In lookup].
  - intuition.
  - destruct (Z.eqb_spec k k0); split; intro H;
      try discriminate; try (now left); intuition.
Qed.

Lemma hourCount_cons (tz : Z) (m : Meal) (meals : list Meal) (k : Z) :
  hourCount tz (m :: meals) k
  = (if getHours tz (upload_time m) =? k then 1 else 0) + hourCount tz meals k.
Proof.
  unfold hourCount. cbn [filter].
  destruct (getHours tz (upload_time m) =? k); cbn [List.length]; lia.
Qed.

Lemma hourCount_nonneg (tz : Z) (meals : list Meal) (k : Z) :
  0 <= hourCount tz meals k.
Proof. unfold hourCount. lia. Qed.

Lemma getHours_range (tz date : Z) : 0 <= getHours tz date < 24.
Proof. unfold getHours. apply Z.mod_pos_bound. lia. Qed.

Lemma hourCount_positive_range (tz : Z) (meals : list Meal) (k : Z) :
  0 < hourCount tz meals k -> 0 <= k < 24.
Proof.
  induction meals as [|m meals IH]; [cbn; lia|].
  rewrite hourCount_cons.
  destruct (Z.eqb_spec (getHours tz (upload_time m)) k) as [E | E].
  - intros _. rewrite <- E. apply getHours_range.
  - intro H. apply IH. lia.
Qed.

Lemma bumpHour_lookup (tz : Z) (meals : list Meal) (k : Z) :
  forall o : HourCounts,
    lookup (fold_left (bumpHour tz) meals o) k
    = if hourCount tz meals k =? 0 then lookup o k
      else Some (countAt o k + hourCount tz meals k).
Proof.
  induction meals as [|m meals IH]; intro o; [reflexivity|].
  cbn [fold_left]. rewrite IH, hourCount_cons.
  unfold bumpHour, countAt. rewrite !lookup_store.
  pose proof (hourCount_nonneg tz meals k).
  rewrite (Z.eqb_sym k).
  destruct (Z.eqb_spec (getHours tz (upload_time m)) k) as [E | E].
  - subst k.
    destruct (Z.eqb_spec (hourCount tz meals (getHours tz (upload_time m))) 0)
      as [Z0 | Z0].
    + rewrite Z0. cbn. reflexivity.
    + destruct (Z.eqb_spec
                  (1 + hourCount tz meals (getHours tz (upload_time m))) 0);
        [lia|]. f_equal. lia.
  - cbn [Z.add]. destruct (hourCount tz meals k =? 0); reflexivity.
Qed.

Lemma bumpHour_sorted (tz : Z) (meals : list Meal) :
  forall o : HourCounts,
    StronglySorted Z.lt (map fst o) ->
    StronglySorted Z.lt (map fst (fold_left (bumpHour tz) meals o)).
Proof.
  induction meals as [|m meals IH]; intros o S; [exact S|].
  cbn [fold_left]. apply IH. now apply store_sorted.
Qed.

Lemma countHours_lookup (tz : Z) (meals : list Meal) (k : Z) :
  lookup (countHours tz meals) k
  = if hourCount tz meals k =? 0 then None else Some (hourCount tz meals k).
Proof.
  unfold countHours. rewrite bumpHour_lookup. reflexivity.
Qed.

(** The keys come out in ascending order. *)
Lemma countHours_sorted (tz : Z) (meals : list Meal) :
  StronglySorted Z.lt (map fst (countHours tz meals)).
Proof.
  unfold countHours. apply bumpHour_sorted. constructor.
Qed.

Lemma countHours_key (tz : Z) (meals : list Meal) (k : Z) :
  In k (map fst (countHours tz meals)) <-> 0 < hourCount tz meals k.
Proof.
  rewrite lookup_keys, countHours_lookup.
  pose proof (hourCount_nonneg tz meals k).
  destruct (Z.eqb_spec (hourCount tz meals k) 0); split; intro; try lia;
    congruence.
Qed.

Lemma reduce_on_keys (o : HourCounts) (r : list Z) :
  forall x : Z,
    fold_left
      (fun a b =>
         if gtUndef (lookupAt o (parseInt a)) (lookupAt o (parseInt b))
         then a else b)
      (map toString r) (toString x)
    = toString (fold_left (pickHour o) r x).
Proof.
  induction r as [|b r IH]; intro x; [reflexivity|].
  cbn [map fold_left]. rewrite !parseInt_toString. cbn [lookupAt].
  unfold pickHour at 2.
  destruct (gtUndef (lookup o x) (lookup o b)); apply IH.
Qed.

Lemma StronglySorted_snoc (l : list Z) (b : Z) :
  StronglySorted Z.lt (l ++ [b]) ->
  StronglySorted Z.lt l /\ Forall (fun y => y < b) l.
Proof.
  induction l as [|a l IH]; cbn [app]; intro S.
  - split; constructor.
  - apply StronglySorted_inv in S as [S F].
    destruct (IH S) as [S' F'].
    rewrite Forall_forall in F.
    split.
    + constructor; [exact S'|].
      rewrite Forall_forall. intros y Hy. apply F, in_or_app. now left.
    + constructor; [|exact F'].
      apply F, in_or_app. right. now left.
Qed.

(** On ascending keys the [reduce] ends on a key of highest count, and on
    the largest such key. *)
Lemma pickHour_last_max (o : HourCounts) (c : Z -> Z) (r : list Z) :
  forall x : Z,
    StronglySorted Z.lt (x :: r) ->
    (forall y, In y (x :: r) -> lookup o y = Some (c y)) ->
    In (fold_left (pickHour o) r x) (x :: r)
    /\ forall y, In y (x :: r) ->
         c y <= c (fold_left (pickHour o) r x)
         /\ (c y = c (fold_left (pickHour o) r x) ->
             y <= fold_left (pickHour o) r x).
Proof.
  induction r as [|b r IH] using rev_ind; intros x S C.
  - cbn [fold_left]. split; [now left|].
    intros y [<- | []]. lia.
  - rewrite fold_left_app. cbn [fold_left].
    change (x :: r ++ [b]) with ((x :: r) ++ [b]) in *.
    apply StronglySorted_snoc in S as [S F].
    destruct (IH x S) as [Hin Hmax].
    { intros y Hy. apply C, in_or_app. now left. }
    set (h := fold_left (pickHour o) r x) in *.
    assert (Ch : lookup o h = Some (c h)).
    { apply C, in_or_app. now left. }
    assert (Cb : lookup o b = Some (c b)).
    { apply C, in_or_app. right. now left. }
    assert (Hb : h < b).
    { rewrite Forall_forall in F. now apply F. }
    assert (Pk : pickHour o h b = if c h >? c b then h else b)
      by (unfold pickHour; rewrite Ch, Cb; reflexivity).
    rewrite Pk.
    destruct (Z.gtb_spec (c h) (c b)) as [G | G].
    + split; [apply in_or_app; now left|].
      intros y Hy. apply in_app_or in Hy as [Hy | [<- | []]].
      * now apply Hmax.
      * lia.
    + split; [apply in_or_app; right; now left|].
      intros y Hy. apply in_app_or in Hy as [Hy | [<- | []]].
      * destruct (Hmax y Hy) as [M T]. split; [lia|].
        intro E. assert (y <= h) by (apply T; lia). lia.
      * lia.
Qed.

Lemma getMostCommonMealTime_hour (tz : Z) (meals : list Meal) :
  meals <> [] ->
  exists h : Z,
    getMostCommonMealTime tz meals = hh00 h
    /\ 0 < hourCount tz meals h
    /\ (forall k, hourCount tz meals k <= hourCount tz meals h)
    /\ (forall k, hourCount tz meals k = hourCount tz meals h -> k <= h).
Proof.
  intro NE.
  assert (K : exists x r, map fst (countHours tz meals) = x :: r).
  { destruct meals as [|m meals]; [congruence|].
    assert (I : In (getHours tz (upload_time m))
                  (map fst (countHours tz (m :: meals)))).
    { apply countHours_key. rewrite hourCount_cons, Z.eqb_refl.
      pose proof (hourCount_nonneg tz meals (getHours tz (upload_time m))).
      lia. }
    destruct (map fst (countHours tz (m :: meals))) as [|x r]; [destruct I|].
    eauto. }
  destruct K as [x [r K]].
  pose proof (countHours_sorted tz meals) as S. rewrite K in S.
  destruct (pickHour_last_max (countHours tz meals) (hourCount tz meals) r x S)
    as [Hin Hmax].
  { intros y Hy. rewrite <- K in Hy. apply countHours_key in Hy.
    rewrite countHours_lookup.
    destruct (Z.eqb_spec (hourCount tz meals y) 0); [lia | reflexivity]. }
  set (h := fold_left (pickHour (countHours tz meals)) r x) in *.
  assert (P : 0 < hourCount tz meals h).
  { apply countHours_key. rewrite K. exact Hin. }
  exists h. split; [|split; [exact P|split]].
  - unfold getMostCommonMealTime.
    destruct meals as [|m meals]; [congruence|].
    cbn [List.length Nat.eqb]. unfold hh00. f_equal.
    unfold Object_keys.
    rewrite <- (map_map fst toString), K. cbn [map reduce1].
    rewrite reduce_on_keys. reflexivity.
  - intro k. pose proof (hourCount_nonneg tz meals k).
    destruct (Z.eq_dec (hourCount tz meals k) 0) as [Z0 | Z0]; [lia|].
    apply Hmax. rewrite <- K. apply countHours_key. lia.
  - intros k E. apply Hmax; [|exact E].
    rewrite <- K. apply countHours_key. lia.
Qed.

(** C5, as the code has it. On a non-empty meal list the most common meal
    time is HH:00 for an hour of the day with the highest meal count; the
    keys of the hour buckets are enumerated in ascending order and the
    [reduce] keeps the later key on a tie, so among the hours that tie for
    the highest count the largest one, the last in iteration order, is
    chosen. *)
Theorem most_common_hour_last_on_tie (tz : Z) (meals : list Meal)
    (startDate endDate : Z) :
  meals <> [] ->
  exists h : Z,
    0 <= h < 24
    /\ mostCommonMealTime (generalStats (aggregate tz meals startDate endDate))
       = hh00 h
    /\ (forall k, hourCount tz meals k <= hourCount tz meals h)
    /\ (forall k, hourCount tz meals k = hourCount tz meals h -> k <= h)
    /\ In h (map fst (countHours tz meals))
    /\ StronglySorted Z.lt (map fst (countHours tz meals))
    /\ Object_keys (countHours tz meals)
       = map toString (map fst (countHours tz meals)).
Proof.
  intro NE.
  destruct (getMostCommonMealTime_hour tz meals NE) as [h [E [P [M T]]]].
  exists h.
  split; [now apply (hourCount_positive_range tz meals)|].
  split; [rewrite aggregate_mostCommon by exact NE; exact E|].
  split; [exact M|]. split; [exact T|].
  split; [now apply countHours_key|].
  split; [apply countHours_sorted|].
  unfold Object_keys. now rewrite map_map.
Qed.

Lemma most_common_hour_last_on_tie_witness :
  [plainMeal (at_ 1 8 10); plainMeal (at_ 1 9 20); plainMeal (at_ 2 13 0)] <> []
  /\ exists h : Z,
       0 <= h < 24
       /\ mostCommonMealTime
            (generalStats
               (aggregate 0
                  [plainMeal (at_ 1 8 10); plainMeal (at_ 1 9 20);
                   plainMeal (at_ 2 13 0)] 0 (at_ 7 0 0)))
          = hh00 h
       /\ hh00 h = "13:00"%string.
Proof.
  split; [discriminate|].
  destruct (most_common_hour_last_on_tie 0
              [plainMeal (at_ 1 8 10); plainMeal (at_ 1 9 20);
               plainMeal (at_ 2 13 0)] 0 (at_ 7 0 0))
    as [h [R [E _]]]; [discriminate|].
  exists h. split; [exact R|]. split; [exact E|].
  rewrite <- E. vm_compute. reflexivity.
Defined.

(** C5, as stated, fails: with one meal at 08:xx and one at 09:xx the keys
    are enumerated as 8 then 9, both hours count one meal, and the result is
    09:00, the key met last, not 08:00, the key met first. *)
Lemma most_common_hour_tie_not_first :
  Object_keys
    (countHours 0 [plainMeal (at_ 1 8 10); plainMeal (at_ 1 9 20)])
  = ["8"%string; "9"%string]
  /\ hourCount 0 [plainMeal (at_ 1 8 10); plainMeal (at_ 1 9 20)] 8 = 1
  /\ hourCount 0 [plainMeal (at_ 1 8 10); plainMeal (at_ 1 9 20)] 9 = 1
  /\ mostCommonMealTime
       (generalStats
          (aggregate 0 [plainMeal (at_ 1 8 10); plainMeal (at_ 1 9 20)]
             0 (at_ 7 0 0)))
     = "09:00"%string
  /\ mostCommonMealTime
       (generalStats
          (aggregate 0 [plainMeal (at_ 1 8 10); plainMeal (at_ 1 9 20)]
             0 (at_ 7 0 0)))
     <> hh00 8.
Proof.
  split; [vm_compute; reflexivity|].
  split; [vm_compute; reflexivity|].
  split; [vm_compute; reflexivity|].
  split; [vm_compute; reflexivity|].
  vm_compute. discriminate.
Qed.

(** * Further properties of the statistics service *)

(** ** The database read *)

Lemma insertByTime_perm (m : Meal) (l : list Meal) :
  Permutation (insertByTime m l) (m :: l).
Proof.
  induction l as [|x l IH]; cbn [insertByTime]; [reflexivity|].
  destruct (upload_time m <? upload_time x); [reflexivity|].
  rewrite IH. apply perm_swap.
Qed.

Lemma sortByTime_perm (l : list Meal) : Permutation (sortByTime l) l.
Proof.
  induction l as [|x l IH]; [reflexivity|].
  unfold sortByTime. cbn [fold_right]. fold (sortByTime l).
  rewrite insertByTime_perm. now constructor.
Qed.

Lemma findMany_member (table : option (list Meal)) (userId : string)
    (gte lte : Z) (meals : list Meal) (m : Meal) :
  findMany table userId gte lte = Some meals ->
  In m meals ->
  user_id m = userId /\ gte <= upload_time m <= lte.
Proof.
  destruct table as [rows|]; [|discriminate].
  cbn [findMany option_map]. intros [= <-] H.
  apply (Permutation_in _ (sortByTime_perm _)) in H.
  apply filter_In in H as [_ S].
  apply andb_true_iff in S as [S L]. apply andb_true_iff in S as [U G].
  apply String.eqb_eq in U. apply Z.leb_le in G, L. auto.
Qed.

(** ** The period and the window of the trends *)

Lemma totalDaysOf_whole (startDate n : Z) :
  0 <= n -> totalDaysOf startDate (startDate + n * msPerDay) = Z.max 1 n.
Proof.
  intro H. unfold totalDaysOf, Math_ceil.
  replace (startDate + n * msPerDay - startDate) with (n * msPerDay) by lia.
  rewrite (Qceiling_comp _ (inject_Z n)); [now rewrite Qceiling_Z|].
  rewrite inject_Z_mult. field. discriminate.
Qed.

Lemma Math_ceil_days (d : Z) :
  Math_ceil (inject_Z d / inject_Z msPerDay)%Q = - ((- d) / msPerDay).
Proof.
  unfold Math_ceil, Qceiling. f_equal. rewrite Zdiv_Qdiv.
  apply Qfloor_comp. rewrite inject_Z_opp. field. discriminate.
Qed.

Lemma totalDaysOf_started (startDate endDate n : Z) :
  1 <= n ->
  (n - 1) * msPerDay < endDate - startDate <= n * msPerDay ->
  totalDaysOf startDate endDate = n.
Proof.
  intros N R. unfold totalDaysOf. rewrite Math_ceil_days.
  pose proof (Z.div_mod (- (endDate - startDate)) msPerDay) as D.
  pose proof (Z.mod_pos_bound (- (endDate - startDate)) msPerDay) as B.
  change msPerDay with 86400000 in *. lia.
Qed.

(** X2. The number of days of a range counts every started day: it is [n]
    when the range is longer than [n - 1] days and at most [n] days, and 1
    when the range is at most one day, empty or reversed. So a range of
    exactly seven days counts 7, a range of seven days and one hour, as
    the week before a call has when the clock was set back an hour in it,
    counts 8, and the empty range of an unsupported period selector
    counts 1. *)
Theorem total_days_counts_started_days (startDate endDate : Z) :
  (endDate - startDate <= msPerDay -> totalDaysOf startDate endDate = 1)
  /\ (forall n : Z,
        1 <= n <= 10000000 ->
        (n - 1) * msPerDay < endDate - startDate <= n * msPerDay ->
        totalDaysOf startDate endDate = n)
  /\ totalDaysOf startDate (startDate + 7 * msPerDay) = 7
  /\ totalDaysOf startDate (startDate + 7 * msPerDay + msPerHour) = 8
  /\ totalDaysOf startDate (startDate + 7 * msPerDay - msPerHour) = 7
  /\ (forall period : string,
        period <> "week"%string -> period <> "month"%string ->
        period <> "custom"%string ->
        totalDaysOf (startDateOf period endDate) endDate = 1).
Proof.
  split.
  { intro R. unfold totalDaysOf. rewrite Math_ceil_days.
    pose proof (Z.div_mod (- (endDate - startDate)) msPerDay) as D.
    pose proof (Z.mod_pos_bound (- (endDate - startDate)) msPerDay) as B.
    change msPerDay with 86400000 in *. lia. }
  split; [intros n N R; apply totalDaysOf_started; lia|].
  split; [apply totalDaysOf_started; change msPerDay with 86400000; lia|].
  split; [apply totalDaysOf_started;
          change msPerDay with 86400000; change msPerHour with 3600000; lia|].
  split; [apply totalDaysOf_started;
          change msPerDay with 86400000; change msPerHour with 3600000; lia|].
  intros period W M C. rewrite (startDateOf_unsupported period endDate W M C).
  replace endDate with (endDate + 0 * msPerDay) at 2 by lia.
  now rewrite totalDaysOf_whole.
Qed.

Lemma dayIndexOf_div (startDate : Z) (meal : Meal) :
  dayIndexOf startDate meal = (upload_time meal - startDate) / msPerDay.
Proof.
  unfold dayIndexOf, Math_floor. symmetry. apply Zdiv_Qdiv.
Qed.

Lemma inWindow_range (startDate : Z) (meal : Meal) :
  inWindow startDate meal = true
  <-> startDate <= upload_time meal < startDate + 7 * msPerDay.
Proof.
  unfold inWindow. rewrite dayIndexOf_div, andb_true_iff, Z.leb_le, Z.ltb_lt.
  pose proof (Z.div_mod (upload_time meal - startDate) msPerDay) as D.
  pose proof (Z.mod_pos_bound (upload_time meal - startDate) msPerDay) as B.
  change msPerDay with 86400000 in *. lia.
Qed.

(** X3. A meal the query returns for a range never lies before the window
    of the weekly trends: it is counted in them exactly when it was uploaded
    less than seven days after the start of the range. When the range is
    exactly seven days long this leaves out only a meal uploaded at the end
    instant; when it is longer, as the week across a clock change that adds
    an hour or the periods month and custom, it leaves out every meal from
    seven days after the start on, whose day index is 7 or more. *)
Theorem fetched_meal_window (table : option (list Meal)) (userId : string)
    (startDate endDate : Z) (meals : list Meal) (m : Meal) :
  findMany table userId startDate endDate = Some meals ->
  In m meals ->
  0 <= dayIndexOf startDate m
  /\ (inWindow startDate m = true
      <-> upload_time m < startDate + 7 * msPerDay)
  /\ (inWindow startDate m = false <-> 7 <= dayIndexOf startDate m)
  /\ (endDate = startDate + 7 * msPerDay ->
      (inWindow startDate m = false <-> upload_time m = endDate))
  /\ (endDate < startDate + 7 * msPerDay -> inWindow startDate m = true).
Proof.
  intros F I.
  destruct (findMany_member _ _ _ _ _ _ F I) as [_ [G L]].
  assert (P : 0 <= dayIndexOf startDate m).
  { rewrite dayIndexOf_div. apply Z.div_pos; [lia | reflexivity]. }
  split; [exact P|].
  split; [rewrite inWindow_range; lia|].
  split.
  { unfold inWindow. rewrite andb_false_iff, Z.leb_gt, Z.ltb_ge. lia. }
  split.
  - intros ->. rewrite <- not_true_iff_false, inWindow_range. lia.
  - intro S. apply inWindow_range. lia.
Qed.

Lemma fetched_meal_window_witness :
  findMany (Some [plainMeal (at_ 35 9 0); plainMeal (at_ 40 0 30)]) "u1"
    (at_ 33 0 0) (at_ 40 1 0)
  = Some [plainMeal (at_ 35 9 0); plainMeal (at_ 40 0 30)]
  /\ In (plainMeal (at_ 40 0 30))
       [plainMeal (at_ 35 9 0); plainMeal (at_ 40 0 30)]
  /\ inWindow (at_ 33 0 0) (plainMeal (at_ 40 0 30)) = false
  /\ dayIndexOf (at_ 33 0 0) (plainMeal (at_ 40 0 30)) = 7.
Proof.
  assert (F : findMany (Some [plainMeal (at_ 35 9 0); plainMeal (at_ 40 0 30)])
                "u1" (at_ 33 0 0) (at_ 40 1 0)
              = Some [plainMeal (at_ 35 9 0); plainMeal (at_ 40 0 30)])
    by (vm_compute; reflexivity).
  assert (I : In (plainMeal (at_ 40 0 30))
                [plainMeal (at_ 35 9 0); plainMeal (at_ 40 0 30)])
    by (right; left; reflexivity).
  split; [exact F|]. split; [exact I|].
  destruct (fetched_meal_window _ _ _ _ _ _ F I) as [_ [_ [W _]]].
  split; [apply W; vm_compute; discriminate | vm_compute; reflexivity].
Defined.

(** ** Recommendations *)

Section MoreFields.

Variable tz : Z.
Variables (meals : list Meal) (startDate endDate : Z).
Hypothesis nonempty : meals <> [].

Lemma aggregate_recommendations :
  recommendations (aggregate tz meals startDate endDate)
  = generateRecommendations
      (dailyAverage Totals.calories meals startDate endDate)
      (dailyAverage Totals.protein meals startDate endDate)
      (dailyAverage Totals.fiber meals startDate endDate)
      (processedShare meals)
      (nutritionScore (aggregate tz meals startDate endDate)).
Proof. destruct meals; [congruence|]. reflexivity. Qed.

Lemma aggregate_processed :
  processedFoodPercentage (aggregate tz meals startDate endDate)
  = Math_round (processedShare meals).
Proof. destruct meals; [congruence|]. reflexivity. Qed.

Lemma aggregate_vegetableFruit :
  vegetableFruitIntake (aggregate tz meals startDate endDate)
  = calculateVegetableFruitIntake meals.
Proof. destruct meals; [congruence|]. reflexivity. Qed.

Lemma aggregate_healthRisk :
  healthRiskPercentage (aggregate tz meals startDate endDate)
  = calculateHealthRiskPercentage meals.
Proof. destruct meals; [congruence|]. reflexivity. Qed.

Lemma aggregate_fullLogging :
  fullLoggingPercentage (aggregate tz meals startDate endDate)
  = calculateFullLoggingPercentage meals (totalDaysOf startDate endDate).
Proof. destruct meals; [congruence|]. reflexivity. Qed.

Lemma aggregate_missedMeals :
  missedMealsAlert (aggregate tz meals startDate endDate)
  = calculateMissedMeals (totalDaysOf startDate endDate)
      (Z.of_nat (List.length meals)).
Proof. destruct meals; [congruence|]. reflexivity. Qed.

Lemma aggregate_allergens :
  allergenAlerts (aggregate tz meals startDate endDate)
  = extractAllergenAlerts meals.
Proof. destruct meals; [congruence|]. reflexivity. Qed.

Lemma aggregate_healthInsights :
  healthInsights (aggregate tz meals startDate endDate)
  = {| proteinAdequacy :=
         getProteinAdequacyInsight
           (dailyAverage Totals.protein meals startDate endDate);
       calorieDistribution :=
         getCalorieDistributionInsight
           (dailyAverage Totals.calories meals startDate endDate);
       fiberIntake :=
         getFiberIntakeInsight
           (dailyAverage Totals.fiber meals startDate endDate) |}.
Proof. destruct meals; [congruence|]. reflexivity. Qed.

Lemma aggregate_averageCalories :
  averageCaloriesDaily (aggregate tz meals startDate endDate)
  = Math_round (dailyAverage Totals.calories meals startDate endDate).
Proof. destruct meals; [congruence|]. reflexivity. Qed.

End MoreFields.

Lemma generateRecommendations_rules (cal p f x : Q) (score : Z) :
  generateRecommendations cal p f x score
  = proteinAdvice p ++ fiberAdvice f ++ processedAdvice x ++ calorieAdvice cal
    ++ [hydrationReminder].
Proof.
  unfold generateRecommendations, proteinAdvice, fiberAdvice, processedAdvice,
    calorieAdvice, push.
  destruct (lt p 100); destruct (lt f 20); destruct (gt x 25);
    (destruct (lt cal 1500); [|destruct (gt cal 2500)]); reflexivity.
Qed.

Lemma advice_lengths (cal p f x : Q) :
  (List.length (proteinAdvice p) <= 1 /\ List.length (fiberAdvice f) <= 1
   /\ List.length (processedAdvice x) <= 1
   /\ List.length (calorieAdvice cal) <= 1)%nat.
Proof.
  unfold proteinAdvice, fiberAdvice, processedAdvice, calorieAdvice.
  destruct (lt p 100); destruct (lt f 20); destruct (gt x 25);
    (destruct (lt cal 1500); [|destruct (gt cal 2500)]); cbn; lia.
Qed.

(** X4. On a non-empty meal list the recommendations are the protein,
    fiber, processed-food and calorie advice, in that order and each at most
    one string, followed by the hydration reminder, which is therefore
    always the last of one to five strings. *)
Theorem recommendations_rule_order (tz : Z) (meals : list Meal)
    (startDate endDate : Z) :
  meals <> [] ->
  let recs := recommendations (aggregate tz meals startDate endDate) in
  recs
  = proteinAdvice (dailyAverage Totals.protein meals startDate endDate)
    ++ fiberAdvice (dailyAverage Totals.fiber meals startDate endDate)
    ++ processedAdvice (processedShare meals)
    ++ calorieAdvice (dailyAverage Totals.calories meals startDate endDate)
    ++ [hydrationReminder]
  /\ last recs EmptyString = hydrationReminder
  /\ (1 <= List.length recs <= 5)%nat.
Proof.
  intros NE recs.
  assert (E : recs
              = proteinAdvice (dailyAverage Totals.protein meals startDate endDate)
                ++ fiberAdvice (dailyAverage Totals.fiber meals startDate endDate)
                ++ processedAdvice (processedShare meals)
                ++ calorieAdvice
                     (dailyAverage Totals.calories meals startDate endDate)
                ++ [hydrationReminder]).
  { unfold recs. rewrite aggregate_recommendations by exact NE.
    apply generateRecommendations_rules. }
  split; [exact E|].
  pose proof (advice_lengths
                (dailyAverage Totals.calories meals startDate endDate)
                (dailyAverage Totals.protein meals startDate endDate)
                (dailyAverage Totals.fiber meals startDate endDate)
                (processedShare meals)) as [L1 [L2 [L3 L4]]].
  rewrite E. split.
  - rewrite !app_assoc. apply last_last.
  - rewrite !length_app. cbn [List.length]. lia.
Qed.

Lemma recommendations_rule_order_witness :
  [mealWith (at_ 0 9 0) 2000 150] <> []
  /\ recommendations (aggregate 0 [mealWith (at_ 0 9 0) 2000 150] 0 msPerDay)
     = ["Increase fiber intake with vegetables, fruits, and whole grains."%string;
        hydrationReminder].
Proof.
  split; [discriminate|].
  destruct (recommendations_rule_order 0 [mealWith (at_ 0 9 0) 2000 150]
              0 msPerDay) as [E _]; [discriminate|].
  rewrite E. vm_compute. reflexivity.
Defined.

(** ** Membership in a list of messages *)

Lemma In_by_search (s : string) (l : list string) :
  In s l <-> existsb (String.eqb s) l = true.
Proof.
  rewrite existsb_exists. split.
  - intro H. exists s. split; [exact H | apply String.eqb_refl].
  - intros [y [H E]]. apply String.eqb_eq in E. now subst.
Qed.

Ltac split_rules :=
  repeat match goal with
         | |- context [if ?b then _ else _] => destruct b eqn:?
         end.

Ltac distinct_strings :=
  let E := fresh "E" in
  intro E; apply String.eqb_eq in E; vm_compute in E; discriminate.

(** ** Percentages *)

Lemma natQ_nonneg (n : nat) : (0 <= natQ n)%Q.
Proof. unfold natQ. change 0%Q with (inject_Z 0). rewrite <- Zle_Qle. lia. Qed.

Lemma natQ_pos (n : nat) : (0 < n)%nat -> (0 < natQ n)%Q.
Proof.
  intro H. unfold natQ. change 0%Q with (inject_Z 0). rewrite <- Zlt_Qlt. lia.
Qed.

Lemma natQ_le (k n : nat) : (k <= n)%nat -> (natQ k <= natQ n)%Q.
Proof. intro H. unfold natQ. rewrite <- Zle_Qle. lia. Qed.

Lemma share_range (k n : nat) :
  (k <= n)%nat -> (0 < n)%nat ->
  (0 <= natQ k / natQ n * 100 /\ natQ k / natQ n * 100 <= 100)%Q.
Proof.
  intros K N.
  pose proof (natQ_pos n N) as Pn. pose proof (natQ_nonneg k) as Pk.
  pose proof (natQ_le k n K) as L.
  assert (A : (0 <= natQ k / natQ n)%Q).
  { apply Qle_shift_div_l; [exact Pn | lra]. }
  assert (B : (natQ k / natQ n <= 1)%Q).
  { apply Qle_shift_div_r; [exact Pn | lra]. }
  split; lra.
Qed.

Lemma rounded_share_range (k n : nat) :
  (k <= n)%nat -> (0 < n)%nat ->
  0 <= Math_round (natQ k / natQ n * 100)%Q <= 100.
Proof.
  intros K N. destruct (share_range k n K N) as [A B].
  apply Math_round_le in A, B.
  change (Math_round 0) with 0 in A. change (Math_round 100) with 100 in B.
  lia.
Qed.

Lemma nonempty_length {A : Type} (l : list A) : l <> [] -> (0 < List.length l)%nat.
Proof. destruct l; [congruence | cbn; lia]. Qed.

(** X6. On a non-empty meal list the processed-food percentage, the
    vegetable and fruit percentage and the health-risk percentage of the
    result are whole numbers from 0 to 100. *)
Theorem share_percentages_in_range (tz : Z) (meals : list Meal)
    (startDate endDate : Z) :
  meals <> [] ->
  let st := aggregate tz meals startDate endDate in
  0 <= processedFoodPercentage st <= 100
  /\ 0 <= vegetableFruitIntake st <= 100
  /\ 0 <= healthRiskPercentage st <= 100.
Proof.
  intros NE st. unfold st.
  rewrite aggregate_processed, aggregate_vegetableFruit, aggregate_healthRisk
    by exact NE.
  pose proof (nonempty_length meals NE) as N.
  unfold processedShare, calculateVegetableFruitIntake,
    calculateHealthRiskPercentage, lengthQ.
  destruct (Nat.ltb_spec 0 (List.length meals)) as [_ | C]; [|lia].
  repeat split; apply rounded_share_range; try exact N; apply filter_length_le.
Qed.

Lemma share_percentages_in_range_witness :
  [plainMeal (at_ 0 9 0)] <> []
  /\ 0 <= processedFoodPercentage
            (aggregate 0 [plainMeal (at_ 0 9 0)] 0 msPerDay) <= 100.
Proof.
  split; [discriminate|].
  apply (share_percentages_in_range 0 [plainMeal (at_ 0 9 0)] 0 msPerDay).
  discriminate.
Defined.

Lemma totalDaysOf_positive (startDate endDate : Z) :
  1 <= totalDaysOf startDate endDate.
Proof. unfold totalDaysOf. lia. Qed.

(** X7. For a period of at least one day, the logging percentage lies
    between 0 and 100 and the number of missed meals is never negative; it is
    what the meal count lacks to three meals a day, and when no meal is
    missed the logging percentage is 100. *)
Theorem logging_and_missed_meals (meals : list Meal) (totalDays : Z) :
  1 <= totalDays ->
  let count := Z.of_nat (List.length meals) in
  0 <= calculateFullLoggingPercentage meals totalDays <= 100
  /\ 0 <= calculateMissedMeals totalDays count
  /\ calculateMissedMeals totalDays count + count = Z.max (totalDays * 3) count
  /\ (calculateMissedMeals totalDays count = 0 ->
      calculateFullLoggingPercentage meals totalDays = 100).
Proof.
  intros D count.
  unfold calculateFullLoggingPercentage, calculateMissedMeals.
  set (q := (lengthQ meals / inject_Z (totalDays * 3) * 100)%Q).
  assert (E : (0 < inject_Z (totalDays * 3))%Q).
  { change 0%Q with (inject_Z 0). rewrite <- Zlt_Qlt. lia. }
  assert (Q0 : (0 <= q)%Q).
  { unfold q. pose proof (natQ_nonneg (List.length meals)) as P.
    assert ((0 <= lengthQ meals / inject_Z (totalDays * 3))%Q).
    { apply Qle_shift_div_l; [exact E | unfold lengthQ; lra]. }
    lra. }
  apply Math_round_le in Q0. change (Math_round 0) with 0 in Q0.
  split; [lia|]. split; [lia|]. split; [fold count; lia|].
  intro M.
  assert (C : totalDays * 3 <= count) by lia.
  assert (Q1 : (100 <= q)%Q).
  { unfold q.
    assert ((1 <= lengthQ meals / inject_Z (totalDays * 3))%Q).
    { apply Qle_shift_div_l; [exact E|].
      unfold lengthQ, natQ. rewrite Qmult_1_l, <- Zle_Qle. exact C. }
    lra. }
  apply Math_round_le in Q1. change (Math_round 100) with 100 in Q1. lia.
Qed.

Lemma logging_and_missed_meals_witness :
  1 <= 1
  /\ calculateMissedMeals 1
       (Z.of_nat (List.length
                    [plainMeal (at_ 0 8 0); plainMeal (at_ 0 12 0);
                     plainMeal (at_ 0 19 0); plainMeal (at_ 0 22 0)])) = 0
  /\ calculateFullLoggingPercentage
       [plainMeal (at_ 0 8 0); plainMeal (at_ 0 12 0);
        plainMeal (at_ 0 19 0); plainMeal (at_ 0 22 0)] 1 = 100.
Proof.
  split; [lia|].
  assert (M : calculateMissedMeals 1
                (Z.of_nat (List.length
                             [plainMeal (at_ 0 8 0); plainMeal (at_ 0 12 0);
                              plainMeal (at_ 0 19 0); plainMeal (at_ 0 22 0)]))
              = 0) by reflexivity.
  split; [exact M|].
  apply (logging_and_missed_meals
           [plainMeal (at_ 0 8 0); plainMeal (at_ 0 12 0);
            plainMeal (at_ 0 19 0); plainMeal (at_ 0 22 0)] 1); [lia | exact M].
Defined.

(** ** Allergen alerts *)

Lemma setAdd_In (s : list string) (a x : string) :
  In x (setAdd s a) <-> x = a \/ In x s.
Proof.
  unfold setAdd. destruct (existsb (String.eqb a) s) eqn:E.
  - apply In_by_search in E. split; [auto|]. intros [-> | H]; assumption.
  - rewrite in_app_iff. cbn [In]. intuition.
Qed.

Lemma setAdd_NoDup (s : list string) (a : string) :
  NoDup s -> NoDup (setAdd s a).
Proof.
  intro N. unfold setAdd. destruct (existsb (String.eqb a) s) eqn:E;
    [exact N|].
  apply NoDup_app; [exact N | repeat constructor; intros [] |].
  intros x Hx [<- | []].
  apply In_by_search in Hx. congruence.
Qed.

Lemma fold_setAdd (l : list string) :
  forall s : list string,
    (NoDup s -> NoDup (fold_left setAdd l s))
    /\ forall x, In x (fold_left setAdd l s) <-> In x l \/ In x s.
Proof.
  induction l as [|a l IH]; intro s; cbn [fold_left].
  - split; [auto|]. intro x. cbn [In]. tauto.
  - destruct (IH (setAdd s a)) as [N I]. split.
    + intro H. apply N. now apply setAdd_NoDup.
    + intro x. rewrite I, setAdd_In. cbn [In]. intuition.
Qed.

Lemma fold_allergens (meals : list Meal) :
  forall s : list string,
    let r := fold_left
               (fun allergens meal =>
                  match allergens_json meal with
                  | Some l => fold_left setAdd l allergens
                  | None => allergens
                  end) meals s in
    (NoDup s -> NoDup r)
    /\ forall x, In x r
                 <-> (exists meal, In meal meals /\ In x (allergensOf meal))
                     \/ In x s.
Proof.
  induction meals as [|m meals IH]; intro s; cbn [fold_left].
  - split; [auto|]. intro x. split; [auto|].
    intros [[meal [[] _]] | H]. exact H.
  - set (s' := match allergens_json m with
               | Some l => fold_left setAdd l s
               | None => s
               end).
    assert (S : (NoDup s -> NoDup s')
                /\ forall x, In x s' <-> In x (allergensOf m) \/ In x s).
    { unfold s', allergensOf. destruct (allergens_json m) as [l|].
      - apply fold_setAdd.
      - split; [auto|]. intro x. cbn [In]. tauto. }
    destruct S as [SN SI]. destruct (IH s') as [N I]. split.
    + intro H. apply N, SN, H.
    + intro x. rewrite I, SI. split.
      * intros [[meal [Hm Hx]] | [Hx | Hx]].
        -- left. exists meal. split; [now right | exact Hx].
        -- left. exists m. split; [now left | exact Hx].
        -- now right.
      * intros [[meal [[<- | Hm] Hx]] | Hx].
        -- right. now left.
        -- left. exists meal. now split.
        -- right. now right.
Qed.

(** X8. The allergen alerts hold every allergen that some meal lists, each
    exactly once, and nothing else; a meal without an allergen array adds
    none. *)
Theorem allergen_alerts_are_the_union (meals : list Meal) :
  NoDup (extractAllergenAlerts meals)
  /\ forall a : string,
       In a (extractAllergenAlerts meals)
       <-> exists meal l,
             In meal meals /\ allergens_json meal = Some l /\ In a l.
Proof.
  destruct (fold_allergens meals []) as [N I]. split.
  - apply N. constructor.
  - intro a. unfold extractAllergenAlerts. rewrite I. split.
    + intros [[meal [Hm Ha]] | []]. unfold allergensOf in Ha.
      destruct (allergens_json meal) as [l|] eqn:E; [|destruct Ha].
      exists meal, l. auto.
    + intros [meal [l [Hm [E Ha]]]]. left. exists meal. split; [exact Hm|].
      unfold allergensOf. now rewrite E.
Qed.

(** ** Totals against the weekly trends *)

Lemma sumTotals_from (n : Nutrient) (meals : list Meal) :
  forall acc : Totals.t,
    (totalsValue n
       (fold_left
          (fun acc meal => {|
             Totals.calories := (Totals.calories acc + orZero (calories meal))%Q;
             Totals.protein := (Totals.protein acc + orZero (protein_g meal))%Q;
             Totals.carbs := (Totals.carbs acc + orZero (carbs_g meal))%Q;
             Totals.fats := (Totals.fats acc + orZero (fats_g meal))%Q;
             Totals.fiber := (Totals.fiber acc + orZero (fiber_g meal))%Q;
             Totals.sodium := (Totals.sodium acc + orZero (sodium_mg meal))%Q;
             Totals.sugar := (Totals.sugar acc + orZero (sugar_g meal))%Q;
             Totals.fluids := (Totals.fluids acc + orZero (liquids_ml meal))%Q
           |}) meals acc)
     == totalsValue n acc + sumQ (map (mealValue n) meals))%Q.
Proof.
  induction meals as [|m meals IH]; intro acc; cbn [fold_left map sumQ fold_right].
  - ring.
  - rewrite IH. fold (sumQ (map (mealValue n) meals)).
    destruct n; cbn [totalsValue mealValue Totals.calories Totals.protein
                       Totals.carbs Totals.fats]; ring.
Qed.

Lemma sumTotals_sum (n : Nutrient) (meals : list Meal) :
  (totalsValue n (sumTotals meals) == sumQ (map (mealValue n) meals))%Q.
Proof.
  unfold sumTotals. rewrite sumTotals_from. destruct n; cbn; ring.
Qed.

Lemma filter_all {A : Type} (f : A -> bool) (l : list A) :
  (forall a, In a l -> f a = true) -> filter f l = l.
Proof.
  induction l as [|a l IH]; intro H; [reflexivity|].
  cbn [filter]. rewrite (H a (or_introl eq_refl)). f_equal.
  apply IH. intros b Hb. apply H. now right.
Qed.

(** X9. When every meal of the list was uploaded in the seven days that
    start at the start date and the values of a nutrient are integers, the
    seven buckets of its weekly trend add up to the total of that nutrient
    over all the meals, the total the daily averages are taken from,
    whatever the end date of the period. *)
Theorem week_trends_add_up_to_totals (tz : Z) (n : Nutrient)
    (meals : list Meal) (startDate endDate : Z) :
  (forall m, In m meals ->
             startDate <= upload_time m < startDate + 7 * msPerDay) ->
  (forall m, In m meals -> isInteger (mealValue n m)) ->
  (inject_Z
     (sumZ (trendOf n (weeklyTrends (aggregate tz meals startDate endDate))))
   == totalsValue n (sumTotals meals))%Q.
Proof.
  intros T I.
  destruct meals as [|m0 meals'] eqn:EM.
  { destruct n; reflexivity. }
  rewrite <- EM in *.
  rewrite aggregate_weeklyTrends by (rewrite EM; discriminate).
  rewrite calculateWeeklyTrends_buckets.
  rewrite (sum_rounded_integers (fun d => dayTotalOf n startDate d meals))
    by (intro d; now apply isInteger_dayTotalOf).
  rewrite dayTotals_windowTotal, sumTotals_sum. unfold windowTotal.
  rewrite filter_all; [reflexivity|].
  intros m Hm. apply inWindow_range. exact (T m Hm).
Qed.

Lemma week_trends_add_up_to_totals_witness :
  (forall m,
     In m [mealWith (at_ 35 9 0) 600 40; mealWith (at_ 39 23 30) 900 55] ->
     at_ 33 0 0 <= upload_time m < at_ 33 0 0 + 7 * msPerDay)
  /\ (inject_Z
        (sumZ (trendOf Calories
                 (weeklyTrends
                    (aggregate 0
                       [mealWith (at_ 35 9 0) 600 40;
                        mealWith (at_ 39 23 30) 900 55]
                       (at_ 33 0 0) (at_ 40 1 0)))))
      == 1500)%Q.
Proof.
  assert (T : forall m,
             In m [mealWith (at_ 35 9 0) 600 40;
                   mealWith (at_ 39 23 30) 900 55] ->
             at_ 33 0 0 <= upload_time m < at_ 33 0 0 + 7 * msPerDay).
  { intros m [<- | [<- | []]]; vm_compute; split; congruence. }
  split; [exact T|].
  rewrite (week_trends_add_up_to_totals 0 Calories _ _ _ T).
  - vm_compute. reflexivity.
  - intros m [<- | [<- | []]]; vm_compute; reflexivity.
Defined.

(** ** Bounds of the fasting estimate *)

Lemma fastingBetween_range (a b : Z) :
  0 <= a -> a <= b -> b < 1440 ->
  0 <= fastingBetween a b <= 24 /\ (a = b -> fastingBetween a b = 0).
Proof.
  intros A L B. unfold fastingBetween.
  set (k := if b >? a then 24 * 60 - (b - a) else a - b).
  assert (K : 0 <= k <= 1440 /\ (a = b -> k = 0)).
  { unfold k. destruct (Z.gtb_spec b a); lia. }
  destruct K as [[K0 K1] KE].
  assert (Q0 : (0 <= inject_Z k / 60)%Q).
  { apply Qle_shift_div_l; [reflexivity|].
    rewrite Qmult_0_l. change 0%Q with (inject_Z 0). now rewrite <- Zle_Qle. }
  assert (Q1 : (inject_Z k / 60 <= 24)%Q).
  { apply Qle_shift_div_r; [reflexivity|].
    change (24 * 60)%Q with (inject_Z 1440). now rewrite <- Zle_Qle. }
  apply Math_round_le in Q0, Q1.
  change (Math_round 0) with 0 in Q0. change (Math_round 24) with 24 in Q1.
  split; [lia|]. intro E. rewrite (KE E). reflexivity.
Qed.

(** X10. On a non-empty meal list the fasting estimate is a number, never
    [NaN], between 0 and 24 hours. When all the meals fall in the same
    minute of the day, as for a single meal, the window starts and ends at
    the same time and the estimate is 0 hours. *)
Theorem fasting_hours_bounds (tz : Z) (meals : list Meal)
    (startDate endDate : Z) :
  meals <> [] ->
  let st := aggregate tz meals startDate endDate in
  exists f : Z,
    intermittentFastingHours st = Some f
    /\ 0 <= f <= 24
    /\ (earliestMinute tz meals = latestMinute tz meals ->
        f = 0 /\ start (averageEatingHours st) = end_ (averageEatingHours st))
    /\ (List.length meals = 1%nat -> f = 0).
Proof.
  intros NE st. unfold st.
  rewrite aggregate_fasting, aggregate_eatingHours by exact NE.
  rewrite calculateEatingHours_clock by exact NE.
  pose proof (earliestMinute_range tz meals) as Ra.
  pose proof (latestMinute_range tz meals) as Rb.
  pose proof (earliest_le_latest tz meals) as L.
  rewrite calculateIntermittentFasting_clock by assumption.
  destruct (fastingBetween_range (earliestMinute tz meals)
              (latestMinute tz meals)) as [R Z0]; try lia.
  eexists. split; [reflexivity|]. split; [exact R|]. split.
  - intro E. split; [now apply Z0|]. cbn [start end_]. now rewrite E.
  - intro One. apply Z0.
    destruct meals as [|m [|m' r]]; try discriminate. reflexivity.
Qed.

Lemma fasting_hours_bounds_witness :
  [plainMeal (at_ 2 13 5)] <> []
  /\ intermittentFastingHours
       (aggregate 0 [plainMeal (at_ 2 13 5)] 0 (at_ 7 0 0)) = Some 0.
Proof.
  split; [discriminate|].
  destruct (fasting_hours_bounds 0 [plainMeal (at_ 2 13 5)] 0 (at_ 7 0 0))
    as [f [E [_ [_ One]]]]; [discriminate|].
  rewrite E. f_equal. apply One. reflexivity.
Defined.

(** ** The hour buckets *)

Lemma lookup_below (o : HourCounts) (key : Z) :
  Forall (Z.lt key) (map fst o) -> lookup o key = None.
Proof.
  induction o as [|[k v] o IH]; intro F; [reflexivity|].
  cbn [map fst] in F. inversion F; subst. cbn [lookup].
  destruct (Z.eqb_spec key k); [lia | now apply IH].
Qed.

Lemma store_total (o : HourCounts) (key value : Z) :
  StronglySorted Z.lt (map fst o) ->
  sumZ (map snd (store o key value))
  = sumZ (map snd o) - countAt o key + value.
Proof.
  unfold countAt.
  induction o as [|[k v] o IH]; intro S; cbn [store map snd lookup].
  - cbn. lia.
  - apply StronglySorted_inv in S as [S F]. cbn [fst] in F.
    destruct (Z.eqb_spec key k) as [E | E].
    + cbn. lia.
    + destruct (Z.ltb_spec key k) as [L | L].
      * rewrite lookup_below.
        -- cbn. lia.
        -- rewrite Forall_forall in *. intros y Hy. specialize (F y Hy). lia.
      * cbn [map snd sumZ fold_right].
        fold (sumZ (map snd (store o key value))). fold (sumZ (map snd o)).
        rewrite (IH S). lia.
Qed.

Lemma bumpHour_total (tz : Z) (meals : list Meal) :
  forall o : HourCounts,
    StronglySorted Z.lt (map fst o) ->
    sumZ (map snd (fold_left (bumpHour tz) meals o))
    = sumZ (map snd o) + Z.of_nat (List.length meals).
Proof.
  induction meals as [|m meals IH]; intros o S; cbn [fold_left List.length].
  - lia.
  - rewrite IH by (now apply store_sorted).
    unfold bumpHour. rewrite store_total by exact S. unfold countAt. lia.
Qed.

(** X11. The loop that buckets the meals by hour of the day loses none and
    counts none twice: the counts add up to the number of meals, every key
    is an hour from 0 to 23, and every count is at least 1. *)
Theorem hour_buckets_count_every_meal (tz : Z) (meals : list Meal) :
  sumZ (map snd (countHours tz meals)) = Z.of_nat (List.length meals)
  /\ forall hour count : Z,
       In (hour, count) (countHours tz meals) -> 0 <= hour < 24 /\ 1 <= count.
Proof.
  split.
  - unfold countHours. rewrite bumpHour_total by constructor. reflexivity.
  - intros hour count H.
    assert (K : In hour (map fst (countHours tz meals)))
      by (apply in_map_iff; exists (hour, count); auto).
    apply countHours_key in K.
    split; [now apply (hourCount_positive_range tz meals)|].
    assert (Lk : lookup (countHours tz meals) hour = Some count).
    { pose proof (countHours_sorted tz meals) as S.
      induction (countHours tz meals) as [|[k v] o IH]; [destruct H|].
      cbn [map fst] in S. apply StronglySorted_inv in S as [S F].
      cbn [lookup]. destruct H as [[= -> ->] | H].
      - now rewrite Z.eqb_refl.
      - destruct (Z.eqb_spec hour k) as [-> | N]; [|now apply IH].
        exfalso. rewrite Forall_forall in F.
        assert (k < k); [|lia].
        apply F, in_map_iff. exists (k, count). auto. }
    rewrite countHours_lookup in Lk.
    destruct (hourCount tz meals hour =? 0); [discriminate|].
    injection Lk as <-. lia.
Qed.

(** ** Health insights *)

Lemma protein_messages_differ :
  proteinExcellent <> proteinGood /\ proteinExcellent <> proteinBelow
  /\ proteinGood <> proteinBelow.
Proof. repeat split; distinct_strings. Qed.

Lemma fiber_messages_differ :
  fiberExcellent <> fiberGood /\ fiberExcellent <> fiberLow
  /\ fiberGood <> fiberLow.
Proof. repeat split; distinct_strings. Qed.

Lemma calorie_messages_differ :
  caloriesBalanced <> caloriesLow /\ caloriesBalanced <> caloriesHigher
  /\ caloriesLow <> caloriesHigher.
Proof. repeat split; distinct_strings. Qed.

Lemma proteinAdequacy_bonus (p : Q) :
  (getProteinAdequacyInsight p = proteinExcellent <-> proteinBonus p = 15)
  /\ (getProteinAdequacyInsight p = proteinGood <-> proteinBonus p = 10)
  /\ (getProteinAdequacyInsight p = proteinBelow <-> proteinBonus p <= 5).
Proof.
  destruct protein_messages_differ as [A [B C]].
  unfold getProteinAdequacyInsight, proteinBonus.
  fold proteinExcellent proteinGood proteinBelow.
  destruct (geq p 120); [|destruct (geq p 80); [|destruct (geq p 50)]];
    repeat split; intros; try reflexivity; try lia; congruence.
Qed.

Lemma fiberIntake_bonus (f : Q) :
  (getFiberIntakeInsight f = fiberExcellent <-> fiberBonus f = 10)
  /\ (getFiberIntakeInsight f = fiberGood <-> fiberBonus f = 7)
  /\ (getFiberIntakeInsight f = fiberLow <-> fiberBonus f <= 5).
Proof.
  destruct fiber_messages_differ as [A [B C]].
  unfold getFiberIntakeInsight, fiberBonus.
  fold fiberExcellent fiberGood fiberLow.
  destruct (geq f 25); [|destruct (geq f 15); [|destruct (geq f 10)]];
    repeat split; intros; try reflexivity; try lia; congruence.
Qed.

(** X12. On a non-empty meal list the wording of the protein and fiber
    health insights follows the points the score gave: the excellent message
    comes exactly with the full bonus (15 for protein, 10 for fiber), the
    good message exactly with the second bonus (10 and 7), and the third
    message with the two lowest bands together, so that a protein average
    from 50 to 80 or a fiber average from 10 to 15 earns 5 points and is
    still reported as below the recommended level or low. *)
Theorem health_insights_follow_score_bands (tz : Z) (meals : list Meal)
    (startDate endDate : Z) :
  meals <> [] ->
  let hi := healthInsights (aggregate tz meals startDate endDate) in
  let p := dailyAverage Totals.protein meals startDate endDate in
  let f := dailyAverage Totals.fiber meals startDate endDate in
  (proteinAdequacy hi = proteinExcellent <-> proteinBonus p = 15)
  /\ (proteinAdequacy hi = proteinGood <-> proteinBonus p = 10)
  /\ (proteinAdequacy hi = proteinBelow <-> proteinBonus p <= 5)
  /\ (fiberIntake hi = fiberExcellent <-> fiberBonus f = 10)
  /\ (fiberIntake hi = fiberGood <-> fiberBonus f = 7)
  /\ (fiberIntake hi = fiberLow <-> fiberBonus f <= 5)
  /\ ((50 <= p /\ p < 80)%Q ->
      proteinBonus p = 5 /\ proteinAdequacy hi = proteinBelow)
  /\ ((10 <= f /\ f < 15)%Q -> fiberBonus f = 5 /\ fiberIntake hi = fiberLow).
Proof.
  intros NE hi p f. unfold hi.
  rewrite aggregate_healthInsights by exact NE.
  cbn [proteinAdequacy fiberIntake]. fold p f.
  destruct (proteinAdequacy_bonus p) as [P1 [P2 P3]].
  destruct (fiberIntake_bonus f) as [F1 [F2 F3]].
  repeat (split; [assumption|]). split.
  - intros [L U]. assert (B : proteinBonus p = 5).
    { destruct (proteinBonus_band p); try reflexivity; lra. }
    split; [exact B|]. apply P3. lia.
  - intros [L U]. assert (B : fiberBonus f = 5).
    { destruct (fiberBonus_band f); try reflexivity; lra. }
    split; [exact B|]. apply F3. lia.
Qed.

Lemma health_insights_follow_score_bands_witness :
  [mealWith (at_ 0 9 0) 2000 60] <> []
  /\ proteinAdequacy
       (healthInsights (aggregate 0 [mealWith (at_ 0 9 0) 2000 60] 0 msPerDay))
     = proteinBelow.
Proof.
  split; [discriminate|].
  destruct (health_insights_follow_score_bands 0 [mealWith (at_ 0 9 0) 2000 60]
              0 msPerDay) as [_ [_ [_ [_ [_ [_ [P _]]]]]]]; [discriminate|].
  apply P. split; [vm_compute; discriminate | vm_compute; reflexivity].
Defined.

Lemma calorieDistribution_bands (c : Q) :
  (getCalorieDistributionInsight c = caloriesBalanced
   <-> (1800 <= c /\ c <= 2200)%Q)
  /\ (getCalorieDistributionInsight c = caloriesLow <-> (c < 1500)%Q)
  /\ (getCalorieDistributionInsight c = caloriesHigher
      <-> (1500 <= c /\ c < 1800)%Q \/ (2200 < c)%Q).
Proof.
  destruct calorie_messages_differ as [A [B C]].
  unfold getCalorieDistributionInsight.
  fold caloriesBalanced caloriesLow caloriesHigher.
  destruct (geq c 1800 && leq c 2200)%bool eqn:E1.
  - apply andb_true_iff in E1 as [G L].
    apply geq_true in G. apply leq_true in L.
    repeat split; intros; try reflexivity; try congruence; try lra;
      try match goal with
          | H : _ \/ _ |- _ => destruct H; lra
          end.
  - assert (N : ~ (1800 <= c /\ c <= 2200)%Q).
    { intros [G L]. apply geq_true in G. apply leq_true in L.
      rewrite G, L in E1. discriminate. }
    destruct (lt c 1500) eqn:E2.
    + apply lt_true in E2.
      repeat split; intros; try reflexivity; try congruence; try lra;
        try match goal with
            | H : _ \/ _ |- _ => destruct H; lra
            end.
    + assert (M : ~ (c < 1500)%Q).
      { intro H. apply lt_true in H. congruence. }
      repeat split; intros; try reflexivity; try congruence; try tauto.
      destruct (Qlt_le_dec c 1800); [left; lra|].
      right. destruct (Qlt_le_dec 2200 c); [assumption|]. exfalso. apply N. lra.
Qed.

(** X13. On a non-empty meal list the calorie insight says well-balanced
    exactly for a daily average from 1800 to 2200, too low exactly below
    1500, and higher intake in every other case: above 2200, and also from
    1500 up to 1800, which lies under the balanced range. *)
Theorem calorie_insight_bands (tz : Z) (meals : list Meal)
    (startDate endDate : Z) :
  meals <> [] ->
  let hi := healthInsights (aggregate tz meals startDate endDate) in
  let c := dailyAverage Totals.calories meals startDate endDate in
  (calorieDistribution hi = caloriesBalanced <-> (1800 <= c /\ c <= 2200)%Q)
  /\ (calorieDistribution hi = caloriesLow <-> (c < 1500)%Q)
  /\ (calorieDistribution hi = caloriesHigher
      <-> (1500 <= c /\ c < 1800)%Q \/ (2200 < c)%Q).
Proof.
  intros NE hi c. unfold hi.
  rewrite aggregate_healthInsights by exact NE.
  cbn [calorieDistribution]. apply calorieDistribution_bands.
Qed.

Lemma calorie_insight_bands_witness :
  [mealWith (at_ 0 9 0) 1600 60] <> []
  /\ calorieDistribution
       (healthInsights (aggregate 0 [mealWith (at_ 0 9 0) 1600 60] 0 msPerDay))
     = caloriesHigher.
Proof.
  split; [discriminate|].
  destruct (calorie_insight_bands 0 [mealWith (at_ 0 9 0) 1600 60] 0 msPerDay)
    as [_ [_ H]]; [discriminate|].
  apply H. left. split; [vm_compute; discriminate | vm_compute; reflexivity].
Defined.

(** * Properties of the nutrition service *)

(** ** The daily quota of analyses *)

Lemma findUnique_updateUser (users : list User.t) (id : string) (count : Z)
    (resetAt : option Z) (id' : string) :
  findUnique (updateUser users id count resetAt) id'
  = if String.eqb id' id then
      option_map
        (fun u => {| User.user_id := User.user_id u;
                     User.aiRequestsCount := count;
                     User.aiRequestsResetAt :=
                       match resetAt with
                       | Some t => t
                       | None => User.aiRequestsResetAt u
                       end;
                     User.subscription_type := User.subscription_type u |})
        (findUnique users id')
    else findUnique users id'.
Proof.
  induction users as [|u users IH]; cbn [updateUser map findUnique].
  - destruct (String.eqb id' id); reflexivity.
  - fold (updateUser users id count resetAt).
    destruct (String.eqb_spec (User.user_id u) id) as [E | E];
      cbn [User.user_id].
    + destruct (String.eqb_spec (User.user_id u) id') as [E' | E'].
      * rewrite <- E' at 1. rewrite (proj2 (String.eqb_eq _ _) E).
        reflexivity.
      * exact IH.
    + destruct (String.eqb_spec (User.user_id u) id') as [E' | E'].
      * destruct (String.eqb_spec id' id); [congruence | reflexivity].
      * exact IH.
Qed.

Lemma findUnique_id (users : list User.t) (id : string) (u : User.t) :
  findUnique users id = Some u -> User.user_id u = id.
Proof.
  induction users as [|v users IH]; cbn [findUnique]; [discriminate|].
  destruct (String.eqb_spec (User.user_id v) id); [|exact IH].
  now intros [= <-].
Qed.

Lemma day_elapsed (now resetTime : Z) :
  geq (inject_Z (now - resetTime) / inject_Z (1000 * 60 * 60))%Q 24 = true
  <-> 24 * msPerHour <= now - resetTime.
Proof.
  rewrite geq_true, Zle_Qle.
  change (inject_Z (24 * msPerHour)) with 86400000%Q.
  change (inject_Z (1000 * 60 * 60)) with 3600000%Q.
  set (y := inject_Z (now - resetTime)).
  assert (E : (y == y / 3600000 * 3600000)%Q) by field.
  split; intro H; lra.
Qed.

Lemma userLimitOf_at_least_10 (plan : string) : 10 <= userLimitOf plan.
Proof. unfold userLimitOf. split_rules; lia. Qed.

Section Quota.

Variable A : Type.
Variables (users : list User.t) (now : Z) (id : string) (user : User.t).
Variable analysis : string + A.
Hypothesis found : findUnique users id = Some user.

Lemma analyzeMeal_in_window :
  now - User.aiRequestsResetAt user < 24 * msPerHour ->
  analyzeMeal A users now id analysis
  = if User.aiRequestsCount user >=? userLimitOf (User.subscription_type user)
    then (users, inl (limitReached (userLimitOf (User.subscription_type user))))
    else (updateUser users id (User.aiRequestsCount user + 1) None, analysis).
Proof.
  intro W. unfold analyzeMeal. rewrite found.
  destruct (geq _ 24) eqn:G; [|reflexivity].
  apply day_elapsed in G. lia.
Qed.

Lemma analyzeMeal_after_a_day :
  24 * msPerHour <= now - User.aiRequestsResetAt user ->
  analyzeMeal A users now id analysis
  = (updateUser (updateUser users id 0 (Some now)) id 1 None, analysis).
Proof.
  intro W. unfold analyzeMeal. rewrite found.
  apply day_elapsed in W. rewrite W.
  pose proof (userLimitOf_at_least_10 (User.subscription_type user)).
  destruct (Z.geb_spec 0 (userLimitOf (User.subscription_type user))); [lia|].
  reflexivity.
Qed.

End Quota.

(** X14. A known user whose count has reached the limit of the plan (10
    free, 50 basic, 200 premium, 10 for any other plan name) less than 24
    hours after the last reset is refused: the call throws the limit
    message, the analysis is not returned and the user table is left as it
    was. *)
Theorem quota_refuses_at_limit (A : Type) (users : list User.t) (now : Z)
    (id : string) (user : User.t) (analysis : string + A) :
  findUnique users id = Some user ->
  now - User.aiRequestsResetAt user < 24 * msPerHour ->
  userLimitOf (User.subscription_type user) <= User.aiRequestsCount user ->
  analyzeMeal A users now id analysis
  = (users, inl (limitReached (userLimitOf (User.subscription_type user))))
  /\ (User.subscription_type user = "FREE"%string ->
      userLimitOf (User.subscription_type user) = 10)
  /\ (User.subscription_type user = "BASIC"%string ->
      userLimitOf (User.subscription_type user) = 50)
  /\ (User.subscription_type user = "PREMIUM"%string ->
      userLimitOf (User.subscription_type user) = 200).
Proof.
  intros F W L. split.
  - rewrite (analyzeMeal_in_window A users now id user analysis F W).
    destruct (Z.geb_spec (User.aiRequestsCount user)
                (userLimitOf (User.subscription_type user))); [reflexivity|lia].
  - repeat split; intros ->; reflexivity.
Qed.

Lemma quota_refuses_at_limit_witness :
  findUnique [sampleUser 10 0 "FREE"] "u1" = Some (sampleUser 10 0 "FREE")
  /\ 3 * msPerHour - User.aiRequestsResetAt (sampleUser 10 0 "FREE")
     < 24 * msPerHour
  /\ userLimitOf (User.subscription_type (sampleUser 10 0 "FREE"))
     <= User.aiRequestsCount (sampleUser 10 0 "FREE")
  /\ analyzeMeal nat [sampleUser 10 0 "FREE"] (3 * msPerHour) "u1" (inr 7%nat)
     = ([sampleUser 10 0 "FREE"],
        inl "Daily AI analysis limit reached (10). Upgrade your subscription for more analyses."%string).
Proof.
  split; [reflexivity|]. split; [vm_compute; reflexivity|].
  split; [vm_compute; discriminate|].
  destruct (quota_refuses_at_limit nat [sampleUser 10 0 "FREE"]
              (3 * msPerHour) "u1" (sampleUser 10 0 "FREE") (inr 7%nat))
    as [E _]; [reflexivity | vm_compute; reflexivity | vm_compute; discriminate|].
  rewrite E. reflexivity.
Defined.

(** X15. A call that is not refused counts one request before OpenAI is
    asked: whether the analysis succeeds or throws, the call passes its
    outcome on and leaves the same table, in which the count of the user is
    one more than before and the reset time is unchanged. *)
Theorem quota_counts_failed_analyses (A : Type) (users : list User.t) (now : Z)
    (id : string) (user : User.t) (analysis : string + A) (message : string) :
  findUnique users id = Some user ->
  now - User.aiRequestsResetAt user < 24 * msPerHour ->
  User.aiRequestsCount user < userLimitOf (User.subscription_type user) ->
  snd (analyzeMeal A users now id analysis) = analysis
  /\ fst (analyzeMeal A users now id analysis)
     = fst (analyzeMeal A users now id (inl message))
  /\ exists user',
       findUnique (fst (analyzeMeal A users now id (inl message))) id
       = Some user'
       /\ User.aiRequestsCount user' = User.aiRequestsCount user + 1
       /\ User.aiRequestsResetAt user' = User.aiRequestsResetAt user
       /\ User.subscription_type user' = User.subscription_type user.
Proof.
  intros F W L.
  rewrite !(analyzeMeal_in_window A users now id user _ F W).
  destruct (Z.geb_spec (User.aiRequestsCount user)
              (userLimitOf (User.subscription_type user))); [lia|].
  cbn [fst snd]. split; [reflexivity|]. split; [reflexivity|].
  rewrite findUnique_updateUser, String.eqb_refl, F. cbn [option_map].
  eexists. split; [reflexivity|]. cbn. auto.
Qed.

Lemma quota_counts_failed_analyses_witness :
  findUnique [sampleUser 3 0 "FREE"] "u1" = Some (sampleUser 3 0 "FREE")
  /\ analyzeMeal nat [sampleUser 3 0 "FREE"] (3 * msPerHour) "u1"
       (inl "timeout"%string)
     = ([sampleUser 4 0 "FREE"], inl "timeout"%string).
Proof.
  split; [reflexivity|].
  destruct (quota_counts_failed_analyses nat [sampleUser 3 0 "FREE"]
              (3 * msPerHour) "u1" (sampleUser 3 0 "FREE")
              (inl "timeout"%string) "timeout")
    as [S [_ _]];
    [reflexivity | vm_compute; reflexivity | vm_compute; reflexivity|].
  apply injective_projections; [reflexivity | exact S].
Defined.

(** X16. Twenty-four hours or more after the last reset a known user is
    never refused, whatever the count: the call resets the count, passes the
    outcome of the analysis on, and leaves the user with a count of 1 and the
    instant of the call as reset time. *)
Theorem quota_resets_after_a_day (A : Type) (users : list User.t) (now : Z)
    (id : string) (user : User.t) (analysis : string + A) :
  findUnique users id = Some user ->
  24 * msPerHour <= now - User.aiRequestsResetAt user ->
  snd (analyzeMeal A users now id analysis) = analysis
  /\ exists user',
       findUnique (fst (analyzeMeal A users now id analysis)) id = Some user'
       /\ User.aiRequestsCount user' = 1
       /\ User.aiRequestsResetAt user' = now
       /\ User.subscription_type user' = User.subscription_type user.
Proof.
  intros F W.
  rewrite (analyzeMeal_after_a_day A users now id user analysis F W).
  cbn [fst snd]. split; [reflexivity|].
  rewrite !findUnique_updateUser, String.eqb_refl, F. cbn [option_map].
  eexists. split; [reflexivity|]. cbn. auto.
Qed.

Lemma quota_resets_after_a_day_witness :
  findUnique [sampleUser 10 0 "FREE"] "u1" = Some (sampleUser 10 0 "FREE")
  /\ analyzeMeal nat [sampleUser 10 0 "FREE"] (24 * msPerHour) "u1" (inr 7%nat)
     = ([sampleUser 1 (24 * msPerHour) "FREE"], inr 7%nat).
Proof.
  split; [reflexivity|].
  destruct (quota_resets_after_a_day nat [sampleUser 10 0 "FREE"]
              (24 * msPerHour) "u1" (sampleUser 10 0 "FREE") (inr 7%nat))
    as [S _]; [reflexivity | vm_compute; discriminate|].
  apply injective_projections; [reflexivity | exact S].
Defined.

(** X17. A call never takes the count of a user above the limit of the plan
    and never touches the row of another user: if every count the table
    holds is within its limit before the call, so it is after, and every
    other user is found as before. *)
Theorem quota_never_exceeded (A : Type) (users : list User.t) (now : Z)
    (id : string) (analysis : string + A) :
  (forall id' u, findUnique users id' = Some u ->
                 User.aiRequestsCount u <= userLimitOf (User.subscription_type u)) ->
  (forall id' u,
     findUnique (fst (analyzeMeal A users now id analysis)) id' = Some u ->
     User.aiRequestsCount u <= userLimitOf (User.subscription_type u))
  /\ forall id', id' <> id ->
       findUnique (fst (analyzeMeal A users now id analysis)) id'
       = findUnique users id'.
Proof.
  intro Inv.
  destruct (findUnique users id) as [user|] eqn:F.
  2:{ unfold analyzeMeal. rewrite F. cbn [fst]. split; [exact Inv | reflexivity]. }
  pose proof (userLimitOf_at_least_10 (User.subscription_type user)) as L10.
  destruct (Z.lt_ge_cases (now - User.aiRequestsResetAt user) (24 * msPerHour))
    as [W | W].
  - rewrite (analyzeMeal_in_window A users now id user analysis F W).
    destruct (Z.geb_spec (User.aiRequestsCount user)
                (userLimitOf (User.subscription_type user))) as [G | G];
      cbn [fst].
    + split; [exact Inv | reflexivity].
    + split.
      * intros id' u. rewrite findUnique_updateUser.
        destruct (String.eqb_spec id' id) as [-> | N]; [|apply Inv].
        rewrite F. cbn [option_map]. intros [= <-]. cbn. lia.
      * intros id' N. rewrite findUnique_updateUser.
        destruct (String.eqb_spec id' id); [congruence | reflexivity].
  - rewrite (analyzeMeal_after_a_day A users now id user analysis F W).
    cbn [fst]. split.
    + intros id' u. rewrite !findUnique_updateUser.
      destruct (String.eqb_spec id' id) as [-> | N]; [|apply Inv].
      rewrite F. cbn [option_map]. intros [= <-]. cbn. lia.
    + intros id' N. rewrite !findUnique_updateUser.
      destruct (String.eqb_spec id' id); [congruence | reflexivity].
Qed.

Lemma quota_never_exceeded_witness :
  (forall id' u, findUnique [sampleUser 9 0 "FREE"] id' = Some u ->
                 User.aiRequestsCount u <= userLimitOf (User.subscription_type u))
  /\ findUnique
       (fst (analyzeMeal nat [sampleUser 9 0 "FREE"] msPerHour "u1" (inr 7%nat)))
       "u1"
     = Some (sampleUser 10 0 "FREE").
Proof.
  assert (I : forall id' u,
             findUnique [sampleUser 9 0 "FREE"] id' = Some u ->
             User.aiRequestsCount u <= userLimitOf (User.subscription_type u)).
  { intros id' u. cbn [findUnique].
    destruct (String.eqb _ id'); [|discriminate].
    intros [= <-]. vm_compute. discriminate. }
  split; [exact I|].
  destruct (quota_never_exceeded nat [sampleUser 9 0 "FREE"] msPerHour "u1"
              (inr 7%nat) I) as [_ _].
  reflexivity.
Defined.

(** X18. Within 24 hours of the last reset, calls for a user, each at its
    own instant, are accepted until the count reaches the limit of the plan
    and refused from then on: a call is answered by its analysis when the
    calls before it left the count below the limit and by the message of
    the limit otherwise, after all the calls the count is the smaller of the
    starting count plus their number and the limit, and the reset time has
    not moved. *)
Theorem quota_fills_up (A : Type) (calls : list (Z * (string + A)))
    (users : list User.t) (id : string) (user : User.t) :
  findUnique users id = Some user ->
  (forall now analysis,
     In (now, analysis) calls ->
     now - User.aiRequestsResetAt user < 24 * msPerHour) ->
  User.aiRequestsCount user <= userLimitOf (User.subscription_type user) ->
  (exists user',
     findUnique (fst (analyzeMealCalls users id calls)) id = Some user'
     /\ User.aiRequestsCount user'
        = Z.min (User.aiRequestsCount user + Z.of_nat (List.length calls))
            (userLimitOf (User.subscription_type user))
     /\ User.aiRequestsResetAt user' = User.aiRequestsResetAt user
     /\ User.subscription_type user' = User.subscription_type user)
  /\ List.length (snd (analyzeMealCalls users id calls)) = List.length calls
  /\ (forall (k : nat) (now : Z) (analysis : string + A),
        nth_error calls k = Some (now, analysis) ->
        nth_error (snd (analyzeMealCalls users id calls)) k
        = Some (if User.aiRequestsCount user + Z.of_nat k
                   <? userLimitOf (User.subscription_type user)
                then analysis
                else inl (limitReached
                            (userLimitOf (User.subscription_type user))))).
Proof.
  revert users user.
  induction calls as [|[now analysis] calls IH]; intros users user F W L.
  - cbn [analyzeMealCalls fst snd List.length].
    split; [exists user; repeat split; auto; lia|].
    split; [reflexivity|]. intros [|k] ? ?; discriminate.
  - cbn [analyzeMealCalls fst snd List.length].
    assert (W0 : now - User.aiRequestsResetAt user < 24 * msPerHour)
      by (apply (W now analysis); now left).
    rewrite (analyzeMeal_in_window A users now id user analysis F W0).
    destruct (Z.geb_spec (User.aiRequestsCount user)
                (userLimitOf (User.subscription_type user))) as [G | G];
      cbn [fst snd].
    + destruct (IH users user F) as [[u [Fu [C [R Pl]]]] [Len Out]];
        [intros t a I; apply (W t a); now right | exact L|].
      split; [exists u; repeat split; auto; lia|].
      split; [now rewrite Len|].
      intros [|k] t a N; cbn [nth_error] in *.
      * injection N as <- <-.
        destruct (Z.ltb_spec (User.aiRequestsCount user + Z.of_nat 0)
                    (userLimitOf (User.subscription_type user)));
          [lia | reflexivity].
      * rewrite (Out k t a N).
        destruct (Z.ltb_spec (User.aiRequestsCount user + Z.of_nat k)
                    (userLimitOf (User.subscription_type user))); [lia|].
        destruct (Z.ltb_spec (User.aiRequestsCount user + Z.of_nat (S k))
                    (userLimitOf (User.subscription_type user))); [lia|].
        reflexivity.
    + set (user1 := {| User.user_id := User.user_id user;
                       User.aiRequestsCount := User.aiRequestsCount user + 1;
                       User.aiRequestsResetAt := User.aiRequestsResetAt user;
                       User.subscription_type := User.subscription_type user |}).
      assert (F1 : findUnique
                     (updateUser users id (User.aiRequestsCount user + 1) None)
                     id = Some user1).
      { rewrite findUnique_updateUser, String.eqb_refl, F. reflexivity. }
      destruct (IH _ user1 F1) as [[u [Fu [C [R Pl]]]] [Len Out]];
        [intros t a I; apply (W t a); now right | cbn; lia|].
      cbn [user1 User.aiRequestsCount User.aiRequestsResetAt
             User.subscription_type] in C, R, Pl, Out.
      split; [exists u; repeat split; auto; lia|].
      split; [now rewrite Len|].
      intros [|k] t a N; cbn [nth_error] in *.
      * injection N as <- <-.
        destruct (Z.ltb_spec (User.aiRequestsCount user + Z.of_nat 0)
                    (userLimitOf (User.subscription_type user)));
          [reflexivity | lia].
      * rewrite (Out k t a N).
        replace (User.aiRequestsCount user + 1 + Z.of_nat k)
          with (User.aiRequestsCount user + Z.of_nat (S k)) by lia.
        reflexivity.
Qed.

Lemma quota_fills_up_witness :
  findUnique [sampleUser 8 0 "FREE"] "u1" = Some (sampleUser 8 0 "FREE")
  /\ findUnique
       (fst (analyzeMealCalls [sampleUser 8 0 "FREE"] "u1"
               [(msPerHour, inr 1%nat); (2 * msPerHour, inr 2%nat);
                (3 * msPerHour, inr 3%nat)]))
       "u1"
     = Some (sampleUser 10 0 "FREE")
  /\ snd (analyzeMealCalls [sampleUser 8 0 "FREE"] "u1"
            [(msPerHour, inr 1%nat); (2 * msPerHour, inr 2%nat);
             (3 * msPerHour, inr 3%nat)])
     = [inr 1%nat; inr 2%nat; inl (limitReached 10)].
Proof.
  split; [reflexivity|].
  destruct (quota_fills_up nat
              [(msPerHour, inr 1%nat); (2 * msPerHour, inr 2%nat);
               (3 * msPerHour, inr 3%nat)]
              [sampleUser 8 0 "FREE"] "u1" (sampleUser 8 0 "FREE"))
    as [[u [E _]] _].
  - reflexivity.
  - intros now analysis [[= <- <-] | [[= <- <-] | [[= <- <-] | []]]];
      vm_compute; reflexivity.
  - vm_compute. discriminate.
  - split; [|vm_compute; reflexivity].
    rewrite E. vm_compute in E. injection E as <-. reflexivity.
Defined.

(** ** Daily statistics *)

Lemma getDailyStats_fold (meals : list Meal) :
  forall acc : DailyStats.t,
    let r :=
      fold_left
        (fun acc meal => {|
           DailyStats.calories := (DailyStats.calories acc + orZero (calories meal))%Q;
           DailyStats.protein := (DailyStats.protein acc + orZero (protein_g meal))%Q;
           DailyStats.carbs := (DailyStats.carbs acc + orZero (carbs_g meal))%Q;
           DailyStats.fat := (DailyStats.fat acc + orZero (fats_g meal))%Q;
           DailyStats.fiber := (DailyStats.fiber acc + orZero (fiber_g meal))%Q;
           DailyStats.sugar := (DailyStats.sugar acc + orZero (sugar_g meal))%Q;
           DailyStats.mealCount := DailyStats.mealCount acc + 1
         |}) meals acc in
    DailyStats.mealCount r
    = DailyStats.mealCount acc + Z.of_nat (List.length meals)
    /\ (DailyStats.calories r
        == DailyStats.calories acc + sumQ (map (mealValue Calories) meals))%Q
    /\ (DailyStats.protein r
        == DailyStats.protein acc + sumQ (map (mealValue Protein) meals))%Q.
Proof.
  induction meals as [|m meals IH]; intro acc;
    cbn [fold_left map sumQ fold_right List.length].
  - repeat split; try lia; ring.
  - destruct (IH {|
       DailyStats.calories := (DailyStats.calories acc + orZero (calories m))%Q;
       DailyStats.protein := (DailyStats.protein acc + orZero (protein_g m))%Q;
       DailyStats.carbs := (DailyStats.carbs acc + orZero (carbs_g m))%Q;
       DailyStats.fat := (DailyStats.fat acc + orZero (fats_g m))%Q;
       DailyStats.fiber := (DailyStats.fiber acc + orZero (fiber_g m))%Q;
       DailyStats.sugar := (DailyStats.sugar acc + orZero (sugar_g m))%Q;
       DailyStats.mealCount := DailyStats.mealCount acc + 1 |})
      as [C [K P]].
    cbv zeta in *. rewrite C, K, P.
    cbn [DailyStats.mealCount DailyStats.calories DailyStats.protein mealValue].
    fold (sumQ (map (mealValue Calories) meals)).
    fold (sumQ (map (mealValue Protein) meals)).
    cbn [mealValue].
    repeat split; try lia; ring.
Qed.

Lemma mealsBetween_split (table : list Meal) (userId : string) (a b c : Z)
    (n : Nutrient) :
  a <= b -> b <= c ->
  (List.length (mealsBetween table userId a c)
   = List.length (mealsBetween table userId a b)
     + List.length (mealsBetween table userId b c))%nat
  /\ (sumQ (map (mealValue n) (mealsBetween table userId a c))
      == sumQ (map (mealValue n) (mealsBetween table userId a b))
         + sumQ (map (mealValue n) (mealsBetween table userId b c)))%Q.
Proof.
  intros AB BC. unfold mealsBetween.
  induction table as [|m table [IHl IHs]]; [split; [reflexivity | cbn; ring]|].
  cbn [filter].
  destruct (String.eqb (user_id m) userId); cbn [andb]; [|now split].
  destruct (Z.leb_spec a (upload_time m)); destruct (Z.ltb_spec (upload_time m) c);
    destruct (Z.ltb_spec (upload_time m) b); destruct (Z.leb_spec b (upload_time m));
    cbn [andb]; try lia;
    cbn [List.length map sumQ fold_right];
    repeat match goal with
           | |- context [fold_right Qplus 0%Q ?l] => fold (sumQ l)
           end;
    (split; [lia | rewrite IHs; ring]).
Qed.

(** X19. The daily statistics count each meal of the user uploaded from the
    start instant up to, but not including, the end instant, the same local
    time on the next day, a missing calorie value counting as 0. Since the
    range is half-open, the statistics of a day and of the day that starts
    where it ends count no meal twice and lose none: their meal counts and
    calorie totals add up to those of the range the two days cover, however
    long each of the days is. *)
Theorem daily_stats_partition (table : list Meal) (userId : string)
    (startDate endDate : Z) :
  DailyStats.mealCount (getDailyStats table userId startDate endDate)
  = Z.of_nat (List.length (mealsBetween table userId startDate endDate))
  /\ (DailyStats.calories (getDailyStats table userId startDate endDate)
      == sumQ (map (mealValue Calories)
                 (mealsBetween table userId startDate endDate)))%Q
  /\ (forall m, In m (mealsBetween table userId startDate endDate) ->
                In m table /\ user_id m = userId
                /\ startDate <= upload_time m < endDate)
  /\ (forall nextEnd : Z,
        startDate <= endDate -> endDate <= nextEnd ->
        DailyStats.mealCount (getDailyStats table userId startDate endDate)
        + DailyStats.mealCount (getDailyStats table userId endDate nextEnd)
        = Z.of_nat (List.length (mealsBetween table userId startDate nextEnd))
        /\ (DailyStats.calories (getDailyStats table userId startDate endDate)
            + DailyStats.calories (getDailyStats table userId endDate nextEnd)
            == sumQ (map (mealValue Calories)
                       (mealsBetween table userId startDate nextEnd)))%Q).
Proof.
  assert (D : forall a b,
             DailyStats.mealCount (getDailyStats table userId a b)
             = Z.of_nat (List.length (mealsBetween table userId a b))
             /\ (DailyStats.calories (getDailyStats table userId a b)
                 == sumQ (map (mealValue Calories)
                            (mealsBetween table userId a b)))%Q).
  { intros a b. unfold getDailyStats.
    destruct (getDailyStats_fold (mealsBetween table userId a b)
                {| DailyStats.calories := 0%Q; DailyStats.protein := 0%Q;
                   DailyStats.carbs := 0%Q; DailyStats.fat := 0%Q;
                   DailyStats.fiber := 0%Q; DailyStats.sugar := 0%Q;
                   DailyStats.mealCount := 0 |}) as [C [K _]].
    cbv zeta in *. unfold mealsBetween in *. rewrite C, K.
    cbn [DailyStats.mealCount DailyStats.calories]. split; [lia | ring]. }
  destruct (D startDate endDate) as [C1 K1].
  split; [exact C1|]. split; [exact K1|]. split.
  - intros m H. unfold mealsBetween in H. apply filter_In in H as [I S].
    apply andb_true_iff in S as [S L]. apply andb_true_iff in S as [U G].
    apply String.eqb_eq in U. apply Z.leb_le in G. apply Z.ltb_lt in L. auto.
  - intros nextEnd AB BC.
    destruct (D endDate nextEnd) as [C2 K2].
    destruct (mealsBetween_split table userId startDate endDate nextEnd
                Calories AB BC) as [L S].
    split.
    + rewrite C1, C2, L. lia.
    + rewrite K1, K2, S. reflexivity.
Qed.

(** ** Favorites and feedback *)

Lemma getField_setField (o : JsonObject) (key : string) (value : Json)
    (k : string) :
  getField (setField o key value) k
  = if String.eqb k key then Some value else getField o k.
Proof.
  induction o as [|[k0 v0] o IH]; cbn [setField getField]; [reflexivity|].
  destruct (String.eqb_spec key k0) as [E | E]; cbn [getField].
  - subst k0. destruct (String.eqb k key); reflexivity.
  - rewrite IH.
    destruct (String.eqb_spec k k0); destruct (String.eqb_spec k key);
      try reflexivity; congruence.
Qed.

Lemma findFirst_found (rows : list MealRow) (id : Z) (userId : string)
    (meal : MealRow) :
  findFirst rows id userId = Some meal ->
  In meal rows /\ meal_id meal = id /\ user_id (columns meal) = userId.
Proof.
  induction rows as [|r rows IH]; cbn [findFirst]; [discriminate|].
  destruct ((meal_id r =? id) && String.eqb (user_id (columns r)) userId)%bool
    eqn:E.
  - intros [= <-]. apply andb_true_iff in E as [I U].
    apply Z.eqb_eq in I. apply String.eqb_eq in U. split; [now left | auto].
  - intro H. destruct (IH H) as [I R]. split; [now right | exact R].
Qed.

Lemma findFirst_updateAdditives (rows : list MealRow) (id : Z)
    (additives : Json) (userId : string) (meal : MealRow) :
  findFirst rows id userId = Some meal ->
  findFirst (updateAdditives rows id additives) id userId
  = Some {| meal_id := meal_id meal; columns := columns meal;
            additives_json := Some additives |}.
Proof.
  induction rows as [|r rows IH]; cbn [findFirst updateAdditives map];
    [discriminate|].
  fold (updateAdditives rows id additives).
  destruct (Z.eqb_spec (meal_id r) id) as [E | E]; cbn [andb].
  - cbn [meal_id columns]. rewrite (proj2 (Z.eqb_eq _ _) E). cbn [andb].
    destruct (String.eqb (user_id (columns r)) userId).
    + now intros [= <-].
    + exact IH.
  - rewrite (proj2 (Z.eqb_neq _ _) E). cbn [andb]. exact IH.
Qed.

Lemma property_spread (v : option Json) (key : string) :
  objectOrNull v -> getField (spread v) key = property v key.
Proof. intros [-> | [fields ->]]; reflexivity. Qed.

Lemma orElse_bool (b : bool) : orElse (Some (JBool b)) (JBool false) = JBool b.
Proof. destruct b; reflexivity. Qed.

Section Toggle.

Variables (rows : list MealRow) (userId mealId : string) (id : Z).
Variable meal : MealRow.
Hypothesis parsed : parseInt mealId = Some id.
Hypothesis found : findFirst rows id userId = Some meal.

Lemma toggleMealFavorite_found (isoNow : string) :
  let flag := negb (truthy (property (additives_json meal) "isFavorite")) in
  let additives :=
    JObj (setField
            (setField (spread (additives_json meal)) "isFavorite" (JBool flag))
            "favoriteUpdatedAt" (JStr isoNow)) in
  toggleMealFavorite rows isoNow userId mealId
  = (updateAdditives rows id additives,
     Resolved (flag,
               transformMealData
                 {| meal_id := meal_id meal; columns := columns meal;
                    additives_json := Some additives |})).
Proof. unfold toggleMealFavorite. rewrite parsed, found. reflexivity. Qed.

End Toggle.

(** X20. Marking a meal of the user as favorite flips the flag the client
    sees: the call answers the negation of the current flag and stores it,
    and a second call answers the flag the meal had at first, so that two
    calls leave the favorite status as it was. *)
Theorem favorite_toggles_back (rows : list MealRow) (userId mealId : string)
    (id : Z) (meal : MealRow) (iso1 iso2 : string) :
  parseInt mealId = Some id ->
  findFirst rows id userId = Some meal ->
  let current := truthy (property (additives_json meal) "isFavorite") in
  exists rows1 rows2 c1 c2,
    toggleMealFavorite rows iso1 userId mealId
    = (rows1, Resolved (negb current, c1))
    /\ ClientMeal.isFavorite c1 = JBool (negb current)
    /\ toggleMealFavorite rows1 iso2 userId mealId
       = (rows2, Resolved (current, c2))
    /\ ClientMeal.isFavorite c2 = JBool current.
Proof.
  intros P F current.
  assert (Shown : forall (o : JsonObject) (b : bool) (iso : string) m,
             additives_json m
             = Some (JObj (setField (setField o "isFavorite" (JBool b))
                             "favoriteUpdatedAt" (JStr iso))) ->
             property (additives_json m) "isFavorite" = Some (JBool b)).
  { intros o b iso m ->. cbn [property]. rewrite !getField_setField.
    reflexivity. }
  pose proof (toggleMealFavorite_found rows userId mealId id meal P F iso1)
    as T1. cbv zeta in T1. fold current in T1.
  match type of T1 with
  | _ = (?r, Resolved (_, transformMealData ?m)) =>
      set (rows1 := r) in *; set (meal1 := m) in *
  end.
  assert (F1 : findFirst rows1 id userId = Some meal1)
    by (apply findFirst_updateAdditives; exact F).
  assert (S1 : property (additives_json meal1) "isFavorite"
               = Some (JBool (negb current)))
    by (eapply Shown; reflexivity).
  pose proof (toggleMealFavorite_found rows1 userId mealId id meal1 P F1 iso2)
    as T2. cbv zeta in T2. rewrite S1 in T2. cbn [truthy] in T2.
  rewrite negb_involutive in T2.
  match type of T2 with
  | _ = (?r, Resolved (_, transformMealData ?m)) =>
      set (rows2 := r) in *; set (meal2 := m) in *
  end.
  exists rows1, rows2, (transformMealData meal1), (transformMealData meal2).
  split; [exact T1|]. split.
  - unfold transformMealData. cbn [ClientMeal.isFavorite].
    rewrite S1. apply orElse_bool.
  - split; [exact T2|].
    unfold transformMealData. cbn [ClientMeal.isFavorite].
    rewrite (Shown _ current iso2 meal2 eq_refl). apply orElse_bool.
Qed.

Lemma favorite_toggles_back_witness :
  parseInt "7" = Some 7
  /\ findFirst [sampleRow 7 "u1" None] 7 "u1" = Some (sampleRow 7 "u1" None)
  /\ exists rows1 c1,
       toggleMealFavorite [sampleRow 7 "u1" None] "t1" "u1" "7"
       = (rows1, Resolved (true, c1))
       /\ ClientMeal.isFavorite c1 = JBool true.
Proof.
  split; [reflexivity|]. split; [reflexivity|].
  destruct (favorite_toggles_back [sampleRow 7 "u1" None] "u1" "7" 7
              (sampleRow 7 "u1" None) "t1" "t2" eq_refl eq_refl)
    as [rows1 [rows2 [c1 [c2 [T1 [S1 _]]]]]].
  exists rows1, c1. split; [exact T1 | exact S1].
Defined.

Lemma stored_ratings (feedback : Feedback) (isoNow : string) :
  let stored :=
    withRating
      (withRating
         (withRating
            (withRating [] "tasteRating" (fb_tasteRating feedback))
            "satietyRating" (fb_satietyRating feedback))
         "energyRating" (fb_energyRating feedback))
      "heavinessRating" (fb_heavinessRating feedback)
    ++ [("updatedAt"%string, JStr isoNow)] in
  getField stored "tasteRating" = option_map JNum (fb_tasteRating feedback)
  /\ getField stored "satietyRating"
     = option_map JNum (fb_satietyRating feedback)
  /\ getField stored "energyRating"
     = option_map JNum (fb_energyRating feedback)
  /\ getField stored "heavinessRating"
     = option_map JNum (fb_heavinessRating feedback).
Proof.
  destruct feedback as [[t|] [s|] [e|] [h|]]; repeat split; reflexivity.
Qed.

Lemma orElse_rating (rating : option Q) :
  orElse (option_map JNum rating) (JNum 0) = ratingShown rating.
Proof.
  destruct rating as [q|]; [|reflexivity].
  cbn. destruct (Qeq_bool q 0); reflexivity.
Qed.

Lemma saveMealFeedback_found (rows : list MealRow) (isoNow : string)
    (userId mealId : string) (id : Z) (meal : MealRow) (feedback : Feedback) :
  parseInt mealId = Some id ->
  findFirst rows id userId = Some meal ->
  let stored :=
    withRating
      (withRating
         (withRating
            (withRating [] "tasteRating" (fb_tasteRating feedback))
            "satietyRating" (fb_satietyRating feedback))
         "energyRating" (fb_energyRating feedback))
      "heavinessRating" (fb_heavinessRating feedback)
    ++ [("updatedAt"%string, JStr isoNow)] in
  let additives :=
    JObj (setField (spread (additives_json meal)) "feedback" (JObj stored)) in
  saveMealFeedback rows isoNow userId mealId feedback
  = (updateAdditives rows id additives,
     Resolved (transformMealData
                 {| meal_id := meal_id meal; columns := columns meal;
                    additives_json := Some additives |})).
Proof.
  intros P F. unfold saveMealFeedback. rewrite P, F. reflexivity.
Qed.

(** X21. A feedback saved for a meal of the user is what the client then
    sees: each of the four ratings shows the value given, and 0 when the
    rating was left out or is 0. The feedback is stored as a whole, so a
    rating saved earlier and left out this time shows 0 again. The favorite
    flag of a meal whose JSON column is an object or null is not changed. *)
Theorem feedback_is_read_back (rows : list MealRow) (isoNow : string)
    (userId mealId : string) (id : Z) (meal : MealRow) (feedback : Feedback) :
  parseInt mealId = Some id ->
  findFirst rows id userId = Some meal ->
  exists rows' shown,
    saveMealFeedback rows isoNow userId mealId feedback
    = (rows', Resolved shown)
    /\ option_map transformMealData (findFirst rows' id userId) = Some shown
    /\ ClientMeal.tasteRating shown = ratingShown (fb_tasteRating feedback)
    /\ ClientMeal.satietyRating shown = ratingShown (fb_satietyRating feedback)
    /\ ClientMeal.energyRating shown = ratingShown (fb_energyRating feedback)
    /\ ClientMeal.heavinessRating shown
       = ratingShown (fb_heavinessRating feedback)
    /\ (objectOrNull (additives_json meal) ->
        ClientMeal.isFavorite shown
        = ClientMeal.isFavorite (transformMealData meal)).
Proof.
  intros P F.
  pose proof (saveMealFeedback_found rows isoNow userId mealId id meal feedback
                P F) as S. cbv zeta in S.
  destruct (stored_ratings feedback isoNow) as [G1 [G2 [G3 G4]]].
  cbv zeta in G1, G2, G3, G4.
  match type of S with
  | _ = (?r, Resolved (transformMealData ?m)) =>
      set (rows' := r) in *; set (meal' := m) in *
  end.
  assert (F' : findFirst rows' id userId = Some meal')
    by (apply findFirst_updateAdditives; exact F).
  assert (FB : forall key,
             property (property (additives_json meal') "feedback") key
             = getField
                 (withRating
                    (withRating
                       (withRating
                          (withRating [] "tasteRating" (fb_tasteRating feedback))
                          "satietyRating" (fb_satietyRating feedback))
                       "energyRating" (fb_energyRating feedback))
                    "heavinessRating" (fb_heavinessRating feedback)
                  ++ [("updatedAt"%string, JStr isoNow)]) key).
  { intro key. unfold meal'. cbn [additives_json property].
    rewrite getField_setField. reflexivity. }
  exists rows', (transformMealData meal').
  split; [exact S|]. rewrite F'. split; [reflexivity|].
  unfold transformMealData at 1 2 3 4.
  cbn [ClientMeal.tasteRating ClientMeal.satietyRating ClientMeal.energyRating
         ClientMeal.heavinessRating].
  rewrite !FB, G1, G2, G3, G4, !orElse_rating.
  repeat (split; [reflexivity|]).
  intro O. unfold transformMealData. cbn [ClientMeal.isFavorite].
  f_equal. unfold meal'. cbn [additives_json property].
  rewrite getField_setField. cbn [String.eqb Ascii.eqb Bool.eqb].
  now apply property_spread.
Qed.

Lemma feedback_is_read_back_witness :
  parseInt "7" = Some 7
  /\ findFirst [sampleRow 7 "u1" None] 7 "u1" = Some (sampleRow 7 "u1" None)
  /\ exists rows' shown,
       saveMealFeedback [sampleRow 7 "u1" None] "t1" "u1" "7"
         {| fb_tasteRating := Some 4%Q; fb_satietyRating := None;
            fb_energyRating := Some 0%Q; fb_heavinessRating := Some 2%Q |}
       = (rows', Resolved shown)
       /\ ClientMeal.tasteRating shown = JNum 4
       /\ ClientMeal.satietyRating shown = JNum 0.
Proof.
  split; [reflexivity|]. split; [reflexivity|].
  destruct (feedback_is_read_back [sampleRow 7 "u1" None] "t1" "u1" "7" 7
              (sampleRow 7 "u1" None)
              {| fb_tasteRating := Some 4%Q; fb_satietyRating := None;
                 fb_energyRating := Some 0%Q; fb_heavinessRating := Some 2%Q |}
              eq_refl eq_refl)
    as [rows' [shown [S [_ [T [Sa _]]]]]].
  exists rows', shown. split; [exact S|]. split; [exact T | exact Sa].
Defined.

(** X22. Toggling the favorite flag of a meal whose JSON column is an object
    or null keeps the feedback: the four ratings the client sees after the
    call are those it saw before. *)
Theorem favorite_keeps_feedback (rows : list MealRow) (isoNow : string)
    (userId mealId : string) (id : Z) (meal : MealRow) :
  parseInt mealId = Some id ->
  findFirst rows id userId = Some meal ->
  objectOrNull (additives_json meal) ->
  exists rows' flag shown,
    toggleMealFavorite rows isoNow userId mealId
    = (rows', Resolved (flag, shown))
    /\ ClientMeal.tasteRating shown
       = ClientMeal.tasteRating (transformMealData meal)
    /\ ClientMeal.satietyRating shown
       = ClientMeal.satietyRating (transformMealData meal)
    /\ ClientMeal.energyRating shown
       = ClientMeal.energyRating (transformMealData meal)
    /\ ClientMeal.heavinessRating shown
       = ClientMeal.heavinessRating (transformMealData meal).
Proof.
  intros P F O.
  pose proof (toggleMealFavorite_found rows userId mealId id meal P F isoNow)
    as T. cbv zeta in T.
  match type of T with
  | _ = (?r, Resolved (?b, transformMealData ?m)) =>
      set (meal' := m) in *; exists r, b, (transformMealData meal')
  end.
  split; [exact T|].
  assert (E : property (additives_json meal') "feedback"
              = property (additives_json meal) "feedback").
  { unfold meal'. cbn [additives_json property].
    rewrite !getField_setField. cbn [String.eqb Ascii.eqb Bool.eqb].
    now apply property_spread. }
  unfold transformMealData.
  cbn [ClientMeal.tasteRating ClientMeal.satietyRating ClientMeal.energyRating
         ClientMeal.heavinessRating].
  rewrite E. repeat split.
Qed.

Lemma favorite_keeps_feedback_witness :
  parseInt "7" = Some 7
  /\ findFirst
       [sampleRow 7 "u1"
          (Some (JObj [("feedback"%string,
                        JObj [("tasteRating"%string, JNum 5)])]))] 7 "u1"
     = Some (sampleRow 7 "u1"
               (Some (JObj [("feedback"%string,
                             JObj [("tasteRating"%string, JNum 5)])])))
  /\ exists rows' flag shown,
       toggleMealFavorite
         [sampleRow 7 "u1"
            (Some (JObj [("feedback"%string,
                          JObj [("tasteRating"%string, JNum 5)])]))]
         "t1" "u1" "7"
       = (rows', Resolved (flag, shown))
       /\ ClientMeal.tasteRating shown = JNum 5.
Proof.
  split; [reflexivity|]. split; [reflexivity|].
  destruct (favorite_keeps_feedback
              [sampleRow 7 "u1"
                 (Some (JObj [("feedback"%string,
                               JObj [("tasteRating"%string, JNum 5)])]))]
              "t1" "u1" "7" 7
              (sampleRow 7 "u1"
                 (Some (JObj [("feedback"%string,
                               JObj [("tasteRating"%string, JNum 5)])])))
              eq_refl eq_refl)
    as [rows' [flag [shown [T [E _]]]]].
  { right. eexists. reflexivity. }
  exists rows', flag, shown. split; [exact T|]. rewrite E. reflexivity.
Defined.

Lemma findFirst_none (rows : list MealRow) (id : Z) (userId : string) :
  (forall r, In r rows -> meal_id r = id -> user_id (columns r) <> userId) ->
  findFirst rows id userId = None.
Proof.
  induction rows as [|r rows IH]; intro H; [reflexivity|].
  cbn [findFirst].
  destruct (Z.eqb_spec (meal_id r) id) as [E | E]; cbn [andb].
  - destruct (String.eqb_spec (user_id (columns r)) userId) as [U | U].
    + exfalso. exact (H r (or_introl eq_refl) E U).
    + apply IH. intros r' I. apply H. now right.
  - apply IH. intros r' I. apply H. now right.
Qed.

Lemma updateAdditives_frame (rows : list MealRow) (id : Z) (additives : Json) :
  map meal_id (updateAdditives rows id additives) = map meal_id rows
  /\ map columns (updateAdditives rows id additives) = map columns rows
  /\ forall r, In r rows -> meal_id r <> id ->
               In r (updateAdditives rows id additives).
Proof.
  unfold updateAdditives. induction rows as [|r rows [I [C F]]].
  - repeat split. intros r [].
  - cbn [map]. rewrite I, C.
    destruct (Z.eqb_spec (meal_id r) id) as [E | E]; cbn [meal_id columns].
    + repeat split. intros r' [<- | H] N; [congruence|].
      right. now apply F.
    + repeat split. intros r' [<- | H] N; [now left|].
      right. now apply F.
Qed.

Lemma toggleMealFavorite_writes (rows : list MealRow) (isoNow : string)
    (userId mealId : string) :
  fst (toggleMealFavorite rows isoNow userId mealId) = rows
  \/ exists id additives,
       parseInt mealId = Some id
       /\ fst (toggleMealFavorite rows isoNow userId mealId)
          = updateAdditives rows id additives.
Proof.
  unfold toggleMealFavorite.
  destruct (parseInt mealId) as [id|]; [|now left].
  destruct (findFirst rows id userId); [|now left].
  right. eexists. eexists. split; reflexivity.
Qed.

Lemma saveMealFeedback_writes (rows : list MealRow) (isoNow : string)
    (userId mealId : string) (feedback : Feedback) :
  fst (saveMealFeedback rows isoNow userId mealId feedback) = rows
  \/ exists id additives,
       parseInt mealId = Some id
       /\ fst (saveMealFeedback rows isoNow userId mealId feedback)
          = updateAdditives rows id additives.
Proof.
  unfold saveMealFeedback.
  destruct (parseInt mealId) as [id|]; [|now left].
  destruct (findFirst rows id userId); [|now left].
  right. eexists. eexists. split; reflexivity.
Qed.

(** X23. A meal is changed only by its owner and only in its JSON column.
    For a meal id that is a decimal numeral below 2^53, which [parseInt]
    reads exactly: when no row has that id for
    the given user, be it the meal of someone else, marking it as favorite
    or saving a feedback throws "Meal not found" and leaves the table as it
    was; in every case the ids and the columns of all rows stay as they
    were, and so does every row with another id. *)
Theorem meal_changes_need_the_owner (rows : list MealRow) (isoNow : string)
    (userId mealId : string) (id : Z) (feedback : Feedback) :
  parseInt mealId = Some id ->
  Z.abs id < 2 ^ 53 ->
  ((forall r, In r rows -> meal_id r = id -> user_id (columns r) <> userId) ->
   toggleMealFavorite rows isoNow userId mealId
   = (rows, Thrown "Meal not found")
   /\ saveMealFeedback rows isoNow userId mealId feedback
      = (rows, Thrown "Meal not found"))
  /\ (forall rows',
        rows' = fst (toggleMealFavorite rows isoNow userId mealId)
        \/ rows' = fst (saveMealFeedback rows isoNow userId mealId feedback) ->
        map meal_id rows' = map meal_id rows
        /\ map columns rows' = map columns rows
        /\ forall r, In r rows -> meal_id r <> id -> In r rows').
Proof.
  intros P _. split.
  - intro H. unfold toggleMealFavorite, saveMealFeedback.
    rewrite P, (findFirst_none rows id userId H). split; reflexivity.
  - intros rows' H.
    assert (W : rows' = rows
                \/ exists id' additives,
                     parseInt mealId = Some id'
                     /\ rows' = updateAdditives rows id' additives).
    { destruct H as [-> | ->];
        [apply toggleMealFavorite_writes | apply saveMealFeedback_writes]. }
    destruct W as [-> | [id' [additives [P' ->]]]]; [auto|].
    assert (id' = id) by congruence. subst id'.
    destruct (updateAdditives_frame rows id additives) as [I [C F]].
    split; [exact I|]. split; [exact C|]. exact F.
Qed.

Lemma meal_changes_need_the_owner_witness :
  parseInt "7" = Some 7
  /\ toggleMealFavorite [sampleRow 7 "u2" None; sampleRow 8 "u1" None]
       "t1" "u1" "7"
     = ([sampleRow 7 "u2" None; sampleRow 8 "u1" None],
        Thrown "Meal not found")
  /\ In (sampleRow 7 "u2" None)
       (fst (toggleMealFavorite
               [sampleRow 7 "u2" None; sampleRow 8 "u1" None] "t1" "u1" "8")).
Proof.
  split; [reflexivity|]. split.
  - destruct (meal_changes_need_the_owner
                [sampleRow 7 "u2" None; sampleRow 8 "u1" None] "t1" "u1" "7" 7
                {| fb_tasteRating := None; fb_satietyRating := None;
                   fb_energyRating := None; fb_heavinessRating := None |}
                eq_refl eq_refl) as [N _].
    apply N. intros r [<- | [<- | []]]; [discriminate|].
    intro E. vm_compute in E. discriminate.
  - vm_compute. left. reflexivity.
Defined.

(** * Properties of the calendar screen *)

Lemma progress_at_least (t actual goal : Q) :
  (0 < goal)%Q -> (t <= 150)%Q ->
  geq (getProgressPercentage actual goal) t = true
  <-> (t * goal <= actual * 100)%Q.
Proof.
  intros G T. rewrite geq_true. unfold getProgressPercentage.
  destruct (Qeq_bool goal 0) eqn:E.
  { apply Qeq_bool_iff in E. lra. }
  rewrite Q.min_glb_iff.
  assert (F : (actual / goal * 100 * goal == actual * 100)%Q)
    by (field; lra).
  rewrite <- (Qmult_le_r t (actual / goal * 100) goal G), F.
  tauto.
Qed.

Lemma progress_below (t actual goal : Q) :
  (0 < goal)%Q -> (t <= 150)%Q ->
  geq (getProgressPercentage actual goal) t = false
  <-> (actual * 100 < t * goal)%Q.
Proof.
  intros G T. rewrite <- not_true_iff_false, (progress_at_least t actual goal G T).
  split; intro H; [now apply Qnot_le_lt | now apply Qlt_not_le].
Qed.

Lemma day_colors_differ :
  "#8B0000"%string <> "#4CAF50"%string /\ "#8B0000"%string <> "#FF9800"%string
  /\ "#8B0000"%string <> "#F44336"%string /\ "#4CAF50"%string <> "#FF9800"%string
  /\ "#4CAF50"%string <> "#F44336"%string /\ "#FF9800"%string <> "#F44336"%string.
Proof. repeat split; discriminate. Qed.

(** X25. The color of a day with a positive calorie goal depends on the
    eaten calories alone: dark red from 110 percent of the goal, green from
    the goal up to 110 percent, orange from 70 percent up to the goal, and
    red below 70 percent. The progress shown never exceeds 150 percent, and
    a day whose goal is 0 has progress 0 and is red, whatever was eaten. *)
Theorem day_color_by_progress (dayData : DayData.t) :
  let actual := DayData.caloriesActual dayData in
  let goal := DayData.caloriesGoal dayData in
  ((0 < goal)%Q ->
   (getDayColor dayData = "#8B0000"%string <-> (110 * goal <= actual * 100)%Q)
   /\ (getDayColor dayData = "#4CAF50"%string
       <-> (100 * goal <= actual * 100 /\ actual * 100 < 110 * goal)%Q)
   /\ (getDayColor dayData = "#FF9800"%string
       <-> (70 * goal <= actual * 100 /\ actual * 100 < 100 * goal)%Q)
   /\ (getDayColor dayData = "#F44336"%string
       <-> (actual * 100 < 70 * goal)%Q))
  /\ ((goal == 0)%Q ->
      (getProgressPercentage actual goal == 0)%Q
      /\ getDayColor dayData = "#F44336"%string)
  /\ (getProgressPercentage actual goal <= 150)%Q.
Proof.
  intros actual goal. split; [|split].
  - intro G. unfold getDayColor. fold actual goal.
    destruct day_colors_differ as [D1 [D2 [D3 [D4 [D5 D6]]]]].
    destruct (geq (getProgressPercentage actual goal) 110) eqn:E1.
    { apply progress_at_least in E1; [|exact G|lra].
      repeat split; intros; try reflexivity; try congruence; try lra. }
    apply progress_below in E1; [|exact G|lra].
    destruct (geq (getProgressPercentage actual goal) 100) eqn:E2.
    { apply progress_at_least in E2; [|exact G|lra].
      repeat split; intros; try reflexivity; try congruence; try lra. }
    apply progress_below in E2; [|exact G|lra].
    destruct (geq (getProgressPercentage actual goal) 70) eqn:E3.
    { apply progress_at_least in E3; [|exact G|lra].
      repeat split; intros; try reflexivity; try congruence; try lra. }
    apply progress_below in E3; [|exact G|lra].
    repeat split; intros; try reflexivity; try congruence; try lra.
  - intro Z0. unfold getDayColor, getProgressPercentage. fold actual goal.
    apply Qeq_bool_iff in Z0. rewrite Z0. split; reflexivity.
  - unfold getProgressPercentage.
    destruct (Qeq_bool goal 0); [lra | apply Q.le_min_r].
Qed.

Lemma day_color_by_progress_witness :
  (0 < DayData.caloriesGoal (dayWithCalories 2100 2000))%Q
  /\ getDayColor (dayWithCalories 2100 2000) = "#4CAF50"%string.
Proof.
  split; [reflexivity|].
  destruct (day_color_by_progress (dayWithCalories 2100 2000)) as [C _].
  destruct (C eq_refl) as [_ [G _]].
  apply G. split; [vm_compute; discriminate | vm_compute; reflexivity].
Defined.

(** ** The grid of the month *)

(** X26. The grid of a month starts with one empty cell for each weekday
    before the first of the month and continues with one cell for each day:
    day [d] sits at index [startingDayOfWeek + d - 1] and holds the data of
    the store for its date string, or else a day with no calories eaten, the
    goals 2000, 150, 250 and 67 and no event, which is colored red. *)
Theorem month_grid_layout (calendarData : string -> option DayData.t)
    (year month : Z) (daysInMonth startingDayOfWeek : nat) :
  let days :=
    getDaysInMonth calendarData year month daysInMonth startingDayOfWeek in
  List.length days = (startingDayOfWeek + daysInMonth)%nat
  /\ (forall i, (i < startingDayOfWeek)%nat -> nth_error days i = Some None)
  /\ (forall d, (1 <= d <= daysInMonth)%nat ->
      exists dayData,
        nth_error days (startingDayOfWeek + d - 1) = Some (Some dayData)
        /\ (forall stored,
              calendarData (dateStrOf year month (Z.of_nat d)) = Some stored ->
              dayData = stored)
        /\ (calendarData (dateStrOf year month (Z.of_nat d)) = None ->
            dayData = emptyDayData (dateStrOf year month (Z.of_nat d))
            /\ getDayColor dayData = "#F44336"%string)).
Proof.
  intro days. unfold days, getDaysInMonth. split; [|split].
  - rewrite length_app, repeat_length, length_map, length_seq. reflexivity.
  - intros i H. rewrite nth_error_app1 by (now rewrite repeat_length).
    apply nth_error_repeat. exact H.
  - intros d [D1 D2].
    rewrite nth_error_app2 by (rewrite repeat_length; lia).
    rewrite repeat_length.
    replace (startingDayOfWeek + d - 1 - startingDayOfWeek)%nat
      with (d - 1)%nat by lia.
    rewrite nth_error_map.
    assert (S : nth_error (seq 1 daysInMonth) (d - 1) = Some d).
    { rewrite nth_error_seq.
      destruct (Nat.ltb_spec (d - 1) daysInMonth); [f_equal; lia | lia]. }
    rewrite S. cbn [option_map].
    eexists. split; [reflexivity|]. split.
    + intros stored ->. reflexivity.
    + intros ->. split; reflexivity.
Qed.

Lemma month_grid_layout_witness :
  (1 <= 1 <= 31)%nat
  /\ nth_error (getDaysInMonth (fun _ => None) 2024 2 31 5) 5
     = Some (Some (emptyDayData "2024-03-01")).
Proof.
  split; [lia|].
  destruct (month_grid_layout (fun _ => None) 2024 2 31 5) as [_ [_ G]].
  destruct (G 1%nat) as [dayData [N [_ E]]]; [lia|].
  destruct (E eq_refl) as [-> _]. exact N.
Defined.
